(** * Proposal lifecycle of the candidates API

    A shallow embedding of [app/routers/proposals.py] (the Proposal Service
    over a TinyDB table) and of [worker/worker.py] (the transport client and
    the worker's execution engine), with the properties of the proposal
    state machine proved over it. *)

From Stdlib Require Import List String ZArith Lia Bool Arith DecimalString Sorted.
Import ListNotations.
Open Scope string_scope.
Open Scope list_scope.
Open Scope Z_scope.

Set Implicit Arguments.

(** ** Python results *)

(** An evaluation either returns a value or raises an exception. *)
Inductive pyres (E A : Type) : Type :=
| Return (a : A)
| Raise (e : E).
Arguments Return {E A} a.
Arguments Raise {E A} e.

(** Exceptions on the server side: FastAPI's [HTTPException], and whatever
    else the store or a dict lookup raises (a 500 for the caller). *)
Inductive exn : Type :=
| HTTPException (status_code : Z) (detail : string)
| KeyError (key : string)
| TypeError (text : string).

(** What the claim handler raises when there is nothing to claim. *)
Definition no_work : exn := HTTPException 404 "No proposals to claim".

(** Modelled from the spec: [StateEnum] is imported from the data models
    package, which is not among the sources; the four values are those of
    the specification's data model. *)
Inductive StateEnum : Type := CREATED | CLAIMED | FINISHED | FAILED.

Definition StateEnum_eqb (a b : StateEnum) : bool :=
  match a, b with
  | CREATED, CREATED | CLAIMED, CLAIMED
  | FINISHED, FINISHED | FAILED, FAILED => true
  | _, _ => false
  end.

(** [str(n)] of a Python integer, as the f-string of [mark_processed]
    prints it. *)
Definition str_int (n : Z) : string := NilZero.string_of_int (Z.to_int n).

Section Service.

(** The payloads the service only stores and passes on. *)
Variables (StrategyData Experiments Row : Type).

(** Modelled from the spec: [Candidates] comes from the data models
    package; the service reads only its [rows]. *)
Record Candidates : Type := { rows : list Row }.

(** Modelled from the spec: [ProposalRequest], the body of a creation
    request. *)
Record ProposalRequest : Type := {
  req_strategy_data : StrategyData;
  req_experiments : option Experiments;
  req_n_candidates : Z
}.

(** Modelled from the spec: [Proposal], with the fields of the
    specification's data model. Timestamps are clock readings. *)
Record Proposal : Type := {
  id : option Z;
  strategy_data : StrategyData;
  experiments : option Experiments;
  n_candidates : Z;
  state : StateEnum;
  candidates : option Candidates;
  error_message : option string;
  created_at : Z;
  last_updated_at : Z
}.

(** The proposal built from the dumped request: the fields of the
    request, every other field at its default. *)
Definition Proposal_of_request (r : ProposalRequest) (now : Z) : Proposal :=
  {| id := None;
     strategy_data := req_strategy_data r;
     experiments := req_experiments r;
     n_candidates := req_n_candidates r;
     state := CREATED;
     candidates := None;
     error_message := None;
     created_at := now;
     last_updated_at := now |}.

(** Field assignments, as [db.update] with a dict of fields and as the
    attribute assignments of the handlers perform them. *)
Definition set_id (i : Z) (p : Proposal) : Proposal :=
  {| id := Some i; strategy_data := strategy_data p;
     experiments := experiments p; n_candidates := n_candidates p;
     state := state p; candidates := candidates p;
     error_message := error_message p; created_at := created_at p;
     last_updated_at := last_updated_at p |}.

Definition set_state (s : StateEnum) (p : Proposal) : Proposal :=
  {| id := id p; strategy_data := strategy_data p;
     experiments := experiments p; n_candidates := n_candidates p;
     state := s; candidates := candidates p;
     error_message := error_message p; created_at := created_at p;
     last_updated_at := last_updated_at p |}.

Definition set_last_updated_at (t : Z) (p : Proposal) : Proposal :=
  {| id := id p; strategy_data := strategy_data p;
     experiments := experiments p; n_candidates := n_candidates p;
     state := state p; candidates := candidates p;
     error_message := error_message p; created_at := created_at p;
     last_updated_at := t |}.

Definition set_candidates (c : Candidates) (p : Proposal) : Proposal :=
  {| id := id p; strategy_data := strategy_data p;
     experiments := experiments p; n_candidates := n_candidates p;
     state := state p; candidates := Some c;
     error_message := error_message p; created_at := created_at p;
     last_updated_at := last_updated_at p |}.

Definition set_error_message (m : string) (p : Proposal) : Proposal :=
  {| id := id p; strategy_data := strategy_data p;
     experiments := experiments p; n_candidates := n_candidates p;
     state := state p; candidates := candidates p;
     error_message := Some m; created_at := created_at p;
     last_updated_at := last_updated_at p |}.

(** ** The TinyDB table

    The default table as the dict TinyDB keeps: document id to document,
    in insertion order. *)
Definition TinyDB : Type := list (Z * Proposal).

Fixpoint db_get (doc_id : Z) (db : TinyDB) : option Proposal :=
  match db with
  | [] => None
  | (i, p) :: rest => if i =? doc_id then Some p else db_get doc_id rest
  end.

Definition db_all (db : TinyDB) : list Proposal := map snd db.

(** [db.search(cond)]: the matching documents in table order. *)
Definition db_search (cond : Proposal -> bool) (db : TinyDB) : list Proposal :=
  filter cond (db_all db).

(** The next document id of a fresh TinyDB instance: 1 on an empty
    table, otherwise the largest id plus one. *)
Definition max_id (db : TinyDB) : Z :=
  fold_right (fun e m => Z.max (fst e) m) 0 db.

Definition next_id (db : TinyDB) : Z := max_id db + 1.

Definition db_insert (doc : Proposal) (db : TinyDB) : Z * TinyDB :=
  let i := next_id db in (i, db ++ [(i, doc)]).

Definition db_has (doc_id : Z) (db : TinyDB) : bool :=
  existsb (fun e => fst e =? doc_id) db.

(** [db.update(fields, doc_ids=[doc_id])]: the update is applied to the
    document of that id; an id that is not in the table is a [KeyError]
    ([None] here). *)
Definition db_update (fields : Proposal -> Proposal) (doc_id : Z)
    (db : TinyDB) : option TinyDB :=
  if db_has doc_id db
  then Some (map (fun e => if fst e =? doc_id then (fst e, fields (snd e)) else e) db)
  else None.

(** ** Handlers: state of the table, and exceptions

    A handler runs on the table and returns or raises; a raise keeps the
    table as it is at that point. *)
Definition M (A : Type) : Type := TinyDB -> pyres exn A * TinyDB.

Definition ret {A} (a : A) : M A := fun db => (Return a, db).
Definition raise {A} (e : exn) : M A := fun db => (Raise e, db).
Definition bind {A B} (m : M A) (k : A -> M B) : M B :=
  fun db => match m db with
            | (Return a, db') => k a db'
            | (Raise e, db') => (Raise e, db')
            end.

Local Notation "x <- m ;; k" := (bind m (fun x => k))
  (at level 61, m at next level, right associativity).
Local Notation "m ;;; k" := (bind m (fun _ => k))
  (at level 61, right associativity).

Definition m_get (doc_id : Z) : M (option Proposal) :=
  fun db => (Return (db_get doc_id db), db).

Definition m_search (cond : Proposal -> bool) : M (list Proposal) :=
  fun db => (Return (db_search cond db), db).

Definition m_insert (doc : Proposal) : M Z :=
  fun db => let (i, db') := db_insert doc db in (Return i, db').

Definition m_update (fields : Proposal -> Proposal) (doc_id : option Z) : M unit :=
  fun db => match doc_id with
            | None => (Raise (KeyError "None"), db)
            | Some i =>
                match db_update fields i db with
                | Some db' => (Return tt, db')
                | None => (Raise (KeyError (str_int i)), db)
                end
            end.

(** The proposal built from what [db.get] returned: a [TypeError] when it
    returned [None]. *)
Definition m_load (doc_id : option Z) : M Proposal :=
  match doc_id with
  | None => raise (TypeError "doc_id")
  | Some i =>
      d <- m_get i ;;
      match d with
      | Some p => ret p
      | None => raise (TypeError "Proposal")
      end
  end.

(** ** The Proposal Service *)

Definition get_proposal_from_db (proposal_id : Z) : M Proposal :=
  dict_proposal <- m_get proposal_id ;;
  match dict_proposal with
  | None => raise (HTTPException 404 "Proposal not found")
  | Some p => ret p
  end.

Definition create_proposal (proposal_request : ProposalRequest) (now : Z)
    : M Proposal :=
  let proposal := Proposal_of_request proposal_request now in
  i <- m_insert proposal ;;
  m_update (set_id i) (Some i) ;;;
  m_load (Some i).

Definition get_proposals : M (list Proposal) :=
  fun db => (Return (db_all db), db).

Definition is_created (p : Proposal) : bool := StateEnum_eqb (state p) CREATED.

Definition claim_proposal (now : Z) : M Proposal :=
  query_list <- m_search is_created ;;
  match query_list with
  | [] => raise (HTTPException 404 "No proposals to claim")
  | proposal :: _ =>
      m_update (fun d => set_last_updated_at now (set_state CLAIMED d))
               (id proposal) ;;;
      m_load (id proposal)
  end.

Definition get_proposal (proposal_id : Z) : M Proposal :=
  get_proposal_from_db proposal_id.

Definition get_candidates (proposal_id : Z) : M Candidates :=
  proposal <- get_proposal_from_db proposal_id ;;
  match candidates proposal with
  | None => raise (HTTPException 404 "Candidates not found")
  | Some c => ret c
  end.

Definition get_state (proposal_id : Z) : M StateEnum :=
  proposal <- get_proposal_from_db proposal_id ;;
  ret (state proposal).

Definition count_mismatch_detail (expected : Z) (got : nat) : string :=
  ("Expected " ++ str_int expected ++ " candidates, got "
     ++ str_int (Z.of_nat got))%string.

Definition mark_processed (proposal_id : Z) (cands : Candidates) (now : Z)
    : M StateEnum :=
  proposal <- get_proposal_from_db proposal_id ;;
  if negb (Z.of_nat (List.length (rows cands)) =? n_candidates proposal)
  then raise (HTTPException 400
                (count_mismatch_detail (n_candidates proposal)
                                       (List.length (rows cands))))
  else
    let proposal := set_candidates cands proposal in
    let proposal := set_last_updated_at now proposal in
    let proposal := set_state FINISHED proposal in
    m_update (fun _ => proposal) (Some proposal_id) ;;;
    ret (state proposal).

(** [error_message["msg"]] on the request's dict. *)
Fixpoint dict_lookup (key : string) (d : list (string * string)) : option string :=
  match d with
  | [] => None
  | (k, v) :: rest => if String.eqb k key then Some v else dict_lookup key rest
  end.

Definition mark_failed (proposal_id : Z) (error_message_body : list (string * string))
    (now : Z) : M StateEnum :=
  proposal <- get_proposal_from_db proposal_id ;;
  let proposal := set_last_updated_at now proposal in
  let proposal := set_state FAILED proposal in
  match dict_lookup "msg" error_message_body with
  | None => raise (KeyError "msg")
  | Some msg =>
      let proposal := set_error_message msg proposal in
      m_update (fun _ => proposal) (Some proposal_id) ;;;
      ret (state proposal)
  end.

(** ** What the writes leave

    The table after an update by document id, and the records the three
    writing handlers store. *)
Definition updated (fields : Proposal -> Proposal) (i : Z) (db : TinyDB) : TinyDB :=
  map (fun e => if fst e =? i then (fst e, fields (snd e)) else e) db.

Definition claimed (now : Z) (p : Proposal) : Proposal :=
  set_last_updated_at now (set_state CLAIMED p).

Definition processed (cands : Candidates) (now : Z) (p : Proposal) : Proposal :=
  set_state FINISHED (set_last_updated_at now (set_candidates cands p)).

Definition failed (msg : string) (now : Z) (p : Proposal) : Proposal :=
  set_error_message msg (set_state FAILED (set_last_updated_at now p)).

(** ** Sequences of service calls

    One call of the service, with the clock reading it sees. *)
Inductive op : Type :=
| OpCreate (proposal_request : ProposalRequest)
| OpList
| OpClaim
| OpGet (proposal_id : Z)
| OpGetCandidates (proposal_id : Z)
| OpGetState (proposal_id : Z)
| OpMarkProcessed (proposal_id : Z) (cands : Candidates)
| OpMarkFailed (proposal_id : Z) (error_message_body : list (string * string)).

(** The table a call leaves behind, whether it returned or raised. *)
Definition exec (o : op) (now : Z) (db : TinyDB) : TinyDB :=
  match o with
  | OpCreate r => snd (create_proposal r now db)
  | OpList => snd (get_proposals db)
  | OpClaim => snd (claim_proposal now db)
  | OpGet i => snd (get_proposal i db)
  | OpGetCandidates i => snd (get_candidates i db)
  | OpGetState i => snd (get_state i db)
  | OpMarkProcessed i c => snd (mark_processed i c now db)
  | OpMarkFailed i b => snd (mark_failed i b now db)
  end.

(** Calls one after the other, first call first. *)
Fixpoint run (script : list (op * Z)) (db : TinyDB) : TinyDB :=
  match script with
  | [] => db
  | (o, now) :: rest => run rest (exec o now db)
  end.

(** The specification's data-model invariant, as it is worded: exactly
    one of candidates present (FINISHED), error message present (FAILED),
    neither present (CREATED or CLAIMED). *)
Definition is_some {A} (o : option A) : bool :=
  match o with Some _ => true | None => false end.

Definition spec_outcome_invariant (p : Proposal) : bool :=
  match state p with
  | FINISHED => is_some (candidates p) && negb (is_some (error_message p))
  | FAILED => negb (is_some (candidates p)) && is_some (error_message p)
  | CREATED | CLAIMED =>
      negb (is_some (candidates p)) && negb (is_some (error_message p))
  end.

(** What the handlers keep of it. *)
Definition outcome_invariant (p : Proposal) : Prop :=
  match state p with
  | FINISHED => candidates p <> None
  | FAILED => error_message p <> None
  | CREATED | CLAIMED => candidates p = None /\ error_message p = None
  end.

(** Stored candidates have as many rows as were asked for. *)
Definition count_invariant (p : Proposal) : Prop :=
  forall c, candidates p = Some c ->
            Z.of_nat (List.length (rows c)) = n_candidates p.

(** A stored document as the service leaves it: it carries its own
    document id, and both invariants hold of it. Document ids are not
    repeated. *)
Definition stored_ok (e : Z * Proposal) : Prop :=
  id (snd e) = Some (fst e) /\ outcome_invariant (snd e)
  /\ count_invariant (snd e).

Definition db_ok (db : TinyDB) : Prop :=
  NoDup (map fst db) /\ Forall stored_ok db.

(** ** Concurrent claims

    [claim_proposal] calls the table three times: search, update, get.
    A request in flight is at one of these points. *)
Inductive claim_thread : Type :=
| TStart
| TSearched (query_list : list Proposal)
| TUpdated (proposal : Proposal)
| TDone (r : pyres exn Proposal).

(** The next table call of a request, on the table as it is now. *)
Definition claim_step (now : Z) (t : claim_thread) (db : TinyDB)
    : claim_thread * TinyDB :=
  match t with
  | TStart => (TSearched (db_search is_created db), db)
  | TSearched [] =>
      (TDone (Raise (HTTPException 404 "No proposals to claim")), db)
  | TSearched (proposal :: _) =>
      match m_update (fun d => set_last_updated_at now (set_state CLAIMED d))
                     (id proposal) db with
      | (Return _, db') => (TUpdated proposal, db')
      | (Raise e, db') => (TDone (Raise e), db')
      end
  | TUpdated proposal =>
      let r := m_load (id proposal) db in (TDone (fst r), snd r)
  | TDone r => (TDone r, db)
  end.

(** Requests in flight, each with its clock reading, over one table. *)
Definition system : Type := list (Z * claim_thread) * TinyDB.

Fixpoint step_thread (k : nat) (ts : list (Z * claim_thread)) (db : TinyDB)
    : list (Z * claim_thread) * TinyDB :=
  match ts, k with
  | [], _ => ([], db)
  | (now, t) :: rest, O =>
      let r := claim_step now t db in ((now, fst r) :: rest, snd r)
  | nt :: rest, S k' =>
      let r := step_thread k' rest db in (nt :: fst r, snd r)
  end.

(** A schedule names, step by step, the request that moves next. *)
Fixpoint run_schedule (schedule : list nat) (s : system) : system :=
  match schedule with
  | [] => s
  | k :: rest => run_schedule rest (step_thread k (fst s) (snd s))
  end.

(** Calls that do not overlap: each runs to its end before the next. *)
Fixpoint claim_serially (nows : list Z) (db : TinyDB)
    : list (pyres exn Proposal) * TinyDB :=
  match nows with
  | [] => ([], db)
  | now :: rest =>
      let r := claim_proposal now db in
      let rs := claim_serially rest (snd r) in
      (fst r :: fst rs, snd rs)
  end.

End Service.

Arguments Proposal_of_request {StrategyData Experiments Row} r now.

Arguments OpCreate {StrategyData Experiments Row} proposal_request.
Arguments OpList {StrategyData Experiments Row}.
Arguments OpClaim {StrategyData Experiments Row}.
Arguments OpGet {StrategyData Experiments Row} proposal_id.
Arguments OpGetCandidates {StrategyData Experiments Row} proposal_id.
Arguments OpGetState {StrategyData Experiments Row} proposal_id.
Arguments OpMarkProcessed {StrategyData Experiments Row} proposal_id cands.
Arguments OpMarkFailed {StrategyData Experiments Row} proposal_id error_message_body.
Arguments TStart {StrategyData Experiments Row}.
Arguments TSearched {StrategyData Experiments Row} query_list.
Arguments TUpdated {StrategyData Experiments Row} proposal.
Arguments TDone {StrategyData Experiments Row} r.

(** ** The HTTP surface

    The requests the worker's client sends, and the responses FastAPI
    builds from what a handler returned or raised. *)
Section Http.

Variables (StrategyData Experiments Row : Type).

Local Abbreviation Proposal := (Proposal StrategyData Experiments Row).
Local Abbreviation Candidates := (Candidates Row).
Local Abbreviation TinyDB := (TinyDB StrategyData Experiments Row).

(** The path parameter is what formatting [proposal.id] into the path
    gives: an integer, or the text of [None]. *)
Inductive Request : Type :=
| GET_claim
| POST_mark_processed (proposal_id : option Z) (request_body : Candidates)
| POST_mark_failed (proposal_id : option Z) (request_body : list (string * string)).

Inductive Json : Type :=
| JProposal (p : Proposal)
| JState (s : StateEnum)
| JDetail (detail : string)
| JValidationErrors
| JInternalServerError.

Record Response : Type := { status_code : Z; content : Json }.

Definition respond {A} (encode : A -> Json) (r : pyres exn A) : Response :=
  match r with
  | Return a => {| status_code := 200; content := encode a |}
  | Raise (HTTPException s d) => {| status_code := s; content := JDetail d |}
  | Raise _ => {| status_code := 500; content := JInternalServerError |}
  end.

Definition unprocessable : Response :=
  {| status_code := 422; content := JValidationErrors |}.

(** The router: one request against the table, at clock reading [now]. *)
Definition serve (req : Request) (now : Z) (db : TinyDB) : Response * TinyDB :=
  match req with
  | GET_claim =>
      let r := claim_proposal now db in (respond JProposal (fst r), snd r)
  | POST_mark_processed (Some i) c =>
      let r := mark_processed i c now db in (respond JState (fst r), snd r)
  | POST_mark_failed (Some i) b =>
      let r := mark_failed i b now db in (respond JState (fst r), snd r)
  | POST_mark_processed None _ | POST_mark_failed None _ => (unprocessable, db)
  end.

End Http.

Arguments GET_claim {Row}.
Arguments POST_mark_processed {Row} proposal_id request_body.
Arguments POST_mark_failed {Row} proposal_id request_body.
Arguments JState {StrategyData Experiments Row} s.
Arguments JDetail {StrategyData Experiments Row} detail.
Arguments JValidationErrors {StrategyData Experiments Row}.
Arguments JInternalServerError {StrategyData Experiments Row}.

(** ** The worker *)

(** A Python exception on the worker's side: its class and [str(e)]. *)
Record pyexc : Type := { exc_class : string; exc_text : string }.

Definition str (e : pyexc) : string := exc_text e.

(** [Exception(text)] *)
Definition Exception (text : string) : pyexc :=
  {| exc_class := "Exception"; exc_text := text |}.

(** The built-in classes that derive from [BaseException] and not from
    [Exception]: an [except Exception] does not catch them. *)
Definition base_only_classes : list string :=
  ["BaseException"; "KeyboardInterrupt"; "SystemExit"; "GeneratorExit";
   "BaseExceptionGroup"].

(** [isinstance(e, Exception)] *)
Definition is_exception (e : pyexc) : bool :=
  negb (existsb (String.eqb (exc_class e)) base_only_classes).

Definition KeyboardInterrupt : pyexc :=
  {| exc_class := "KeyboardInterrupt"; exc_text := "" |}.

Definition SystemExit (text : string) : pyexc :=
  {| exc_class := "SystemExit"; exc_text := text |}.

(** What [response.json()] raises on a body that is not JSON, such as
    the plain text of a 500. *)
Definition JSONDecodeError : pyexc :=
  {| exc_class := "JSONDecodeError";
     exc_text := "Expecting value: line 1 column 1 (char 0)" |}.

(** What [candidates.model_dump()] raises on an object of another
    class. *)
Definition AttributeError_model_dump (cls : string) : pyexc :=
  {| exc_class := "AttributeError";
     exc_text := ("'" ++ cls ++ "' object has no attribute 'model_dump'")%string |}.

(** What a step of the worker comes to: a value, an exception, or the
    bound on polls given to the model is used up while it still waits. *)
Inductive wres (A : Type) : Type :=
| WReturn (a : A)
| WRaise (e : pyexc)
| WWaiting.
Arguments WReturn {A} a.
Arguments WRaise {A} e.
Arguments WWaiting {A}.

Section Worker.

Variables (StrategyData Experiments Row : Type).

Local Abbreviation Proposal := (Proposal StrategyData Experiments Row).
Local Abbreviation Candidates := (Candidates Row).
Local Abbreviation Request := (Request Row).
Local Abbreviation Response := (Response StrategyData Experiments Row).
Local Abbreviation Json := (Json StrategyData Experiments Row).

(** What travels over the pipe: the candidates or an exception object. *)
Inductive Message : Type :=
| MsgCandidates (c : Candidates)
| MsgException (e : pyexc).

(** *** The isolated unit

    The strategy library, as the unit calls it; every call may raise. *)
Variables (Strategy DataFrame Domain : Type).
Variable strategies_map : StrategyData -> pyres pyexc Strategy.
Variable to_pandas : Experiments -> pyres pyexc DataFrame.
Variable strategy_tell : Strategy -> DataFrame -> pyres pyexc Strategy.
Variable strategy_ask : Strategy -> Z -> pyres pyexc DataFrame.
Variable domain : StrategyData -> Domain.
Variable from_pandas : DataFrame -> Domain -> pyres pyexc Candidates.

(** What the unit does, in order: calls into the library, and sends on
    its connection. *)
Inductive unit_event : Type :=
| EvMap
| EvToPandas
| EvTell
| EvAsk
| EvFromPandas
| EvSend (msg : Message).

Definition U (A : Type) : Type := list unit_event -> pyres pyexc A * list unit_event.

Definition u_ret {A} (a : A) : U A := fun log => (Return a, log).
Definition u_bind {A B} (m : U A) (k : A -> U B) : U B :=
  fun log => match m log with
             | (Return a, log') => k a log'
             | (Raise e, log') => (Raise e, log')
             end.
Definition u_call {A} (ev : unit_event) (r : pyres pyexc A) : U A :=
  fun log => (r, log ++ [ev]).

Local Notation "x <- m ;; k" := (u_bind m (fun x => k))
  (at level 61, m at next level, right associativity).

(** The body of the [try]. *)
Definition process_proposal_try (proposal : Proposal) : U Message :=
  strategy <- u_call EvMap (strategies_map (strategy_data proposal)) ;;
  strategy <- match experiments proposal with
              | Some e =>
                  df <- u_call EvToPandas (to_pandas e) ;;
                  u_call EvTell (strategy_tell strategy df)
              | None => u_ret strategy
              end ;;
  df_candidates <- u_call EvAsk (strategy_ask strategy (n_candidates proposal)) ;;
  c <- u_call EvFromPandas
         (from_pandas df_candidates (domain (strategy_data proposal))) ;;
  u_ret (MsgCandidates c).

(** [try] / [except Exception] / [finally: conn_obj.send(msg)]. What
    the [try] raised is caught only when it is an instance of
    [Exception]; otherwise [msg] was never assigned, the [send] of the
    [finally] fails on it, and nothing is sent. *)
Definition process_proposal (proposal : Proposal) : list unit_event :=
  let r := process_proposal_try proposal [] in
  match fst r with
  | Return m => snd r ++ [EvSend m]
  | Raise e =>
      if is_exception e
      then snd r ++ [EvSend (MsgException (Exception (str e)))]
      else snd r
  end.

(** The Candidate Generator as the specification words it: from the
    strategy configuration, the optional prior experiments and the
    requested count to a candidate set, or a failure. *)
Definition generate (sd : StrategyData) (ex : option Experiments) (n : Z)
    : pyres pyexc Candidates :=
  match strategies_map sd with
  | Raise e => Raise e
  | Return strategy =>
      let told :=
        match ex with
        | None => Return strategy
        | Some x =>
            match to_pandas x with
            | Raise e => Raise e
            | Return df => strategy_tell strategy df
            end
        end in
      match told with
      | Raise e => Raise e
      | Return strategy' =>
          match strategy_ask strategy' n with
          | Raise e => Raise e
          | Return df => from_pandas df (domain sd)
          end
      end
  end.

Definition is_send (ev : unit_event) : bool :=
  match ev with EvSend _ => true | _ => false end.

Definition same_call (a b : unit_event) : bool :=
  match a, b with
  | EvMap, EvMap | EvToPandas, EvToPandas | EvTell, EvTell
  | EvAsk, EvAsk | EvFromPandas, EvFromPandas => true
  | _, _ => false
  end.

Definition count_events (f : unit_event -> bool) (log : list unit_event) : nat :=
  List.length (filter f log).

(** *** The client and the round

    The world outside the worker process (network, service, child
    process, clock), and the calls that reach it. *)
Variables (World Seconds : Type).

(** [repr] of a decoded response body, as Python prints it in the
    message of a [ValueError]. *)
Variable py_repr : Json -> string.

Variable requests_send : Request -> World -> pyres pyexc Response * World.
Variable start_process : Proposal -> World -> pyres pyexc unit * World.
Variable receiver_poll : Seconds -> World -> pyres pyexc bool * World.
Variable receiver_recv : World -> pyres pyexc Message * World.
Variable time_sleep : Seconds -> World -> World.

(** The worker's own fields, the world, and the requests sent so far. *)
Record wstate : Type := {
  world : World;
  round : Z;
  sent : list Request
}.

Definition W (A : Type) : Type := wstate -> wres A * wstate.

Definition w_ret {A} (a : A) : W A := fun s => (WReturn a, s).
Definition w_raise {A} (e : pyexc) : W A := fun s => (WRaise e, s).
Definition w_bind {A B} (m : W A) (k : A -> W B) : W B :=
  fun s => match m s with
           | (WReturn a, s') => k a s'
           | (WRaise e, s') => (WRaise e, s')
           | (WWaiting, s') => (WWaiting, s')
           end.

(** [try: body  except Exception as e: handler(e)]: an exception that
    is not an instance of [Exception] goes through. *)
Definition w_try {A} (body : W A) (handler : pyexc -> W A) : W A :=
  fun s => match body s with
           | (WRaise e, s') =>
               if is_exception e then handler e s' else (WRaise e, s')
           | r => r
           end.

(** A call into the world that leaves the worker's fields alone. *)
Definition w_world {A} (f : World -> pyres pyexc A * World) : W A :=
  fun s => let r := f (world s) in
           let s' := {| world := snd r; round := round s; sent := sent s |} in
           match fst r with
           | Return a => (WReturn a, s')
           | Raise e => (WRaise e, s')
           end.

(** [requests.get] / [requests.post] *)
Definition w_request (req : Request) : W Response :=
  fun s => let r := requests_send req (world s) in
           let s' := {| world := snd r; round := round s;
                        sent := sent s ++ [req] |} in
           match fst r with
           | Return a => (WReturn a, s')
           | Raise e => (WRaise e, s')
           end.

Local Notation "x <-- m ;; k" := (w_bind m (fun x => k))
  (at level 61, m at next level, right associativity).

Definition ValueError (text : string) : pyexc :=
  {| exc_class := "ValueError"; exc_text := text |}.

(** [StateEnum(response.json())]: a body that is not JSON fails in
    [json()]; a JSON body that is not one of the four states fails in
    [StateEnum] with its [repr] in the message. *)
Definition parse_state (r : Response) : W StateEnum :=
  match content r with
  | JState s => w_ret s
  | JInternalServerError => w_raise JSONDecodeError
  | body =>
      w_raise (ValueError (py_repr body ++ " is not a valid StateEnum")%string)
  end.

Definition Client_claim_proposal : W (option Proposal) :=
  response <-- w_request GET_claim ;;
  if status_code response =? 404 then w_ret None
  else match content response with
       | JProposal p => w_ret (Some p)
       | _ => w_raise (ValueError "validation error for Proposal")
       end.

Definition Client_mark_processed (proposal_id : option Z) (cands : Candidates)
    : W StateEnum :=
  response <-- w_request (POST_mark_processed proposal_id cands) ;;
  parse_state response.

Definition Client_mark_failed (proposal_id : option Z) (error_message : string)
    : W StateEnum :=
  response <-- w_request (POST_mark_failed proposal_id [("msg", error_message)]) ;;
  parse_state response.

Variable job_check_interval : Seconds.

Definition Worker_sleep (sleep_time_sec : Seconds) : W unit :=
  fun s => (WReturn tt,
            {| world := time_sleep sleep_time_sec (world s);
               round := round s; sent := sent s |}).

(** The [while True] of the round; [polls] bounds the polls the model
    follows. *)
Fixpoint poll_loop (polls : nat) (proposal : Proposal) : W unit :=
  match polls with
  | O => fun s => (WWaiting, s)
  | S polls' =>
      ready <-- w_world (receiver_poll job_check_interval) ;;
      if ready : bool then
        msg <-- w_world receiver_recv ;;
        match msg with
        | MsgException e =>
            if is_exception e then w_raise e
            else w_raise (AttributeError_model_dump (exc_class e))
        | MsgCandidates c =>
            _ <-- Client_mark_processed (id proposal) c ;;
            w_ret tt
        end
      else poll_loop polls' proposal
  end.

(** The world after [k] polls that all timed out, if they did. *)
Fixpoint timed_out (k : nat) (w : World) : option World :=
  match k with
  | O => Some w
  | S k' =>
      match receiver_poll job_check_interval w with
      | (Return false, w') => timed_out k' w'
      | _ => None
      end
  end.

(** The body of the round's [try]. *)
Definition work_round_try (polls : nat) (proposal : Proposal) : W unit :=
  _ <-- w_world (start_process proposal) ;;
  poll_loop polls proposal.

(** [self.round += 1] *)
Definition begin_round (s : wstate) : wstate :=
  {| world := world s; round := round s + 1; sent := sent s |}.

Definition work_round (polls : nat) : W unit :=
  fun s0 =>
    let s := begin_round s0 in
    (proposal <-- Client_claim_proposal ;;
     match proposal with
     | None => Worker_sleep job_check_interval
     | Some proposal =>
         w_try (work_round_try polls proposal)
               (fun e => _ <-- Client_mark_failed (id proposal) (str e) ;;
                         w_ret tt)
     end) s.

(** [while True: self.work_round()], followed for [rounds] rounds. *)
Fixpoint work (rounds polls : nat) : W unit :=
  match rounds with
  | O => w_ret tt
  | S rounds' => _ <-- work_round polls ;; work rounds' polls
  end.

Definition is_mark_failed (req : Request) : bool :=
  match req with POST_mark_failed _ _ => true | _ => false end.

End Worker.

Arguments MsgCandidates {Row} c.
Arguments MsgException {Row} e.
Arguments EvMap {Row}.
Arguments EvToPandas {Row}.
Arguments EvTell {Row}.
Arguments EvAsk {Row}.
Arguments EvFromPandas {Row}.

(** ** A deployment

    One worker against the service: requests that get through are served
    on the table at the current clock reading, the child process runs
    [process_proposal] and its message is there after a number of polls. *)
Section Deployment.

Variables (StrategyData Experiments Row : Type).

Local Abbreviation Proposal := (Proposal StrategyData Experiments Row).
Local Abbreviation TinyDB := (TinyDB StrategyData Experiments Row).
Local Abbreviation Message := (Message Row).
Local Abbreviation Request := (Request Row).
Local Abbreviation Response := (Response StrategyData Experiments Row).

(** What the child process sends for a proposal. *)
Variable child_sends : Proposal -> list Message.

(** [repr] of a decoded response body. *)
Variable py_repr : Json StrategyData Experiments Row -> string.

Record deployment : Type := {
  dep_db : TinyDB;
  dep_clock : Z;
  (** for the coming requests in turn, whether the request gets through;
      beyond the list every request does *)
  dep_network : list bool;
  (** polls that time out before the child's message can be received *)
  dep_delay : nat;
  dep_wait : nat;
  dep_pipe : list Message
}.

Definition ConnectionError : pyexc :=
  {| exc_class := "ConnectionError"; exc_text := "Connection refused" |}.

Definition EOFError : pyexc :=
  {| exc_class := "EOFError"; exc_text := "" |}.

Definition dep_send (req : Request) (w : deployment)
    : pyres pyexc Response * deployment :=
  match dep_network w with
  | false :: rest =>
      (Raise ConnectionError,
       {| dep_db := dep_db w; dep_clock := dep_clock w; dep_network := rest;
          dep_delay := dep_delay w; dep_wait := dep_wait w;
          dep_pipe := dep_pipe w |})
  | net =>
      let r := serve req (dep_clock w) (dep_db w) in
      (Return (fst r),
       {| dep_db := snd r; dep_clock := dep_clock w + 1;
          dep_network := tl net;
          dep_delay := dep_delay w; dep_wait := dep_wait w;
          dep_pipe := dep_pipe w |})
  end.

Definition dep_start_process (proposal : Proposal) (w : deployment)
    : pyres pyexc unit * deployment :=
  (Return tt,
   {| dep_db := dep_db w; dep_clock := dep_clock w;
      dep_network := dep_network w;
      dep_delay := dep_delay w; dep_wait := dep_delay w;
      dep_pipe := child_sends proposal |}).

Definition dep_poll (timeout : Z) (w : deployment)
    : pyres pyexc bool * deployment :=
  match dep_wait w with
  | O => (Return (negb (Nat.eqb (List.length (dep_pipe w)) 0)),
          {| dep_db := dep_db w; dep_clock := dep_clock w + timeout;
             dep_network := dep_network w;
             dep_delay := dep_delay w; dep_wait := O;
             dep_pipe := dep_pipe w |})
  | S n => (Return false,
            {| dep_db := dep_db w; dep_clock := dep_clock w + timeout;
               dep_network := dep_network w;
               dep_delay := dep_delay w; dep_wait := n;
               dep_pipe := dep_pipe w |})
  end.

Definition dep_recv (w : deployment) : pyres pyexc Message * deployment :=
  match dep_pipe w with
  | [] => (Raise EOFError, w)
  | m :: rest =>
      (Return m,
       {| dep_db := dep_db w; dep_clock := dep_clock w;
          dep_network := dep_network w;
          dep_delay := dep_delay w; dep_wait := dep_wait w;
          dep_pipe := rest |})
  end.

Definition dep_sleep (seconds : Z) (w : deployment) : deployment :=
  {| dep_db := dep_db w; dep_clock := dep_clock w + seconds;
     dep_network := dep_network w;
     dep_delay := dep_delay w; dep_wait := dep_wait w;
     dep_pipe := dep_pipe w |}.

(** What the round's loop does with the child's message once it has
    received it. *)
Definition dep_received (proposal : Proposal) (m : Message)
    : W Row deployment unit :=
  match m with
  | MsgException e =>
      if is_exception e then w_raise e
      else w_raise (AttributeError_model_dump (exc_class e))
  | MsgCandidates c =>
      w_bind (Client_mark_processed py_repr dep_send (id proposal) c)
             (fun _ => w_ret tt)
  end.

(** The worker's round and loop in this deployment, polling every
    [job_check_interval] seconds. *)
Definition dep_work_round (job_check_interval : Z) (polls : nat)
    : W Row deployment unit :=
  work_round py_repr dep_send dep_start_process dep_poll dep_recv dep_sleep
             job_check_interval polls.

Definition dep_work (job_check_interval : Z) (rounds polls : nat)
    : W Row deployment unit :=
  work py_repr dep_send dep_start_process dep_poll dep_recv dep_sleep
       job_check_interval rounds polls.

End Deployment.

(** The messages among the events of the isolated unit. *)
Definition sent_messages {Row : Type} (log : list (unit_event Row))
    : list (Message Row) :=
  flat_map (fun ev => match ev with EvSend m => [m] | _ => [] end) log.

(** ** Measures for the statements about call sequences *)

(** CREATED before CLAIMED before the two terminal states. *)
Definition state_rank (s : StateEnum) : nat :=
  match s with
  | CREATED => 0%nat
  | CLAIMED => 1%nat
  | FINISHED | FAILED => 2%nat
  end.

Section Measures.

Variables (StrategyData Experiments Row : Type).

Local Abbreviation Proposal := (Proposal StrategyData Experiments Row).
Local Abbreviation op := (op StrategyData Experiments Row).

Definition is_create (o : op) : bool :=
  match o with OpCreate _ => true | _ => false end.

(** The number of creation requests in a sequence of calls. *)
Definition creates (script : list (op * Z)) : nat :=
  List.length (filter is_create (map fst script)).

(** The document ids 1, 2, ..., n. *)
Definition first_ids (n : nat) : list Z := map Z.of_nat (seq 1 n).

(** What successive claims at the clock readings [nows] return when the
    CREATED records are [created], in table order. *)
Fixpoint claim_results (nows : list Z) (created : list Proposal)
    : list (pyres exn Proposal) :=
  match nows, created with
  | [], _ => []
  | now :: nows', p :: created' =>
      Return (claimed now p) :: claim_results nows' created'
  | _ :: nows', [] => Raise no_work :: claim_results nows' []
  end.

(** How a stored record can differ from an earlier version of itself:
    the fields of the request, the id and the creation time are the same,
    the state has not gone back, and an outcome that was stored is still
    stored. *)
Definition evolves (p p' : Proposal) : Prop :=
  id p' = id p
  /\ strategy_data p' = strategy_data p
  /\ experiments p' = experiments p
  /\ n_candidates p' = n_candidates p
  /\ created_at p' = created_at p
  /\ (state_rank (state p) <= state_rank (state p'))%nat
  /\ (candidates p <> None -> candidates p' <> None)
  /\ (error_message p <> None -> error_message p' <> None).

(** The requests the body of a round's [try] may send: none, or one
    [mark_processed] for the proposal. *)
Definition at_most_processed (p : Proposal) (l : list (Request Row)) : Prop :=
  l = [] \/ exists c, l = [POST_mark_processed (id p) c].

(** The library calls of the isolated unit when none of them raises. *)
Definition unit_plan (p : Proposal) : list (unit_event Row) :=
  EvMap ::
  match experiments p with
  | Some _ => [EvToPandas; EvTell]
  | None => []
  end ++ [EvAsk; EvFromPandas].

End Measures.

(** ** Sample data

    Concrete payloads and call sequences on which the statements below
    are exercised. *)
Module Sample.

Definition request (n : Z) : ProposalRequest string unit :=
  {| req_strategy_data := "sobol"; req_experiments := None;
     req_n_candidates := n |}.

Definition two_rows : Candidates nat := {| rows := [1%nat; 2%nat] |}.
Definition one_row : Candidates nat := {| rows := [7%nat] |}.
Definition no_rows : Candidates nat := {| rows := [] |}.

Definition empty : TinyDB string unit nat := [].

(** One proposal asking for two candidates, just created. *)
Definition script_created : list (op string unit nat * Z) :=
  [(OpCreate (request 2), 10)].

(** Created, claimed, and marked processed with two rows. *)
Definition script_finished : list (op string unit nat * Z) :=
  [(OpCreate (request 2), 10); (OpClaim, 11);
   (OpMarkProcessed 1 two_rows, 12)].

(** As [script_finished], then marked failed. *)
Definition script_finished_then_failed : list (op string unit nat * Z) :=
  script_finished ++ [(OpMarkFailed 1 [("msg", "boom")], 13)].

(** Created, claimed, and marked failed. *)
Definition script_claimed_then_failed : list (op string unit nat * Z) :=
  [(OpCreate (request 2), 10); (OpClaim, 11);
   (OpMarkFailed 1 [("msg", "singular matrix")], 12)].

Definition created : TinyDB string unit nat := run script_created empty.
Definition finished : TinyDB string unit nat := run script_finished empty.
Definition finished_then_failed : TinyDB string unit nat :=
  run script_finished_then_failed empty.
Definition claimed_then_failed : TinyDB string unit nat :=
  run script_claimed_then_failed empty.

(** The records these tables hold under document id 1. *)
Definition record_created : Proposal string unit nat :=
  {| id := Some 1; strategy_data := "sobol"; experiments := None;
     n_candidates := 2; state := CREATED; candidates := None;
     error_message := None; created_at := 10; last_updated_at := 10 |}.

Definition record_finished : Proposal string unit nat :=
  {| id := Some 1; strategy_data := "sobol"; experiments := None;
     n_candidates := 2; state := FINISHED; candidates := Some two_rows;
     error_message := None; created_at := 10; last_updated_at := 12 |}.

Definition record_finished_then_failed : Proposal string unit nat :=
  {| id := Some 1; strategy_data := "sobol"; experiments := None;
     n_candidates := 2; state := FAILED; candidates := Some two_rows;
     error_message := Some "boom"; created_at := 10; last_updated_at := 13 |}.

Definition record_claimed_then_failed : Proposal string unit nat :=
  {| id := Some 1; strategy_data := "sobol"; experiments := None;
     n_candidates := 2; state := FAILED; candidates := None;
     error_message := Some "singular matrix"; created_at := 10;
     last_updated_at := 12 |}.

(** A strategy library for the samples: the strategy "singular" fails
    when asked, any other returns the rows 1..n. *)
Definition strategies_map (sd : string) : pyres pyexc string := Return sd.
Definition to_pandas (e : unit) : pyres pyexc (list nat) := Return [].
Definition strategy_tell (s : string) (df : list nat) : pyres pyexc string :=
  Return s.
Definition strategy_ask (s : string) (n : Z) : pyres pyexc (list nat) :=
  if String.eqb s "singular"
  then Raise {| exc_class := "RuntimeError"; exc_text := "singular matrix" |}
  else Return (seq 1 (Z.to_nat n)).
Definition domain (sd : string) : unit := tt.
Definition from_pandas (df : list nat) (d : unit) : pyres pyexc (Candidates nat) :=
  Return {| rows := df |}.

(** [repr] of the bodies the samples meet: a detail without quotes or
    escapes prints between single quotes. *)
Definition py_repr (body : Json string unit nat) : string :=
  match body with
  | JDetail d => ("{'detail': '" ++ d ++ "'}")%string
  | JState FINISHED => "'FINISHED'"
  | JState FAILED => "'FAILED'"
  | JState CLAIMED => "'CLAIMED'"
  | JState CREATED => "'CREATED'"
  | _ => "{...}"
  end.

Definition unit_log (p : Proposal string unit nat) : list (unit_event nat) :=
  process_proposal strategies_map to_pandas strategy_tell strategy_ask
                   domain from_pandas p.

Definition child_sends (p : Proposal string unit nat) : list (Message nat) :=
  sent_messages (unit_log p).

Definition singular_request : ProposalRequest string unit :=
  {| req_strategy_data := "singular"; req_experiments := None;
     req_n_candidates := 2 |}.

(** A table with one CREATED proposal whose strategy fails. *)
Definition created_singular : TinyDB string unit nat :=
  run [(OpCreate singular_request, 10)] empty.

(** A worker about to start a round. *)
Definition fresh (w : deployment string unit nat) : wstate nat (deployment string unit nat) :=
  {| world := w; round := 0; sent := [] |}.

(** Every request gets through; the child needs two polls. *)
Definition dep_up : deployment string unit nat :=
  {| dep_db := created; dep_clock := 20; dep_network := [];
     dep_delay := 2; dep_wait := 0; dep_pipe := [] |}.

(** As [dep_up], with the proposal whose strategy fails. *)
Definition dep_singular : deployment string unit nat :=
  {| dep_db := created_singular; dep_clock := 20; dep_network := [];
     dep_delay := 2; dep_wait := 0; dep_pipe := [] |}.

(** The claim gets through, then the service cannot be reached. *)
Definition dep_down : deployment string unit nat :=
  {| dep_db := created; dep_clock := 20;
     dep_network := [true; false; false];
     dep_delay := 2; dep_wait := 0; dep_pipe := [] |}.

(** The claim gets through, marking processed does not, marking failed
    does. *)
Definition dep_flaky : deployment string unit nat :=
  {| dep_db := created; dep_clock := 20;
     dep_network := [true; false; true];
     dep_delay := 2; dep_wait := 0; dep_pipe := [] |}.

Definition round (w : deployment string unit nat) (polls : nat) :=
  dep_work_round child_sends py_repr 1 polls (fresh w).

Definition rounds (w : deployment string unit nat) (n polls : nat) :=
  dep_work child_sends py_repr 1 n polls (fresh w).

(** The record the service returns to the claim at clock reading 20. *)
Definition record_claimed : Proposal string unit nat := claimed 20 record_created.

(** A round in [w], up to the claim and up to the end of the [try]. *)
Definition after_claim (w : deployment string unit nat) :=
  Client_claim_proposal (@dep_send _ _ _) (begin_round (fresh w)).

Definition after_try (w : deployment string unit nat) (polls : nat) :=
  work_round_try py_repr (@dep_send _ _ _) (dep_start_process child_sends)
                 (@dep_poll _ _ _) (@dep_recv _ _ _) 1 polls
                 record_claimed (snd (after_claim w)).

(** A service that has no work, seen from the worker: every claim is
    answered with the 404. *)
Definition idle_send (req : Request nat) (w : unit)
    : pyres pyexc (Response string unit nat) * unit :=
  (Return {| status_code := 404; content := JDetail "No proposals to claim" |},
   tt).

Definition idle_start (p : Proposal string unit nat) (w : unit)
    : pyres pyexc unit * unit := (Return tt, tt).
Definition idle_poll (timeout : Z) (w : unit) : pyres pyexc bool * unit :=
  (Return false, tt).
Definition idle_recv (w : unit) : pyres pyexc (Message nat) * unit :=
  (Raise EOFError, tt).
Definition idle_sleep (seconds : Z) (w : unit) : unit := tt.

Definition idle_worker : wstate nat unit := Build_wstate tt 0 [].

(** A strategy whose [ask] ends the interpreter: [sys.exit] raises
    [SystemExit], which is not an [Exception]. *)
Definition strategy_ask_exit (s : string) (n : Z) : pyres pyexc (list nat) :=
  Raise (SystemExit "1").

Definition unit_log_exit (p : Proposal string unit nat) : list (unit_event nat) :=
  process_proposal strategies_map to_pandas strategy_tell strategy_ask_exit
                   domain from_pandas p.

(** A worker that is interrupted from the keyboard while it polls: the
    claim is answered with the claimed proposal, every other request
    with FAILED, and the poll raises [KeyboardInterrupt]. *)
Definition ctrl_c_send (req : Request nat) (w : unit)
    : pyres pyexc (Response string unit nat) * unit :=
  match req with
  | GET_claim =>
      (Return {| status_code := 200; content := JProposal record_claimed |}, tt)
  | _ => (Return {| status_code := 200; content := JState FAILED |}, tt)
  end.

Definition ctrl_c_poll (timeout : Z) (w : unit) : pyres pyexc bool * unit :=
  (Raise KeyboardInterrupt, tt).

Definition ctrl_c_round (polls : nat) :=
  work_round py_repr ctrl_c_send idle_start ctrl_c_poll idle_recv idle_sleep
             1 polls idle_worker.

End Sample.

(** * Properties of the Proposal Service *)

Unset Implicit Arguments.

Lemma StateEnum_eqb_eq a b : StateEnum_eqb a b = true <-> a = b.
Proof. destruct a, b; simpl; split; congruence. Qed.

Section StoreFacts.

Variables (StrategyData Experiments Row : Type).

Local Abbreviation Proposal := (Proposal StrategyData Experiments Row).
Local Abbreviation TinyDB := (TinyDB StrategyData Experiments Row).

Implicit Types (db : TinyDB) (p : Proposal) (i j : Z).

Lemma db_get_In db i p : db_get i db = Some p -> In (i, p) db.
Proof.
  induction db as [|[k q] rest IH]; simpl; [discriminate|].
  destruct (Z.eqb_spec k i) as [->|Hne].
  - intros [= ->]. now left.
  - intros H. right. now apply IH.
Qed.

Lemma db_get_has db i p : db_get i db = Some p -> db_has i db = true.
Proof.
  induction db as [|[k q] rest IH]; simpl; [discriminate|].
  destruct (Z.eqb_spec k i); [reflexivity|]. exact IH.
Qed.

Lemma db_has_get db i : db_has i db = true -> exists p, db_get i db = Some p.
Proof.
  induction db as [|[k q] rest IH]; simpl; [discriminate|].
  destruct (Z.eqb_spec k i); [now exists q|]. exact IH.
Qed.

Lemma In_db_get db i p :
  NoDup (map fst db) -> In (i, p) db -> db_get i db = Some p.
Proof.
  induction db as [|[k q] rest IH]; simpl; [intros _ []|].
  intros Hnd [Heq|Hin].
  - injection Heq as -> ->. now rewrite Z.eqb_refl.
  - inversion Hnd as [|? ? Hnotin Hnd']; subst.
    destruct (Z.eqb_spec k i) as [->|Hne]; [|now apply IH].
    exfalso. apply Hnotin. change i with (fst (i, p)). now apply in_map.
Qed.

Lemma max_id_nonneg db : 0 <= max_id db.
Proof. induction db as [|[k q] rest IH]; simpl; lia. Qed.

Lemma max_id_bound db i p : In (i, p) db -> i <= max_id db.
Proof.
  induction db as [|[k q] rest IH]; simpl; [intros []|].
  intros [[= -> ->]|Hin]; [lia|]. specialize (IH Hin). lia.
Qed.

Lemma next_id_fresh db : ~ In (next_id db) (map fst db).
Proof.
  unfold next_id. intros Hin. apply in_map_iff in Hin as [[k q] [Hk Hin]].
  simpl in Hk. apply max_id_bound in Hin. lia.
Qed.

Lemma db_update_present fields db i p :
  db_get i db = Some p -> db_update fields i db = Some (updated fields i db).
Proof. intros H. unfold db_update. now rewrite (db_get_has _ _ _ H). Qed.

Lemma updated_keys fields db i : map fst (updated fields i db) = map fst db.
Proof.
  unfold updated. rewrite map_map. apply map_ext. intros [k q]. simpl.
  now destruct (k =? i).
Qed.

Lemma db_get_updated_same fields db i p :
  db_get i db = Some p -> db_get i (updated fields i db) = Some (fields p).
Proof.
  induction db as [|[k q] rest IH]; simpl; [discriminate|].
  destruct (Z.eqb_spec k i) as [->|Hne]; simpl.
  - rewrite Z.eqb_refl. now intros [= ->].
  - destruct (Z.eqb_spec k i); [contradiction|]. exact IH.
Qed.

Lemma db_get_updated_other fields db i j :
  j <> i -> db_get j (updated fields i db) = db_get j db.
Proof.
  intros Hne. induction db as [|[k q] rest IH]; simpl; [reflexivity|].
  destruct (Z.eqb_spec k i) as [->|Hki]; simpl.
  - destruct (Z.eqb_spec i j); [congruence|]. exact IH.
  - now rewrite IH.
Qed.

Lemma updated_Forall (P : Z * Proposal -> Prop) fields db i :
  Forall P db ->
  (forall q, In (i, q) db -> P (i, fields q)) ->
  Forall P (updated fields i db).
Proof.
  intros Hall Hnew. unfold updated. apply Forall_forall.
  intros e Hin. apply in_map_iff in Hin as [[k q] [He Hin]]. simpl in He.
  destruct (Z.eqb_spec k i) as [->|Hne]; subst e.
  - now apply Hnew.
  - rewrite Forall_forall in Hall. now apply Hall.
Qed.

Lemma db_search_In (cond : Proposal -> bool) db p :
  In p (db_search cond db) -> cond p = true /\ exists i, In (i, p) db.
Proof.
  unfold db_search, db_all. intros Hin. apply filter_In in Hin as [Hin Hc].
  split; [exact Hc|]. apply in_map_iff in Hin as [[k q] [Hq Hin]].
  simpl in Hq. subst q. now exists k.
Qed.

Lemma db_search_nil (cond : Proposal -> bool) db :
  db_search cond db = [] <-> (forall i p, In (i, p) db -> cond p = false).
Proof.
  unfold db_search, db_all. split.
  - intros Hnil i p Hin. destruct (cond p) eqn:Hc; [|reflexivity].
    assert (Hf : In p (filter cond (map snd db))).
    { apply filter_In. split; [|exact Hc].
      change p with (snd (i, p)). now apply in_map. }
    rewrite Hnil in Hf. destruct Hf.
  - intros Hall. induction db as [|[k q] rest IH]; simpl; [reflexivity|].
    rewrite (Hall k q (or_introl eq_refl)). apply IH.
    intros i p Hin. apply (Hall i p). now right.
Qed.

(** *** What each handler computes *)

Lemma get_proposal_from_db_found db i p :
  db_get i db = Some p -> get_proposal_from_db i db = (Return p, db).
Proof.
  intros H. unfold get_proposal_from_db, bind, m_get, ret. now rewrite H.
Qed.

Lemma get_proposal_from_db_missing db i :
  db_get i db = None ->
  get_proposal_from_db i db = (Raise (HTTPException 404 "Proposal not found"), db).
Proof.
  intros H. unfold get_proposal_from_db, bind, m_get, raise. now rewrite H.
Qed.

Lemma mark_processed_match db i p cands now :
  db_get i db = Some p ->
  Z.of_nat (List.length (rows cands)) = n_candidates p ->
  mark_processed i cands now db
  = (Return FINISHED, updated (fun _ => processed cands now p) i db).
Proof.
  intros Hget Hn. unfold mark_processed, bind.
  rewrite (get_proposal_from_db_found _ _ _ Hget).
  apply Z.eqb_eq in Hn. rewrite Hn. simpl.
  unfold m_update. now rewrite (db_update_present _ _ _ _ Hget).
Qed.

Lemma mark_processed_mismatch db i p cands now :
  db_get i db = Some p ->
  Z.of_nat (List.length (rows cands)) <> n_candidates p ->
  mark_processed i cands now db
  = (Raise (HTTPException 400
       (count_mismatch_detail (n_candidates p) (List.length (rows cands)))), db).
Proof.
  intros Hget Hn. unfold mark_processed, bind.
  rewrite (get_proposal_from_db_found _ _ _ Hget).
  apply Z.eqb_neq in Hn. now rewrite Hn.
Qed.

Lemma mark_processed_missing db i cands now :
  db_get i db = None ->
  mark_processed i cands now db
  = (Raise (HTTPException 404 "Proposal not found"), db).
Proof.
  intros Hget. unfold mark_processed, bind.
  now rewrite (get_proposal_from_db_missing _ _ Hget).
Qed.

Lemma mark_failed_msg db i p body msg now :
  db_get i db = Some p ->
  dict_lookup "msg" body = Some msg ->
  mark_failed i body now db
  = (Return FAILED, updated (fun _ => failed msg now p) i db).
Proof.
  intros Hget Hmsg. unfold mark_failed, bind.
  rewrite (get_proposal_from_db_found _ _ _ Hget), Hmsg.
  unfold m_update. now rewrite (db_update_present _ _ _ _ Hget).
Qed.

Lemma mark_failed_no_msg db i p body now :
  db_get i db = Some p ->
  dict_lookup "msg" body = None ->
  mark_failed i body now db = (Raise (KeyError "msg"), db).
Proof.
  intros Hget Hmsg. unfold mark_failed, bind.
  now rewrite (get_proposal_from_db_found _ _ _ Hget), Hmsg.
Qed.

Lemma mark_failed_missing db i body now :
  db_get i db = None ->
  mark_failed i body now db
  = (Raise (HTTPException 404 "Proposal not found"), db).
Proof.
  intros Hget. unfold mark_failed, bind.
  now rewrite (get_proposal_from_db_missing _ _ Hget).
Qed.

Lemma claim_proposal_none db now :
  db_search (@is_created _ _ _) db = [] ->
  claim_proposal now db
  = (Raise (HTTPException 404 "No proposals to claim"), db).
Proof.
  intros H. unfold claim_proposal, bind, m_search. now rewrite H.
Qed.

Lemma claim_proposal_first db now p rest i :
  db_search (@is_created _ _ _) db = p :: rest ->
  id p = Some i ->
  db_get i db = Some p ->
  claim_proposal now db = (Return (claimed now p), updated (claimed now) i db).
Proof.
  intros Hs Hid Hget. unfold claim_proposal, bind, m_search. rewrite Hs, Hid.
  unfold m_update. rewrite (db_update_present _ _ _ _ Hget).
  unfold m_load, bind, m_get, ret.
  now rewrite (db_get_updated_same _ _ _ _ Hget).
Qed.

Lemma db_get_app_fresh db i q :
  ~ In i (map fst db) -> db_get i (db ++ [(i, q)]) = Some q.
Proof.
  induction db as [|[k q'] rest IH]; simpl; intros Hfresh.
  - now rewrite Z.eqb_refl.
  - destruct (Z.eqb_spec k i) as [->|]; [exfalso; apply Hfresh; now left|].
    apply IH. intros Hin. apply Hfresh. now right.
Qed.

Lemma updated_app_fresh fields db i q :
  ~ In i (map fst db) ->
  updated fields i (db ++ [(i, q)]) = db ++ [(i, fields q)].
Proof.
  intros Hfresh. unfold updated. rewrite map_app. simpl.
  rewrite Z.eqb_refl. f_equal.
  rewrite <- (map_id db) at 2. apply map_ext_in. intros [k q'] Hin. simpl.
  destruct (Z.eqb_spec k i) as [->|]; [|reflexivity].
  exfalso. apply Hfresh. change i with (fst (i, q')). now apply in_map.
Qed.

Lemma create_proposal_eq db r now :
  create_proposal r now db
  = (Return (set_id (next_id db) (Proposal_of_request r now)),
     db ++ [(next_id db, set_id (next_id db) (Proposal_of_request r now))]).
Proof.
  pose proof (next_id_fresh db) as Hfresh.
  unfold create_proposal, bind, m_insert, db_insert, m_update.
  rewrite (db_update_present _ _ _ _ (db_get_app_fresh _ _ _ Hfresh)).
  rewrite (updated_app_fresh _ _ _ _ Hfresh).
  unfold m_load, bind, m_get, ret.
  now rewrite (db_get_app_fresh _ _ _ Hfresh).
Qed.

End StoreFacts.

(** ** The invariants of the stored records *)

Section Invariants.

Variables (StrategyData Experiments Row : Type).

Local Abbreviation Proposal := (Proposal StrategyData Experiments Row).
Local Abbreviation TinyDB := (TinyDB StrategyData Experiments Row).
Local Abbreviation op := (op StrategyData Experiments Row).

Implicit Types (db : TinyDB) (p : Proposal) (i j : Z).

Lemma NoDup_snoc (A : Type) (l : list A) (a : A) :
  NoDup l -> ~ In a l -> NoDup (l ++ [a]).
Proof.
  induction l as [|x l IH]; simpl; intros Hnd Hnotin.
  - constructor; [intros []|constructor].
  - inversion Hnd as [|? ? Hx Hl]; subst. constructor.
    + rewrite in_app_iff. simpl. intros [H|[H|[]]]; [now apply Hx|].
      apply Hnotin. now left.
    + apply IH; [exact Hl|]. intros H. apply Hnotin. now right.
Qed.

Lemma db_ok_stored db i p : db_ok db -> In (i, p) db -> stored_ok (i, p).
Proof.
  intros [_ Hall] Hin. rewrite Forall_forall in Hall. now apply Hall.
Qed.

Lemma db_ok_updated fields db i p :
  db_ok db -> db_get i db = Some p -> stored_ok (i, fields p) ->
  db_ok (updated fields i db).
Proof.
  intros [Hnd Hall] Hget Hnew. split.
  - now rewrite updated_keys.
  - apply updated_Forall; [exact Hall|].
    intros q Hin. apply (In_db_get _ _ _ _ _ _ Hnd) in Hin.
    rewrite Hget in Hin. now injection Hin as <-.
Qed.

Lemma create_proposal_db_ok db r now :
  db_ok db -> db_ok (snd (create_proposal r now db)).
Proof.
  intros [Hnd Hall]. rewrite create_proposal_eq. simpl. split.
  - rewrite map_app. simpl. apply NoDup_snoc; [exact Hnd|apply next_id_fresh].
  - apply Forall_app. split; [exact Hall|].
    constructor; [|constructor].
    repeat split; simpl; intros ? ?; discriminate.
Qed.

Lemma claim_proposal_db_ok db now :
  db_ok db -> db_ok (snd (claim_proposal now db)).
Proof.
  intros Hok. destruct (db_search (@is_created _ _ _) db) as [|p rest] eqn:Hs.
  - now rewrite (claim_proposal_none _ _ _ _ _ Hs).
  - assert (Hin : In p (db_search (@is_created _ _ _) db))
      by (rewrite Hs; now left).
    apply db_search_In in Hin as [Hc [i Hin]].
    destruct (db_ok_stored _ _ _ Hok Hin) as [Hid [Hout Hcnt]]. simpl in *.
    pose proof (In_db_get _ _ _ _ _ _ (proj1 Hok) Hin) as Hget.
    rewrite (claim_proposal_first _ _ _ _ _ _ _ _ Hs Hid Hget). simpl.
    apply (db_ok_updated _ _ _ _ Hok Hget).
    apply StateEnum_eqb_eq in Hc. unfold outcome_invariant in Hout.
    rewrite Hc in Hout. repeat split; simpl; tauto || (intros c Hc'; now apply Hcnt).
Qed.

Lemma mark_processed_db_ok db i cands now :
  db_ok db -> db_ok (snd (mark_processed i cands now db)).
Proof.
  intros Hok. destruct (db_get i db) as [p|] eqn:Hget.
  - destruct (Z.eq_dec (Z.of_nat (List.length (rows cands))) (n_candidates p))
      as [Hn|Hn].
    + rewrite (mark_processed_match _ _ _ _ _ _ _ _ Hget Hn). simpl.
      apply (db_ok_updated _ _ _ _ Hok Hget).
      destruct (db_ok_stored _ _ _ Hok (db_get_In _ _ _ _ _ _ Hget))
        as [Hid _]. simpl in Hid.
      repeat split; simpl; [exact Hid|discriminate|].
      intros c [= <-]. exact Hn.
    + now rewrite (mark_processed_mismatch _ _ _ _ _ _ _ _ Hget Hn).
  - now rewrite (mark_processed_missing _ _ _ _ _ _ _ Hget).
Qed.

Lemma mark_failed_db_ok db i body now :
  db_ok db -> db_ok (snd (mark_failed i body now db)).
Proof.
  intros Hok. destruct (db_get i db) as [p|] eqn:Hget.
  - destruct (dict_lookup "msg" body) as [msg|] eqn:Hmsg.
    + rewrite (mark_failed_msg _ _ _ _ _ _ _ _ _ Hget Hmsg). simpl.
      apply (db_ok_updated _ _ _ _ Hok Hget).
      destruct (db_ok_stored _ _ _ Hok (db_get_In _ _ _ _ _ _ Hget))
        as [Hid [_ Hcnt]]. simpl in Hid.
      repeat split; simpl; [exact Hid|discriminate|exact Hcnt].
    + now rewrite (mark_failed_no_msg _ _ _ _ _ _ _ _ Hget Hmsg).
  - now rewrite (mark_failed_missing _ _ _ _ _ _ _ Hget).
Qed.

Lemma reads_keep_table db i :
  snd (get_proposals db) = db /\ snd (get_proposal i db) = db
  /\ snd (get_candidates i db) = db /\ snd (get_state i db) = db.
Proof.
  unfold get_proposals, get_proposal, get_candidates, get_state,
    get_proposal_from_db, bind, m_get, ret, raise.
  destruct (db_get i db) as [p|]; simpl; repeat split.
  now destruct (candidates p).
Qed.

Lemma exec_db_ok (o : op) now db : db_ok db -> db_ok (exec o now db).
Proof.
  intros Hok. destruct o as [r| | |i|i|i|i c|i b]; simpl.
  - now apply create_proposal_db_ok.
  - exact Hok.
  - now apply claim_proposal_db_ok.
  - now rewrite (proj1 (proj2 (reads_keep_table db i))).
  - now rewrite (proj1 (proj2 (proj2 (reads_keep_table db i)))).
  - now rewrite (proj2 (proj2 (proj2 (reads_keep_table db i)))).
  - now apply mark_processed_db_ok.
  - now apply mark_failed_db_ok.
Qed.

Lemma run_db_ok (script : list (op * Z)) db : db_ok db -> db_ok (run script db).
Proof.
  revert db. induction script as [|[o now] rest IH]; simpl; intros db Hok.
  - exact Hok.
  - apply IH. now apply exec_db_ok.
Qed.

Lemma empty_db_ok : db_ok (@nil (Z * Proposal)).
Proof. split; constructor. Qed.

Lemma reachable_stored (script : list (op * Z)) i p :
  In (i, p) (run script []) -> stored_ok (i, p).
Proof.
  apply db_ok_stored. apply run_db_ok. exact empty_db_ok.
Qed.

End Invariants.

(** ** The lifecycle of a record *)

Section Lifecycle.

Variables (StrategyData Experiments Row : Type).

Local Abbreviation Proposal := (Proposal StrategyData Experiments Row).
Local Abbreviation TinyDB := (TinyDB StrategyData Experiments Row).
Local Abbreviation op := (op StrategyData Experiments Row).

Implicit Types (db : TinyDB) (p : Proposal) (i j : Z).

(** C1, as the handlers keep it: in every table reached from the empty
    one by service calls in any order, a CREATED or CLAIMED record has
    neither candidates nor an error message, a FINISHED record has
    candidates, and a FAILED record has an error message. (Candidates and
    error message are not exclusive: [mark_failed] keeps the candidates of
    a FINISHED record, [mark_processed] the message of a FAILED one.) *)
Theorem outcome_invariant_reachable (script : list (op * Z)) i p :
  In (i, p) (run script []) ->
  (state p = CREATED \/ state p = CLAIMED ->
     candidates p = None /\ error_message p = None)
  /\ (state p = FINISHED -> candidates p <> None)
  /\ (state p = FAILED -> error_message p <> None).
Proof.
  intros Hin. destruct (reachable_stored _ _ _ script i p Hin) as [_ [Hout _]].
  simpl in Hout. unfold outcome_invariant in Hout.
  destruct (state p); (split; [|split]); intros H;
    try exact Hout; try discriminate H; destruct H; discriminate.
Qed.

(** C7: in every table reached from the empty one by service calls in
    any order, a FINISHED record has candidates, and as many rows as its
    [n_candidates]. *)
Theorem finished_row_count (script : list (op * Z)) i p :
  In (i, p) (run script []) ->
  state p = FINISHED ->
  exists c, candidates p = Some c
            /\ Z.of_nat (List.length (rows c)) = n_candidates p.
Proof.
  intros Hin Hst.
  destruct (reachable_stored _ _ _ script i p Hin) as [_ [Hout Hcnt]].
  simpl in Hout, Hcnt. unfold outcome_invariant in Hout. rewrite Hst in Hout.
  destruct (candidates p) as [c|] eqn:Hc; [|congruence].
  exists c. split; [reflexivity|]. now apply Hcnt.
Qed.

(** C3: on an existing proposal, [mark_processed] with a row count other
    than [n_candidates] (zero rows included) raises the 400 validation
    error and leaves the whole table as it was; with the matching count
    it returns FINISHED and stores the record with state FINISHED, the
    candidates, and the new [last_updated_at], every other record as it
    was. *)
Theorem mark_processed_count_check db i p (cands : Candidates Row) now :
  db_get i db = Some p ->
  (Z.of_nat (List.length (rows cands)) <> n_candidates p ->
     mark_processed i cands now db
     = (Raise (HTTPException 400
          (count_mismatch_detail (n_candidates p) (List.length (rows cands)))),
        db))
  /\ (Z.of_nat (List.length (rows cands)) = n_candidates p ->
      exists db' p',
        mark_processed i cands now db = (Return FINISHED, db')
        /\ db_get i db' = Some p'
        /\ state p' = FINISHED /\ candidates p' = Some cands
        /\ last_updated_at p' = now
        /\ p' = processed cands now p
        /\ forall j, j <> i -> db_get j db' = db_get j db).
Proof.
  intros Hget. split; intros Hn.
  - now apply mark_processed_mismatch.
  - exists (updated (fun _ => processed cands now p) i db),
      (processed cands now p).
    split; [now apply mark_processed_match|].
    split; [now apply (db_get_updated_same _ _ _
                         (fun _ => processed cands now p) db i p)|].
    repeat split. intros j Hj. now apply db_get_updated_other.
Qed.

(** C10: [mark_processed] does not look at the state: on an existing
    proposal in whatever state, a call with the matching row count
    returns FINISHED, and the state read back is FINISHED. *)
Theorem mark_processed_any_state db i p (s : StateEnum) (cands : Candidates Row) now :
  db_get i db = Some p ->
  state p = s ->
  Z.of_nat (List.length (rows cands)) = n_candidates p ->
  exists db',
    mark_processed i cands now db = (Return FINISHED, db')
    /\ get_state i db' = (Return FINISHED, db').
Proof.
  intros Hget _ Hn.
  exists (updated (fun _ => processed cands now p) i db).
  split; [now apply mark_processed_match|].
  unfold get_state, bind.
  rewrite (get_proposal_from_db_found _ _ _ _ _ (processed cands now p));
    [reflexivity|].
  now apply (db_get_updated_same _ _ _ (fun _ => processed cands now p) db i p).
Qed.

(** C5: on an existing proposal in whatever state, [mark_failed] with a
    body whose "msg" is the message returns FAILED and stores the record
    with state FAILED, that message as [error_message], and the new
    [last_updated_at]; a further call is accepted in the same way and
    overwrites them. *)
Theorem mark_failed_any_state db i p (s : StateEnum)
    (body : list (string * string)) (msg : string) now :
  db_get i db = Some p ->
  state p = s ->
  dict_lookup "msg" body = Some msg ->
  exists db' p',
    mark_failed i body now db = (Return FAILED, db')
    /\ db_get i db' = Some p'
    /\ state p' = FAILED /\ error_message p' = Some msg
    /\ last_updated_at p' = now
    /\ forall body2 msg2 now2,
         dict_lookup "msg" body2 = Some msg2 ->
         exists db'' p'',
           mark_failed i body2 now2 db' = (Return FAILED, db'')
           /\ db_get i db'' = Some p''
           /\ state p'' = FAILED /\ error_message p'' = Some msg2
           /\ last_updated_at p'' = now2.
Proof.
  intros Hget _ Hmsg.
  assert (Hget' : db_get i (updated (fun _ => failed msg now p) i db)
                  = Some (failed msg now p))
    by now apply (db_get_updated_same _ _ _ (fun _ => failed msg now p) db i p).
  exists (updated (fun _ => failed msg now p) i db), (failed msg now p).
  split; [now apply mark_failed_msg|].
  split; [exact Hget'|].
  repeat split. intros body2 msg2 now2 Hmsg2.
  exists (updated (fun _ => failed msg2 now2 (failed msg now p)) i
            (updated (fun _ => failed msg now p) i db)),
    (failed msg2 now2 (failed msg now p)).
  split; [now apply mark_failed_msg|].
  split; [|repeat split].
  now apply (db_get_updated_same _ _ _
               (fun _ => failed msg2 now2 (failed msg now p)) _ i
               (failed msg now p)).
Qed.

(** C4, as the handlers have it: for an existing proposal of a table
    reached by service calls, [get_candidates] raises the 404 exactly
    when the record has no candidates; a FINISHED record has them and
    they are returned, a CREATED or CLAIMED record has none; and after
    [mark_failed] on a record without candidates the 404 is raised. (A
    record marked failed after it was FINISHED keeps its candidates.) *)
Theorem get_candidates_not_found (script : list (op * Z)) i p :
  db_get i (run script []) = Some p ->
  let db := run script [] in
  let not_found := Raise (HTTPException 404 "Candidates not found") in
  (get_candidates i db = (not_found, db) <-> candidates p = None)
  /\ (state p = FINISHED ->
      exists c, candidates p = Some c /\ get_candidates i db = (Return c, db))
  /\ (state p = CREATED \/ state p = CLAIMED ->
      get_candidates i db = (not_found, db))
  /\ (candidates p = None ->
      forall body msg now, dict_lookup "msg" body = Some msg ->
        exists db', mark_failed i body now db = (Return FAILED, db')
                    /\ get_candidates i db' = (not_found, db')).
Proof.
  intros Hget db not_found.
  assert (Hgc : forall (d : TinyDB) q, db_get i d = Some q ->
            get_candidates i d
            = match candidates q with
              | Some c => (Return c, d)
              | None => (not_found, d)
              end).
  { intros d q Hq. unfold get_candidates, bind.
    rewrite (get_proposal_from_db_found _ _ _ _ _ _ Hq).
    now destruct (candidates q). }
  destruct (reachable_stored _ _ _ script i p (db_get_In _ _ _ _ _ _ Hget))
    as [_ [Hout _]].
  simpl in Hout. unfold outcome_invariant in Hout.
  fold db in Hget. rewrite (Hgc db p Hget).
  split; [|split; [|split]].
  - destruct (candidates p); split; intros H; try reflexivity; discriminate H.
  - intros Hst. rewrite Hst in Hout.
    destruct (candidates p) as [c|]; [now exists c|congruence].
  - intros Hst.
    assert (Hc : candidates p = None)
      by (destruct Hst as [Hst|Hst]; rewrite Hst in Hout; apply Hout).
    now rewrite Hc.
  - intros Hc body msg now Hmsg.
    exists (updated (fun _ => failed msg now p) i db).
    split; [now apply mark_failed_msg|].
    rewrite (Hgc _ (failed msg now p)).
    + simpl. now rewrite Hc.
    + now apply (db_get_updated_same _ _ _ (fun _ => failed msg now p) db i p).
Qed.

End Lifecycle.

(** ** The lifecycle statements on the sample tables *)

Example sample_tables :
  Sample.created = [(1, Sample.record_created)]
  /\ Sample.finished = [(1, Sample.record_finished)]
  /\ Sample.finished_then_failed = [(1, Sample.record_finished_then_failed)]
  /\ Sample.claimed_then_failed = [(1, Sample.record_claimed_then_failed)].
Proof. repeat split. Qed.

(** C1 as worded fails: a record that was marked processed and then
    marked failed is FAILED and has both candidates and an error
    message. *)
Lemma spec_outcome_invariant_counterexample :
  In (1, Sample.record_finished_then_failed)
     (run Sample.script_finished_then_failed [])
  /\ state Sample.record_finished_then_failed = FAILED
  /\ candidates Sample.record_finished_then_failed = Some Sample.two_rows
  /\ error_message Sample.record_finished_then_failed = Some "boom"
  /\ spec_outcome_invariant Sample.record_finished_then_failed = false.
Proof. repeat split. now left. Qed.

Lemma outcome_invariant_reachable_witness :
  In (1, Sample.record_finished_then_failed)
     (run Sample.script_finished_then_failed [])
  /\ (state Sample.record_finished_then_failed = CREATED
      \/ state Sample.record_finished_then_failed = CLAIMED ->
      candidates Sample.record_finished_then_failed = None
      /\ error_message Sample.record_finished_then_failed = None)
  /\ (state Sample.record_finished_then_failed = FINISHED ->
      candidates Sample.record_finished_then_failed <> None)
  /\ (state Sample.record_finished_then_failed = FAILED ->
      error_message Sample.record_finished_then_failed <> None).
Proof.
  split; [now left|].
  apply (outcome_invariant_reachable _ _ _
           Sample.script_finished_then_failed 1).
  now left.
Defined.

Lemma finished_row_count_witness :
  In (1, Sample.record_finished) (run Sample.script_finished [])
  /\ state Sample.record_finished = FINISHED
  /\ exists c, candidates Sample.record_finished = Some c
               /\ Z.of_nat (List.length (rows c))
                  = n_candidates Sample.record_finished.
Proof.
  split; [now left|]. split; [reflexivity|].
  apply (finished_row_count _ _ _ Sample.script_finished 1);
    [now left|reflexivity].
Defined.

Lemma mark_processed_count_check_witness :
  db_get 1 Sample.created = Some Sample.record_created
  /\ (Z.of_nat (List.length (rows Sample.no_rows))
        <> n_candidates Sample.record_created ->
      mark_processed 1 Sample.no_rows 11 Sample.created
      = (Raise (HTTPException 400 "Expected 2 candidates, got 0"),
         Sample.created))
  /\ (Z.of_nat (List.length (rows Sample.two_rows))
        = n_candidates Sample.record_created ->
      exists db' p',
        mark_processed 1 Sample.two_rows 11 Sample.created
        = (Return FINISHED, db')
        /\ db_get 1 db' = Some p'
        /\ state p' = FINISHED /\ candidates p' = Some Sample.two_rows
        /\ last_updated_at p' = 11
        /\ p' = processed Sample.two_rows 11 Sample.record_created
        /\ forall j, j <> 1 -> db_get j db' = db_get j Sample.created).
Proof.
  split; [reflexivity|]. split.
  - apply (proj1 (mark_processed_count_check _ _ _ Sample.created 1
                    Sample.record_created Sample.no_rows 11 eq_refl)).
  - apply (proj2 (mark_processed_count_check _ _ _ Sample.created 1
                    Sample.record_created Sample.two_rows 11 eq_refl)).
Defined.

Lemma mark_processed_any_state_witness :
  db_get 1 Sample.claimed_then_failed = Some Sample.record_claimed_then_failed
  /\ state Sample.record_claimed_then_failed = FAILED
  /\ Z.of_nat (List.length (rows Sample.two_rows))
     = n_candidates Sample.record_claimed_then_failed
  /\ exists db',
       mark_processed 1 Sample.two_rows 20 Sample.claimed_then_failed
       = (Return FINISHED, db')
       /\ get_state 1 db' = (Return FINISHED, db').
Proof.
  split; [reflexivity|]. split; [reflexivity|]. split; [reflexivity|].
  apply (mark_processed_any_state _ _ _ Sample.claimed_then_failed 1
           Sample.record_claimed_then_failed FAILED Sample.two_rows 20);
    reflexivity.
Defined.

Lemma mark_failed_any_state_witness :
  db_get 1 Sample.finished = Some Sample.record_finished
  /\ state Sample.record_finished = FINISHED
  /\ dict_lookup "msg" [("msg", "boom")] = Some "boom"
  /\ exists db' p',
       mark_failed 1 [("msg", "boom")] 13 Sample.finished = (Return FAILED, db')
       /\ db_get 1 db' = Some p'
       /\ state p' = FAILED /\ error_message p' = Some "boom"
       /\ last_updated_at p' = 13
       /\ forall body2 msg2 now2,
            dict_lookup "msg" body2 = Some msg2 ->
            exists db'' p'',
              mark_failed 1 body2 now2 db' = (Return FAILED, db'')
              /\ db_get 1 db'' = Some p''
              /\ state p'' = FAILED /\ error_message p'' = Some msg2
              /\ last_updated_at p'' = now2.
Proof.
  split; [reflexivity|]. split; [reflexivity|]. split; [reflexivity|].
  apply (mark_failed_any_state _ _ _ Sample.finished 1 Sample.record_finished
           FINISHED [("msg", "boom")] "boom" 13); reflexivity.
Defined.

(** C4 as worded fails: the record below is FAILED, not FINISHED, it was
    marked failed, and [get_candidates] returns its candidates. *)
Lemma get_candidates_counterexample :
  Sample.finished_then_failed
  = snd (mark_failed 1 [("msg", "boom")] 13 Sample.finished)
  /\ get_state 1 Sample.finished_then_failed
     = (Return FAILED, Sample.finished_then_failed)
  /\ get_candidates 1 Sample.finished_then_failed
     = (Return Sample.two_rows, Sample.finished_then_failed).
Proof. repeat split. Qed.

Lemma get_candidates_not_found_witness :
  db_get 1 (run Sample.script_created []) = Some Sample.record_created
  /\ let db := run Sample.script_created [] in
     let not_found := Raise (HTTPException 404 "Candidates not found") in
     (get_candidates 1 db = (not_found, db)
      <-> candidates Sample.record_created = None)
     /\ (state Sample.record_created = FINISHED ->
         exists c, candidates Sample.record_created = Some c
                   /\ get_candidates 1 db = (Return c, db))
     /\ (state Sample.record_created = CREATED
         \/ state Sample.record_created = CLAIMED ->
         get_candidates 1 db = (not_found, db))
     /\ (candidates Sample.record_created = None ->
         forall body msg now, dict_lookup "msg" body = Some msg ->
           exists db', mark_failed 1 body now db = (Return FAILED, db')
                       /\ get_candidates 1 db' = (not_found, db')).
Proof.
  split; [reflexivity|].
  apply (get_candidates_not_found _ _ _ Sample.script_created 1
           Sample.record_created eq_refl).
Defined.

(** ** Claiming *)

Section Claiming.

Variables (StrategyData Experiments Row : Type).

Local Abbreviation Proposal := (Proposal StrategyData Experiments Row).
Local Abbreviation TinyDB := (TinyDB StrategyData Experiments Row).
Local Abbreviation Response := (Response StrategyData Experiments Row).

Implicit Types (db : TinyDB) (p : Proposal) (i j : Z).

Lemma no_created_search db :
  (forall i p, In (i, p) db -> state p <> CREATED) ->
  db_search (@is_created _ _ _) db = [].
Proof.
  intros Hnone. apply db_search_nil. intros i p Hin.
  unfold is_created. destruct (StateEnum_eqb (state p) CREATED) eqn:He;
    [|reflexivity].
  apply StateEnum_eqb_eq in He. now apply Hnone in Hin.
Qed.

(** C6: on a table with no CREATED record (empty, or every record
    CLAIMED, FINISHED or FAILED) the claim handler ends with the 404 "No
    proposals to claim", which is how the service says that there is no
    work and is not the 404 of a missing proposal, and leaves the table
    as it is; the router answers with status 404; and the client's
    [claim_proposal], whatever carries the request to the service,
    returns [None] and raises nothing. *)
Theorem claim_no_work db now :
  (forall i p, In (i, p) db -> state p <> CREATED) ->
  claim_proposal now db = (Raise no_work, db)
  /\ no_work <> HTTPException 404 "Proposal not found"
  /\ serve GET_claim now db
     = ({| status_code := 404; content := JDetail "No proposals to claim" |}, db)
  /\ forall (World : Type)
       (requests_send : Request Row -> World -> pyres pyexc Response * World)
       (s : wstate Row World) (w' : World),
       requests_send GET_claim (world s)
       = (Return (fst (serve GET_claim now db)), w') ->
       Client_claim_proposal requests_send s
       = (WReturn None,
          {| world := w'; round := round s; sent := sent s ++ [GET_claim] |}).
Proof.
  intros Hnone. pose proof (no_created_search db Hnone) as Hs.
  pose proof (claim_proposal_none _ _ _ db now Hs) as Hc.
  split; [exact Hc|]. split; [discriminate|]. split.
  - unfold serve. now rewrite Hc.
  - intros World requests_send s w' Hsend.
    unfold Client_claim_proposal, w_bind, w_request. rewrite Hsend.
    unfold serve. rewrite Hc. reflexivity.
Qed.

(** A request that runs alone goes through its three table calls to
    what [claim_proposal] computes. *)
Lemma claim_steps_alone now db :
  let s1 := claim_step now TStart db in
  let s2 := claim_step now (fst s1) (snd s1) in
  let s3 := claim_step now (fst s2) (snd s2) in
  s3 = (TDone (fst (claim_proposal now db)), snd (claim_proposal now db)).
Proof.
  unfold claim_proposal, bind, m_search. simpl.
  destruct (db_search (@is_created _ _ _) db) as [|p rest]; [reflexivity|].
  destruct (m_update _ (id p) db) as [[[]|e] db']; reflexivity.
Qed.

(** After a claim on a table in the service's invariant, no CREATED
    record is left when the claimed one was the only one. *)
Lemma claim_only_created db p now :
  db_ok db ->
  db_search (@is_created _ _ _) db = [p] ->
  exists i db',
    id p = Some i
    /\ claim_proposal now db = (Return (claimed now p), db')
    /\ db_get i db' = Some (claimed now p)
    /\ db_search (@is_created _ _ _) db' = [].
Proof.
  intros Hok Hs.
  assert (Hin : In p (db_search (@is_created _ _ _) db))
    by (rewrite Hs; now left).
  apply db_search_In in Hin as [Hc [i Hin]].
  destruct (db_ok_stored _ _ _ _ _ _ Hok Hin) as [Hid _]. simpl in Hid.
  pose proof (In_db_get _ _ _ _ _ _ (proj1 Hok) Hin) as Hget.
  exists i, (updated (claimed now) i db).
  split; [exact Hid|].
  split; [now apply (claim_proposal_first _ _ _ db now p [] i)|].
  split; [now apply db_get_updated_same|].
  apply db_search_nil. intros j q Hq.
  unfold updated in Hq. apply in_map_iff in Hq as [[k q0] [He Hq0]].
  simpl in He. destruct (Z.eqb_spec k i) as [->|Hne].
  - injection He as <- <-. reflexivity.
  - injection He as <- <-.
    destruct (is_created q0) eqn:Hcq; [|reflexivity]. exfalso.
    assert (Hq' : In q0 (db_search (@is_created _ _ _) db)).
    { unfold db_search, db_all. apply filter_In. split; [|exact Hcq].
      change q0 with (snd (k, q0)). now apply in_map. }
    rewrite Hs in Hq'. destruct Hq' as [<-|[]].
    destruct (db_ok_stored _ _ _ _ _ _ Hok Hq0) as [Hid' _]. simpl in Hid'.
    congruence.
Qed.

Lemma claim_serially_no_work nows db :
  db_search (@is_created _ _ _) db = [] ->
  claim_serially nows db = (map (fun _ => Raise no_work) nows, db).
Proof.
  intros Hs. induction nows as [|now rest IH]; simpl; [reflexivity|].
  rewrite (claim_proposal_none _ _ _ db now Hs). simpl. now rewrite IH.
Qed.

(** Claims that do not overlap are exactly-once: with one CREATED record
    in a table of the service, the first of any number of successive
    calls returns it in state CLAIMED and every later call has no work. *)
Theorem serial_claims_exactly_one db p now nows :
  db_ok db ->
  db_search (@is_created _ _ _) db = [p] ->
  exists db',
    claim_serially (now :: nows) db
    = (Return (claimed now p) :: map (fun _ => Raise no_work) nows, db')
    /\ state (claimed now p) = CLAIMED
    /\ id (claimed now p) = id p.
Proof.
  intros Hok Hs.
  destruct (claim_only_created db p now Hok Hs) as [i [db' [_ [Hc [_ Hnone]]]]].
  exists db'. simpl. rewrite Hc. simpl.
  rewrite (claim_serially_no_work nows db' Hnone). repeat split.
Qed.

End Claiming.

Lemma claim_no_work_witness :
  (forall i p, In (i, p) Sample.finished -> state p <> CREATED)
  /\ claim_proposal 20 Sample.finished = (Raise no_work, Sample.finished)
  /\ no_work <> HTTPException 404 "Proposal not found"
  /\ serve GET_claim 20 Sample.finished
     = ({| status_code := 404; content := JDetail "No proposals to claim" |},
        Sample.finished)
  /\ forall (World : Type)
       (requests_send : Request nat -> World
                        -> pyres pyexc (Response string unit nat) * World)
       (s : wstate nat World) (w' : World),
       requests_send GET_claim (world s)
       = (Return (fst (serve GET_claim 20 Sample.finished)), w') ->
       Client_claim_proposal requests_send s
       = (WReturn None,
          {| world := w'; round := round s; sent := sent s ++ [GET_claim] |}).
Proof.
  assert (H : forall i p, In (i, p) Sample.finished -> state p <> CREATED).
  { intros i p [[= <- <-]|[]]. discriminate. }
  split; [exact H|].
  exact (claim_no_work _ _ _ Sample.finished 20 H).
Defined.

(** On the empty table as well. *)
Example claim_no_work_empty :
  claim_proposal 20 Sample.empty = (Raise no_work, Sample.empty).
Proof. reflexivity. Qed.

(** C2 fails on the handler: two claim requests whose table calls
    alternate (search, search, update, update, get, get) on a table with
    one CREATED proposal both return proposal 1 in state CLAIMED. *)
Theorem concurrent_claims_both_claimed :
  let r := claimed 21 Sample.record_created in
  run_schedule [0; 1; 0; 1; 0; 1]%nat
    ([(20, TStart); (21, TStart)], Sample.created)
  = ([(20, TDone (Return r)); (21, TDone (Return r))], [(1, r)])
  /\ state r = CLAIMED /\ id r = Some 1
  /\ db_search (@is_created _ _ _) Sample.created = [Sample.record_created].
Proof. repeat split. Qed.

(** The same two requests one after the other: the second has no work. *)
Example serial_claims_sample :
  fst (claim_serially [20; 21] Sample.created)
  = [Return (claimed 20 Sample.record_created); Raise no_work].
Proof. reflexivity. Qed.

(** * Properties of the worker *)

(** ** The isolated unit *)

Section IsolatedUnit.

Variables (StrategyData Experiments Row : Type).
Variables (Strategy DataFrame Domain : Type).
Variable strategies_map : StrategyData -> pyres pyexc Strategy.
Variable to_pandas : Experiments -> pyres pyexc DataFrame.
Variable strategy_tell : Strategy -> DataFrame -> pyres pyexc Strategy.
Variable strategy_ask : Strategy -> Z -> pyres pyexc DataFrame.
Variable domain : StrategyData -> Domain.
Variable from_pandas : DataFrame -> Domain -> pyres pyexc (Candidates Row).

Local Abbreviation Proposal := (Proposal StrategyData Experiments Row).
Local Abbreviation unit_try :=
  (process_proposal_try strategies_map to_pandas strategy_tell strategy_ask
                        domain from_pandas).
Local Abbreviation unit_run :=
  (process_proposal strategies_map to_pandas strategy_tell strategy_ask
                    domain from_pandas).

Local Abbreviation unit_generate :=
  (generate strategies_map to_pandas strategy_tell strategy_ask domain
            from_pandas).

Ltac run_unit :=
  unfold process_proposal, generate, process_proposal_try, u_bind, u_call,
    u_ret;
  repeat (simpl;
          match goal with
          | |- context [strategies_map ?a] => destruct (strategies_map a)
          | |- context [experiments ?p] => destruct (experiments p)
          | |- context [to_pandas ?a] => destruct (to_pandas a)
          | |- context [strategy_tell ?a ?b] => destruct (strategy_tell a b)
          | |- context [strategy_ask ?a ?b] => destruct (strategy_ask a b)
          | |- context [from_pandas ?a ?b] => destruct (from_pandas a b)
          end);
  simpl.


(** With every library call returning, the candidates are sent. *)
Lemma process_proposal_success (proposal : Proposal) s df c :
  experiments proposal = None ->
  strategies_map (strategy_data proposal) = Return s ->
  strategy_ask s (n_candidates proposal) = Return df ->
  from_pandas df (domain (strategy_data proposal)) = Return c ->
  sent_messages (unit_run proposal) = [MsgCandidates c].
Proof.
  intros He Hm Ha Hf.
  unfold process_proposal, process_proposal_try, u_bind, u_call, u_ret.
  rewrite He, Hm. simpl. rewrite Ha. simpl. now rewrite Hf.
Qed.

(** With prior experiments, they are told to the strategy first. *)
Lemma process_proposal_success_told (proposal : Proposal) ex s df0 s' df c :
  experiments proposal = Some ex ->
  strategies_map (strategy_data proposal) = Return s ->
  to_pandas ex = Return df0 ->
  strategy_tell s df0 = Return s' ->
  strategy_ask s' (n_candidates proposal) = Return df ->
  from_pandas df (domain (strategy_data proposal)) = Return c ->
  unit_run proposal
  = [EvMap; EvToPandas; EvTell; EvAsk; EvFromPandas; EvSend (MsgCandidates c)].
Proof.
  intros He Hm Hp Ht Ha Hf.
  unfold process_proposal, process_proposal_try, u_bind, u_call, u_ret.
  rewrite He, Hm. simpl. rewrite Hp. simpl. rewrite Ht. simpl.
  rewrite Ha. simpl. now rewrite Hf.
Qed.

(** When the strategy fails on [ask], the failure text is sent, and
    nothing is asked again. *)
Lemma process_proposal_ask_fails (proposal : Proposal) s e :
  experiments proposal = None ->
  strategies_map (strategy_data proposal) = Return s ->
  strategy_ask s (n_candidates proposal) = Raise e ->
  unit_run proposal
  = if is_exception e
    then [EvMap; EvAsk; EvSend (MsgException (Exception (str e)))]
    else [EvMap; EvAsk].
Proof.
  intros He Hm Ha.
  unfold process_proposal, process_proposal_try, u_bind, u_call, u_ret.
  rewrite He, Hm. simpl. rewrite Ha. simpl. now destruct (is_exception e).
Qed.

End IsolatedUnit.

Example unit_sample_candidates :
  Sample.unit_log Sample.record_created
  = [EvMap; EvAsk; EvFromPandas; EvSend (MsgCandidates Sample.two_rows)].
Proof. reflexivity. Qed.



(** ** The round *)

Section Round.

Variables (StrategyData Experiments Row World Seconds : Type).

Local Abbreviation Proposal := (Proposal StrategyData Experiments Row).
Local Abbreviation Request := (Request Row).
Local Abbreviation Response := (Response StrategyData Experiments Row).
Local Abbreviation wstate := (wstate Row World).

Variable py_repr : Json StrategyData Experiments Row -> string.
Variable requests_send : Request -> World -> pyres pyexc Response * World.
Variable start_process : Proposal -> World -> pyres pyexc unit * World.
Variable receiver_poll : Seconds -> World -> pyres pyexc bool * World.
Variable receiver_recv : World -> pyres pyexc (Message Row) * World.
Variable time_sleep : Seconds -> World -> World.
Variable job_check_interval : Seconds.

Local Abbreviation claim := (Client_claim_proposal requests_send).
Local Abbreviation mark_processed' :=
  (Client_mark_processed py_repr requests_send).
Local Abbreviation mark_failed' := (Client_mark_failed py_repr requests_send).
Local Abbreviation loop :=
  (poll_loop py_repr requests_send receiver_poll receiver_recv
             job_check_interval).
Local Abbreviation try_body :=
  (work_round_try py_repr requests_send start_process receiver_poll
                  receiver_recv job_check_interval).
Local Abbreviation round_of :=
  (work_round py_repr requests_send start_process receiver_poll receiver_recv
              time_sleep job_check_interval).
Local Abbreviation work_of :=
  (work py_repr requests_send start_process receiver_poll receiver_recv
        time_sleep job_check_interval).
Local Abbreviation timeouts := (timed_out receiver_poll job_check_interval).

Implicit Types (s : wstate) (p : Proposal) (e : pyexc).

(** *** The requests a step sends *)

Lemma w_request_sent (req : Request) s :
  sent (snd (w_request requests_send req s)) = sent s ++ [req]
  /\ fst (w_request requests_send req s) <> WWaiting.
Proof.
  unfold w_request. destruct (requests_send req (world s)) as [[a|e] w];
    simpl; split; (reflexivity || discriminate).
Qed.

Lemma w_world_sent (A : Type) (f : World -> pyres pyexc A * World) s :
  sent (snd (w_world f s)) = sent s.
Proof. unfold w_world. now destruct (f (world s)) as [[a|e] w]. Qed.

Lemma claim_sent s : sent (snd (claim s)) = sent s ++ [GET_claim].
Proof.
  unfold Client_claim_proposal, w_bind, w_request.
  destruct (requests_send GET_claim (world s)) as [[r|e] w]; simpl;
    [|reflexivity].
  destruct (status_code r =? 404); [reflexivity|].
  now destruct (content r).
Qed.

Lemma mark_processed_sent i c s :
  sent (snd (mark_processed' i c s)) = sent s ++ [POST_mark_processed i c].
Proof.
  unfold Client_mark_processed, w_bind, w_request.
  destruct (requests_send _ (world s)) as [[r|e] w]; simpl; [|reflexivity].
  unfold parse_state. now destruct (content r).
Qed.

Lemma mark_failed_sent i m s :
  sent (snd (mark_failed' i m s))
  = sent s ++ [POST_mark_failed i [("msg", m)]]
  /\ fst (mark_failed' i m s) <> WWaiting.
Proof.
  unfold Client_mark_failed, w_bind, w_request.
  destruct (requests_send _ (world s)) as [[r|e] w]; simpl;
    [|split; [reflexivity|discriminate]].
  unfold parse_state. destruct (content r); simpl;
    split; (reflexivity || discriminate).
Qed.

(** What [mark_failed] comes to, from what the transport did: it
    returns exactly when the request got an answer that is a state. *)
Lemma mark_failed_result i m s :
  match fst (requests_send (POST_mark_failed i [("msg", m)]) (world s)) with
  | Return r =>
      match content r with
      | JState st => fst (mark_failed' i m s) = WReturn st
      | _ => exists e', fst (mark_failed' i m s) = WRaise e'
      end
  | Raise e => fst (mark_failed' i m s) = WRaise e
  end.
Proof.
  unfold Client_mark_failed, w_bind, w_request.
  destruct (requests_send _ (world s)) as [[r|e] w]; simpl; [|reflexivity].
  unfold parse_state. destruct (content r); simpl;
    try reflexivity; eexists; reflexivity.
Qed.

(** The loop sends nothing, or one [mark_processed]; never a
    [mark_failed]. *)
Lemma poll_loop_sent polls p s :
  exists l, sent (snd (loop polls p s)) = sent s ++ l
            /\ filter (@is_mark_failed Row) l = [].
Proof.
  revert s. induction polls as [|polls IH]; intros s; simpl.
  - exists []. now rewrite app_nil_r.
  - unfold w_bind at 1.
    pose proof (w_world_sent _ (receiver_poll job_check_interval) s) as Hp.
    destruct (w_world (receiver_poll job_check_interval) s)
      as [[[|]|e|] s1]; simpl in *;
      try (exists []; split; [rewrite app_nil_r; congruence|reflexivity]).
    + unfold w_bind at 1.
      pose proof (w_world_sent _ receiver_recv s1) as Hr.
      destruct (w_world receiver_recv s1) as [[[c|e]|e|] s2]; simpl in *;
        try (exists []; split; [rewrite app_nil_r; congruence|reflexivity]);
        try (destruct (is_exception e); unfold w_raise; simpl; exists [];
             (split; [rewrite app_nil_r; congruence|reflexivity])).
      exists [POST_mark_processed (id p) c]. split; [|reflexivity].
      unfold w_bind.
      pose proof (mark_processed_sent (id p) c s2) as Hm.
      destruct (mark_processed' (id p) c s2) as [[st|e|] s3]; simpl in *;
        congruence.
    + destruct (IH s1) as [l [Hl Hf]]. exists l. split; [|exact Hf].
      congruence.
Qed.

Lemma work_round_try_sent polls p s :
  exists l, sent (snd (try_body polls p s)) = sent s ++ l
            /\ filter (@is_mark_failed Row) l = [].
Proof.
  unfold work_round_try, w_bind.
  pose proof (w_world_sent _ (start_process p) s) as Hs.
  destruct (w_world (start_process p) s) as [[[]|e|] s1]; simpl in *;
    try (exists []; split; [rewrite app_nil_r; congruence|reflexivity]).
  destruct (poll_loop_sent polls p s1) as [l [Hl Hf]].
  exists l. split; [congruence|exact Hf].
Qed.

(** *** What ends the body of the [try] with an exception *)

(** A poll that times out goes round the loop. *)
Lemma poll_loop_timeout polls p s w1 :
  receiver_poll job_check_interval (world s) = (Return false, w1) ->
  loop (S polls) p s
  = loop polls p {| world := w1; round := round s; sent := sent s |}.
Proof.
  intros Hp. simpl. unfold w_bind at 1, w_world at 1. now rewrite Hp.
Qed.

(** After polls that timed out the loop is where it was, with the
    polls that are left. *)
Lemma poll_loop_after_timeouts k : forall polls p s w1,
  timeouts k (world s) = Some w1 ->
  (k <= polls)%nat ->
  loop polls p s
  = loop (polls - k) p {| world := w1; round := round s; sent := sent s |}.
Proof.
  induction k as [|k IH]; intros polls p s w1 Ht Hk; simpl in Ht.
  - injection Ht as <-. rewrite Nat.sub_0_r. now destruct s.
  - destruct polls as [|polls]; [lia|].
    destruct (receiver_poll job_check_interval (world s)) as [[[|]|e] w']
      eqn:Hp; try discriminate Ht.
    rewrite (poll_loop_timeout polls p s w' Hp).
    rewrite (IH polls p {| world := w'; round := round s; sent := sent s |}
                w1 Ht); [reflexivity|lia].
Qed.

(** The unit's failure value is raised as it is. *)
Lemma poll_loop_failure_value polls p s w1 w2 e :
  receiver_poll job_check_interval (world s) = (Return true, w1) ->
  receiver_recv w1 = (Return (MsgException e), w2) ->
  is_exception e = true ->
  loop (S polls) p s
  = (WRaise e, {| world := w2; round := round s; sent := sent s |}).
Proof.
  intros Hp Hr He. simpl. unfold w_bind, w_world. rewrite Hp. simpl.
  rewrite Hr. simpl. now rewrite He.
Qed.

(** A transport failure while marking processed is raised as it is. *)
Lemma poll_loop_transport_failure polls p s w1 w2 w3 c e :
  receiver_poll job_check_interval (world s) = (Return true, w1) ->
  receiver_recv w1 = (Return (MsgCandidates c), w2) ->
  requests_send (POST_mark_processed (id p) c) w2 = (Raise e, w3) ->
  loop (S polls) p s
  = (WRaise e, {| world := w3; round := round s;
                  sent := sent s ++ [POST_mark_processed (id p) c] |}).
Proof.
  intros Hp Hr Hs. simpl. unfold w_bind, w_world. rewrite Hp. simpl.
  rewrite Hr. simpl. unfold Client_mark_processed, w_bind, w_request. simpl.
  now rewrite Hs.
Qed.

(** An answer to [mark_processed] that is not a state (the 400 of a
    count mismatch, say) is an exception as well, with the body in its
    text. *)
Lemma poll_loop_rejected polls p s w1 w2 w3 c r d :
  receiver_poll job_check_interval (world s) = (Return true, w1) ->
  receiver_recv w1 = (Return (MsgCandidates c), w2) ->
  requests_send (POST_mark_processed (id p) c) w2 = (Return r, w3) ->
  content r = JDetail d ->
  fst (loop (S polls) p s)
  = WRaise (ValueError (py_repr (JDetail d) ++ " is not a valid StateEnum")).
Proof.
  intros Hp Hr Hs Hc. simpl. unfold w_bind, w_world. rewrite Hp. simpl.
  rewrite Hr. simpl. unfold Client_mark_processed, w_bind, w_request. simpl.
  rewrite Hs. simpl. unfold parse_state. now rewrite Hc.
Qed.

(** The body of the [try] when the child's message is there after [k]
    polls that timed out. *)
Lemma try_body_receives k polls p s w0 w1 w2 w3 m :
  (k < polls)%nat ->
  start_process p (world s) = (Return tt, w0) ->
  timeouts k w0 = Some w1 ->
  receiver_poll job_check_interval w1 = (Return true, w2) ->
  receiver_recv w2 = (Return m, w3) ->
  try_body polls p s
  = loop (polls - k) p {| world := w1; round := round s; sent := sent s |}
  /\ exists polls', (polls - k = S polls')%nat.
Proof.
  intros Hk Hst Ht Hp Hr. split; [|exists (polls - k - 1)%nat; lia].
  unfold work_round_try, w_bind, w_world. rewrite Hst. simpl.
  now rewrite (poll_loop_after_timeouts k polls p
                 {| world := w0; round := round s; sent := sent s |} w1 Ht)
    by lia.
Qed.

(** *** The round *)

(** C8, as the round has it. When the claim returned a proposal:
    - if the body of the [try] ends with an exception [e] that is an
      instance of [Exception], the round sends exactly one [mark_failed],
      for that proposal and with [str(e)], as its last request; when
      that call gets a state for an answer the round returns, and the
      loop goes on; when that call itself raises, the exception leaves
      the round;
    - the unit's failure value, received after any number of polls that
      timed out, is such an exception, and so is a failure of the
      transport while marking processed;
    - an exception that is not an instance of [Exception] is not caught:
      it leaves the round and no [mark_failed] is sent. *)
Theorem work_round_marks_failed_once polls s p s1 :
  claim (begin_round s) = (WReturn (Some p), s1) ->
  (forall e s2,
     try_body polls p s1 = (WRaise e, s2) ->
     is_exception e = true ->
     let call := POST_mark_failed (id p) [("msg", str e)] in
     exists before,
       sent s2 = sent s ++ before
       /\ filter (@is_mark_failed Row) before = []
       /\ sent (snd (round_of polls s)) = sent s ++ before ++ [call]
       /\ List.length (filter (@is_mark_failed Row) (before ++ [call])) = 1%nat
       /\ match fst (requests_send call (world s2)) with
          | Return r =>
              match content r with
              | JState _ => fst (round_of polls s) = WReturn tt
              | _ => exists e', fst (round_of polls s) = WRaise e'
              end
          | Raise e' => fst (round_of polls s) = WRaise e'
          end)
  /\ (forall k w0 w1 w2 w3 e,
        (k < polls)%nat ->
        start_process p (world s1) = (Return tt, w0) ->
        timeouts k w0 = Some w1 ->
        receiver_poll job_check_interval w1 = (Return true, w2) ->
        receiver_recv w2 = (Return (MsgException e), w3) ->
        is_exception e = true ->
        try_body polls p s1
        = (WRaise e, {| world := w3; round := round s1; sent := sent s1 |}))
  /\ (forall k w0 w1 w2 w3 w4 c e,
        (k < polls)%nat ->
        start_process p (world s1) = (Return tt, w0) ->
        timeouts k w0 = Some w1 ->
        receiver_poll job_check_interval w1 = (Return true, w2) ->
        receiver_recv w2 = (Return (MsgCandidates c), w3) ->
        requests_send (POST_mark_processed (id p) c) w3 = (Raise e, w4) ->
        try_body polls p s1
        = (WRaise e, {| world := w4; round := round s1;
                        sent := sent s1 ++ [POST_mark_processed (id p) c] |}))
  /\ (forall e s2,
        try_body polls p s1 = (WRaise e, s2) ->
        is_exception e = false ->
        round_of polls s = (WRaise e, s2)
        /\ exists before,
             sent s2 = sent s ++ before
             /\ filter (@is_mark_failed Row) before = []).
Proof.
  intros Hc.
  pose proof (claim_sent (begin_round s)) as Hcs. rewrite Hc in Hcs.
  simpl in Hcs.
  assert (Hbefore : forall e s2, try_body polls p s1 = (WRaise e, s2) ->
            exists l, sent s2 = sent s ++ GET_claim :: l
                      /\ filter (@is_mark_failed Row) l = []).
  { intros e s2 Ht. destruct (work_round_try_sent polls p s1) as [l [Hl Hf]].
    rewrite Ht in Hl. simpl in Hl. exists l. split; [|exact Hf].
    rewrite Hl, Hcs, <- app_assoc. reflexivity. }
  split; [|split; [|split]].
  - intros e s2 Ht He call. subst call.
    destruct (Hbefore e s2 Ht) as [l [Hl Hf]].
    exists (GET_claim :: l).
    assert (Hround : round_of polls s
                     = w_bind (mark_failed' (id p) (str e))
                              (fun _ => w_ret tt) s2).
    { unfold work_round, w_bind at 1. rewrite Hc. unfold w_try.
      now rewrite Ht, He. }
    destruct (mark_failed_sent (id p) (str e) s2) as [Hms Hnw].
    pose proof (mark_failed_result (id p) (str e) s2) as Hmr.
    split; [exact Hl|]. split; [exact Hf|]. split; [|split].
    + rewrite Hround. unfold w_bind.
      destruct (mark_failed' (id p) (str e) s2) as [[st|e'|] s3]; simpl in *;
        rewrite Hms, Hl, <- !app_assoc; reflexivity.
    + simpl. rewrite filter_app, Hf. reflexivity.
    + rewrite Hround.
      assert (Hb : fst (w_bind (mark_failed' (id p) (str e))
                               (fun _ => w_ret tt) s2)
                   = match fst (mark_failed' (id p) (str e) s2) with
                     | WReturn _ => WReturn tt
                     | WRaise e' => WRaise e'
                     | WWaiting => WWaiting
                     end).
      { unfold w_bind.
        now destruct (mark_failed' (id p) (str e) s2) as [[st|e'|] s3]. }
      rewrite Hb. destruct (fst (requests_send _ (world s2))) as [r|e''].
      * destruct (content r);
          first [ rewrite Hmr; reflexivity
                | destruct Hmr as [e0 Hmr]; rewrite Hmr; eexists;
                  reflexivity ].
      * now rewrite Hmr.
  - intros k w0 w1 w2 w3 e Hk Hst Ht Hp Hr He.
    destruct (try_body_receives k polls p s1 w0 w1 w2 w3 _ Hk Hst Ht Hp Hr)
      as [-> [polls' ->]].
    exact (poll_loop_failure_value polls' p
             {| world := w1; round := round s1; sent := sent s1 |}
             w2 w3 e Hp Hr He).
  - intros k w0 w1 w2 w3 w4 c e Hk Hst Ht Hp Hr Hs.
    destruct (try_body_receives k polls p s1 w0 w1 w2 w3 _ Hk Hst Ht Hp Hr)
      as [-> [polls' ->]].
    exact (poll_loop_transport_failure polls' p
             {| world := w1; round := round s1; sent := sent s1 |}
             w2 w3 w4 c e Hp Hr Hs).
  - intros e s2 Ht He. split.
    + unfold work_round, w_bind. rewrite Hc. unfold w_try.
      now rewrite Ht, He.
    + destruct (Hbefore e s2 Ht) as [l [Hl Hf]].
      exists (GET_claim :: l). split; [exact Hl|exact Hf].
Qed.

(** An exception that leaves a round ends the worker's loop. *)
Lemma work_stops_on_raise rounds polls s e :
  fst (round_of polls s) = WRaise e ->
  work_of (S rounds) polls s = (WRaise e, snd (round_of polls s)).
Proof.
  intros Hr. simpl. unfold w_bind.
  destruct (round_of polls s) as [[[]|e'|] s']; simpl in *;
    try discriminate. now injection Hr as ->.
Qed.

(** A round that returns is followed by the next one. *)
Lemma work_goes_on rounds polls s :
  fst (round_of polls s) = WReturn tt ->
  work_of (S rounds) polls s = work_of rounds polls (snd (round_of polls s)).
Proof.
  intros Hr. simpl. unfold w_bind.
  destruct (round_of polls s) as [[[]|e'|] s']; simpl in *;
    try discriminate. reflexivity.
Qed.

End Round.

(** ** The round in the sample deployments *)

(** Scenario: the generator returns the rows, the round marks the
    proposal processed. *)
Example round_processed :
  fst (Sample.round Sample.dep_up 5) = WReturn tt
  /\ sent (snd (Sample.round Sample.dep_up 5))
     = [GET_claim; POST_mark_processed (Some 1) Sample.two_rows]
  /\ get_state 1 (dep_db (world (snd (Sample.round Sample.dep_up 5))))
     = (Return FINISHED, dep_db (world (snd (Sample.round Sample.dep_up 5)))).
Proof. repeat split. Qed.

(** Scenario: the generator raises "singular matrix", the round marks the
    proposal failed with that text. *)
Example round_generator_fails :
  fst (Sample.round Sample.dep_singular 5) = WReturn tt
  /\ sent (snd (Sample.round Sample.dep_singular 5))
     = [GET_claim; POST_mark_failed (Some 1) [("msg", "singular matrix")]]
  /\ get_state 1 (dep_db (world (snd (Sample.round Sample.dep_singular 5))))
     = (Return FAILED, dep_db (world (snd (Sample.round Sample.dep_singular 5)))).
Proof. repeat split. Qed.

(** While the child has sent nothing the round waits. *)
Example round_waits :
  fst (Sample.round Sample.dep_up 2) = WWaiting.
Proof. reflexivity. Qed.

(** C8 as worded fails: the claim succeeded, the transport failed while
    marking processed, one [mark_failed] was sent, and that call failed
    as well: the exception leaves the round and ends the loop, no further
    claim is sent. *)
Lemma work_round_counterexample :
  Sample.after_claim Sample.dep_down
  = (WReturn (Some Sample.record_claimed), snd (Sample.after_claim Sample.dep_down))
  /\ fst (Sample.after_try Sample.dep_down 5) = WRaise ConnectionError
  /\ sent (snd (Sample.round Sample.dep_down 5))
     = [GET_claim; POST_mark_processed (Some 1) Sample.two_rows;
        POST_mark_failed (Some 1) [("msg", "Connection refused")]]
  /\ fst (Sample.round Sample.dep_down 5) = WRaise ConnectionError
  /\ fst (Sample.rounds Sample.dep_down 2 5) = WRaise ConnectionError
  /\ sent (snd (Sample.rounds Sample.dep_down 2 5))
     = sent (snd (Sample.round Sample.dep_down 5)).
Proof. repeat split. Qed.

Lemma work_round_marks_failed_once_witness :
  Sample.after_claim Sample.dep_flaky
  = (WReturn (Some Sample.record_claimed), snd (Sample.after_claim Sample.dep_flaky))
  /\ Sample.after_try Sample.dep_flaky 5
     = (WRaise ConnectionError, snd (Sample.after_try Sample.dep_flaky 5))
  /\ is_exception ConnectionError = true
  /\ (exists before,
       sent (snd (Sample.after_try Sample.dep_flaky 5))
       = sent (Sample.fresh Sample.dep_flaky) ++ before
       /\ filter (@is_mark_failed nat) before = []
       /\ sent (snd (Sample.round Sample.dep_flaky 5))
          = sent (Sample.fresh Sample.dep_flaky) ++ before
            ++ [POST_mark_failed (Some 1) [("msg", "Connection refused")]]
       /\ List.length
            (filter (@is_mark_failed nat)
               (before
                ++ [POST_mark_failed (Some 1) [("msg", "Connection refused")]]))
          = 1%nat
       /\ fst (Sample.round Sample.dep_flaky 5) = WReturn tt)
  /\ (fst (Sample.after_try Sample.dep_flaky 5) = WRaise ConnectionError
      /\ sent (snd (Sample.after_try Sample.dep_flaky 5))
         = [GET_claim; POST_mark_processed (Some 1) Sample.two_rows])
  /\ (is_exception KeyboardInterrupt = false
      /\ fst (Sample.ctrl_c_round 5) = WRaise KeyboardInterrupt
      /\ sent (snd (Sample.ctrl_c_round 5)) = [GET_claim])
  /\ (is_exception (Exception "singular matrix") = true
      /\ fst (work_round_try Sample.py_repr (@dep_send _ _ _)
                (dep_start_process Sample.child_sends)
                (@dep_poll _ _ _) (@dep_recv _ _ _) 1 5
                (claimed 20
                   (set_id 1 (Proposal_of_request Sample.singular_request 10)))
                (snd (Sample.after_claim Sample.dep_singular)))
         = WRaise (Exception "singular matrix")).
Proof.
  destruct (work_round_marks_failed_once _ _ _ _ _ Sample.py_repr
              (@dep_send _ _ _) (dep_start_process Sample.child_sends)
              (@dep_poll _ _ _) (@dep_recv _ _ _) (@dep_sleep _ _ _) 1 5
              (Sample.fresh Sample.dep_singular)
              (claimed 20
                 (set_id 1 (Proposal_of_request Sample.singular_request 10)))
              (snd (Sample.after_claim Sample.dep_singular)) eq_refl)
    as [_ [Hvalue _]].
  destruct (work_round_marks_failed_once _ _ _ _ _ Sample.py_repr
              (@dep_send _ _ _) (dep_start_process Sample.child_sends)
              (@dep_poll _ _ _) (@dep_recv _ _ _) (@dep_sleep _ _ _) 1 5
              (Sample.fresh Sample.dep_flaky) Sample.record_claimed
              (snd (Sample.after_claim Sample.dep_flaky)) eq_refl)
    as [Hcaught [_ [Htransport _]]].
  destruct (work_round_marks_failed_once _ _ _ _ _ Sample.py_repr
              Sample.ctrl_c_send Sample.idle_start Sample.ctrl_c_poll
              Sample.idle_recv Sample.idle_sleep 1 5
              Sample.idle_worker Sample.record_claimed
              (Build_wstate tt 1 [GET_claim]) eq_refl)
    as [_ [_ [_ Hpass]]].
  split; [reflexivity|]. split; [reflexivity|]. split; [reflexivity|].
  split; [|split; [|split]].
  - exact (Hcaught ConnectionError (snd (Sample.after_try Sample.dep_flaky 5))
             eq_refl eq_refl).
  - unfold Sample.after_try.
    rewrite (Htransport 2%nat _ _ _ _ _ Sample.two_rows ConnectionError
               (le_S _ _ (le_S _ _ (le_n 3)))
               eq_refl eq_refl eq_refl eq_refl eq_refl).
    split; reflexivity.
  - split; [reflexivity|]. unfold Sample.ctrl_c_round.
    destruct (Hpass KeyboardInterrupt (Build_wstate tt 1 [GET_claim])
                eq_refl eq_refl) as [-> _].
    split; reflexivity.
  - split; [reflexivity|].
    rewrite (Hvalue 2%nat _ _ _ _ (Exception "singular matrix")
               (le_S _ _ (le_S _ _ (le_n 3)))
               eq_refl eq_refl eq_refl eq_refl eq_refl).
    reflexivity.
Defined.

(** The unit's failure value, received after two polls that timed out,
    is raised by the body of the [try] and caught. *)
Example round_failure_value_raised :
  fst (work_round_try Sample.py_repr (@dep_send _ _ _)
         (dep_start_process Sample.child_sends)
         (@dep_poll _ _ _) (@dep_recv _ _ _) 1 5
         (claimed 20 (set_id 1 (Proposal_of_request Sample.singular_request 10)))
         (snd (Sample.after_claim Sample.dep_singular)))
  = WRaise (Exception "singular matrix")
  /\ is_exception (Exception "singular matrix") = true.
Proof. split; reflexivity. Qed.

(** A worker interrupted from the keyboard while it polls: the
    [KeyboardInterrupt] is not an [Exception], it leaves the round, and
    nothing is sent after the claim. *)
Example round_interrupted :
  is_exception KeyboardInterrupt = false
  /\ fst (Sample.ctrl_c_round 5) = WRaise KeyboardInterrupt
  /\ sent (snd (Sample.ctrl_c_round 5)) = [GET_claim].
Proof. repeat split. Qed.

(** After the failed round of [dep_flaky] the loop goes on: the next
    round sends its claim. *)
Example loop_goes_on :
  fst (Sample.rounds Sample.dep_flaky 2 5) = WReturn tt
  /\ sent (snd (Sample.rounds Sample.dep_flaky 2 5))
     = [GET_claim; POST_mark_processed (Some 1) Sample.two_rows;
        POST_mark_failed (Some 1) [("msg", "Connection refused")]; GET_claim].
Proof. repeat split. Qed.

(** * Further properties of the Proposal Service *)

Section Creation.

Variables (StrategyData Experiments Row : Type).

Local Abbreviation Proposal := (Proposal StrategyData Experiments Row).
Local Abbreviation TinyDB := (TinyDB StrategyData Experiments Row).
Local Abbreviation op := (op StrategyData Experiments Row).

Implicit Types (db : TinyDB) (p : Proposal) (i j : Z).

Lemma db_get_app_some db i p (tail : TinyDB) :
  db_get i db = Some p -> db_get i (db ++ tail) = Some p.
Proof.
  induction db as [|[k q] rest IH]; simpl; [discriminate|].
  destruct (k =? i); [trivial|exact IH].
Qed.

(** What a call does to the table: nothing, an update of the records
    under one id, or, for a creation, one record more at the end. *)
Lemma exec_shape (o : op) now db :
  exec o now db = db
  \/ (exists fields i, exec o now db = updated fields i db)
  \/ (exists r, o = OpCreate r
                /\ exec o now db
                   = db ++ [(next_id db,
                             set_id (next_id db) (Proposal_of_request r now))]).
Proof.
  destruct o as [r| | |i|i|i|i c|i b]; simpl.
  - right; right. exists r. now rewrite create_proposal_eq.
  - now left.
  - unfold claim_proposal, bind, m_search.
    destruct (db_search (@is_created _ _ _) db) as [|p rest]; [now left|].
    unfold m_update. destruct (id p) as [i|]; [|now left].
    unfold db_update. destruct (db_has i db); [|now left].
    right; left.
    exists (fun d => set_last_updated_at now (set_state CLAIMED d)), i.
    unfold m_load, bind, m_get, ret, raise, updated. simpl.
    now destruct (db_get i _).
  - left. apply (reads_keep_table _ _ _ db i).
  - left. apply (reads_keep_table _ _ _ db i).
  - left. apply (reads_keep_table _ _ _ db i).
  - destruct (db_get i db) as [p|] eqn:Hget.
    + destruct (Z.eq_dec (Z.of_nat (List.length (rows c))) (n_candidates p))
        as [Hn|Hn].
      * right; left. eexists _, i.
        now rewrite (mark_processed_match _ _ _ _ _ _ _ _ Hget Hn).
      * left. now rewrite (mark_processed_mismatch _ _ _ _ _ _ _ _ Hget Hn).
    + left. now rewrite (mark_processed_missing _ _ _ _ _ _ _ Hget).
  - destruct (db_get i db) as [p|] eqn:Hget.
    + destruct (dict_lookup "msg" b) as [msg|] eqn:Hmsg.
      * right; left. eexists _, i.
        now rewrite (mark_failed_msg _ _ _ _ _ _ _ _ _ Hget Hmsg).
      * left. now rewrite (mark_failed_no_msg _ _ _ _ _ _ _ _ Hget Hmsg).
    + left. now rewrite (mark_failed_missing _ _ _ _ _ _ _ Hget).
Qed.

(** The document ids after a call: those before, and the next id when
    the call is a creation. *)
Lemma exec_keys (o : op) now db :
  map fst (exec o now db)
  = map fst db ++ (if is_create o then [next_id db] else []).
Proof.
  destruct (exec_shape o now db) as [H|[[f [i H]]|[r [Ho H]]]].
  - rewrite H. destruct o; simpl; try now rewrite app_nil_r.
    exfalso. simpl in H. rewrite create_proposal_eq in H. simpl in H.
    apply (f_equal (@List.length _)) in H. rewrite length_app in H.
    simpl in H. lia.
  - destruct o; simpl in *; try (rewrite H, updated_keys; now rewrite app_nil_r).
    rewrite create_proposal_eq in *. simpl in *.
    apply (f_equal (@List.length _)) in H. unfold updated in H.
    rewrite length_app, length_map in H. simpl in H. lia.
  - subst o. rewrite H. simpl. now rewrite map_app.
Qed.

Lemma max_id_keys db : max_id db = fold_right Z.max 0 (map fst db).
Proof. induction db as [|[k q] rest IH]; simpl; [reflexivity|]. now rewrite IH. Qed.

Lemma fold_max_snoc (l : list Z) (x : Z) :
  fold_right Z.max 0 (l ++ [x]) = Z.max (fold_right Z.max 0 l) (Z.max x 0).
Proof. induction l as [|a l IH]; simpl; [lia|]. rewrite IH. lia. Qed.

Lemma first_ids_S n : first_ids (S n) = first_ids n ++ [Z.of_nat (S n)].
Proof. unfold first_ids. now rewrite seq_S, map_app. Qed.

Lemma fold_max_first_ids n : fold_right Z.max 0 (first_ids n) = Z.of_nat n.
Proof.
  induction n as [|n IH]; [reflexivity|].
  rewrite first_ids_S, fold_max_snoc, IH. lia.
Qed.

Lemma In_first_ids n i : In i (first_ids n) <-> 1 <= i <= Z.of_nat n.
Proof.
  unfold first_ids. rewrite in_map_iff. split.
  - intros [k [<- Hk]]. apply in_seq in Hk. lia.
  - intros Hi. exists (Z.to_nat i). split; [lia|]. apply in_seq. lia.
Qed.

Lemma creates_cons (o : op) (now : Z) (script : list (op * Z)) :
  creates ((o, now) :: script)
  = ((if is_create o then 1 else 0) + creates script)%nat.
Proof. unfold creates. simpl. now destruct (is_create o). Qed.

Lemma run_keys_from (script : list (op * Z)) db n :
  map fst db = first_ids n ->
  map fst (run script db) = first_ids (n + creates script).
Proof.
  revert db n. induction script as [|[o now] rest IH]; intros db n Hk; simpl.
  - unfold creates. simpl. now rewrite Nat.add_0_r.
  - rewrite creates_cons.
    assert (Hnext : next_id db = Z.of_nat (S n)).
    { unfold next_id. rewrite max_id_keys, Hk, fold_max_first_ids. lia. }
    replace (n + ((if is_create o then 1 else 0) + creates rest))%nat
      with ((n + (if is_create o then 1 else 0)) + creates rest)%nat by lia.
    apply IH. rewrite exec_keys, Hk, Hnext.
    destruct (is_create o).
    + rewrite Nat.add_1_r. now rewrite first_ids_S.
    + now rewrite Nat.add_0_r, app_nil_r.
Qed.

(** The ids of a table of the service are 1, 2, ... in table order, as
    many as there were creations. *)
Lemma run_keys (script : list (op * Z)) :
  map fst (run script ([] : TinyDB)) = first_ids (creates script).
Proof. now apply (run_keys_from script [] 0). Qed.

Lemma stored_ids db :
  Forall (@stored_ok _ _ _) db ->
  map (@id _ _ _) (db_all db) = map Some (map fst db).
Proof.
  induction 1 as [|[k q] rest [Hid _] _ IH]; simpl; [reflexivity|].
  simpl in Hid. now rewrite Hid, IH.
Qed.

(** X1: [create_proposal] always returns; the record it returns is the
    stored one, built from the request with state CREATED, no candidates,
    no error message and both timestamps at the clock reading; it carries
    its document id, [get_proposal] with that id returns it, and the
    records that were there are still there. *)
Theorem create_then_get db (r : ProposalRequest StrategyData Experiments) now :
  exists p i db',
    create_proposal r now db = (Return p, db')
    /\ id p = Some i
    /\ get_proposal i db' = (Return p, db')
    /\ strategy_data p = req_strategy_data r
    /\ experiments p = req_experiments r
    /\ n_candidates p = req_n_candidates r
    /\ state p = CREATED /\ candidates p = None /\ error_message p = None
    /\ created_at p = now /\ last_updated_at p = now
    /\ db_get i db = None
    /\ forall j q, db_get j db = Some q -> db_get j db' = Some q.
Proof.
  pose proof (next_id_fresh _ _ _ db) as Hfresh.
  exists (set_id (next_id db) (Proposal_of_request r now)), (next_id db),
    (db ++ [(next_id db, set_id (next_id db) (Proposal_of_request r now))]).
  split; [apply create_proposal_eq|]. split; [reflexivity|].
  split.
  { unfold get_proposal. apply get_proposal_from_db_found.
    now apply db_get_app_fresh. }
  repeat (split; [reflexivity|]). split.
  - destruct (db_get (next_id db) db) as [q|] eqn:Hq; [|reflexivity].
    exfalso. apply Hfresh. apply db_get_In in Hq.
    change (next_id db) with (fst (next_id db, q)). now apply in_map.
  - intros j q Hq. now apply db_get_app_some.
Qed.

(** X2: in a table built by service calls from the empty one,
    [get_proposals] returns the records in the order of their creation,
    with the ids 1, 2, ..., one per creation request: no call removes or
    renumbers a record, and the next creation gets the next number. *)
Theorem get_proposals_lists_creations (script : list (op * Z))
    (r : ProposalRequest StrategyData Experiments) now :
  exists ps p db',
    get_proposals (run script []) = (Return ps, run script [])
    /\ map (@id _ _ _) ps = map Some (first_ids (creates script))
    /\ create_proposal r now (run script []) = (Return p, db')
    /\ id p = Some (Z.of_nat (creates script) + 1).
Proof.
  pose proof (run_keys script) as Hk.
  destruct (run_db_ok _ _ _ script [] (empty_db_ok _ _ _)) as [_ Hall].
  eexists _, _, _. split; [reflexivity|]. split.
  - now rewrite (stored_ids _ Hall), Hk.
  - split; [apply create_proposal_eq|]. simpl. f_equal.
    unfold next_id. now rewrite max_id_keys, Hk, fold_max_first_ids.
Qed.

(** X3: in a table built by service calls from the empty one, a
    proposal id is known exactly when it is between 1 and the number of
    creation requests; for any other id [get_proposal] raises the 404
    "Proposal not found". *)
Theorem proposal_known_iff (script : list (op * Z)) i :
  ((exists p, get_proposal i (run script []) = (Return p, run script []))
   <-> 1 <= i <= Z.of_nat (creates script))
  /\ (~ (1 <= i <= Z.of_nat (creates script)) ->
      get_proposal i (run script [])
      = (Raise (HTTPException 404 "Proposal not found"), run script [])).
Proof.
  pose proof (run_keys script) as Hk. set (db := run script []) in *.
  assert (Hin : (exists p, db_get i db = Some p)
                <-> 1 <= i <= Z.of_nat (creates script)).
  { rewrite <- In_first_ids, <- Hk. split.
    - intros [p Hp]. apply db_get_In in Hp.
      change i with (fst (i, p)). now apply in_map.
    - intros H. apply in_map_iff in H as [[k q] [Hkq Hq]]. simpl in Hkq.
      subst k. apply db_has_get. unfold db_has. apply existsb_exists.
      exists (i, q). split; [exact Hq|]. simpl. apply Z.eqb_refl. }
  split.
  - rewrite <- Hin. unfold get_proposal. split; intros [p Hp]; exists p.
    + destruct (db_get i db) as [q|] eqn:Hq.
      * rewrite (get_proposal_from_db_found _ _ _ _ _ _ Hq) in Hp. congruence.
      * rewrite (get_proposal_from_db_missing _ _ _ _ _ Hq) in Hp. discriminate.
    + now apply get_proposal_from_db_found.
  - intros Hout. unfold get_proposal. apply get_proposal_from_db_missing.
    destruct (db_get i db) as [q|] eqn:Hq; [|reflexivity].
    exfalso. apply Hout, Hin. now exists q.
Qed.

(** X4: with an id that is not in the table, every handler that takes an
    id raises the 404 "Proposal not found" and leaves the table as it
    is. *)
Theorem unknown_id_not_found db i (cands : Candidates Row)
    (body : list (string * string)) now :
  db_get i db = None ->
  let not_found {A} : pyres exn A * TinyDB :=
    (Raise (HTTPException 404 "Proposal not found"), db) in
  get_proposal i db = not_found
  /\ get_state i db = not_found
  /\ get_candidates i db = not_found
  /\ mark_processed i cands now db = not_found
  /\ mark_failed i body now db = not_found.
Proof.
  intros Hget. simpl. repeat split.
  - now apply get_proposal_from_db_missing.
  - unfold get_state, bind. now rewrite (get_proposal_from_db_missing _ _ _ _ _ Hget).
  - unfold get_candidates, bind.
    now rewrite (get_proposal_from_db_missing _ _ _ _ _ Hget).
  - now apply mark_processed_missing.
  - now apply mark_failed_missing.
Qed.

End Creation.

(** ** The history of a record *)

Section History.

Variables (StrategyData Experiments Row : Type).

Local Abbreviation Proposal := (Proposal StrategyData Experiments Row).
Local Abbreviation TinyDB := (TinyDB StrategyData Experiments Row).
Local Abbreviation op := (op StrategyData Experiments Row).

Implicit Types (db : TinyDB) (p : Proposal) (i j : Z).

Lemma run_app (s1 s2 : list (op * Z)) db :
  run (s1 ++ s2) db = run s2 (run s1 db).
Proof.
  revert db. induction s1 as [|[o now] rest IH]; intros db; simpl;
    [reflexivity|apply IH].
Qed.

(** What one call does to one record of a table of the service: nothing,
    or the write of [claim_proposal] on a CREATED record, or the write of
    [mark_processed] with a matching row count, or that of
    [mark_failed]. *)
Lemma exec_record (o : op) now db i p :
  db_ok db -> db_get i db = Some p ->
  exists p', db_get i (exec o now db) = Some p'
    /\ (p' = p
        \/ (state p = CREATED /\ p' = claimed now p)
        \/ (exists c, Z.of_nat (List.length (rows c)) = n_candidates p
                      /\ p' = processed c now p)
        \/ (exists m, p' = failed m now p)).
Proof.
  intros Hok Hget. destruct o as [r| | |k|k|k|k c|k b]; simpl.
  - exists p. split; [|now left]. rewrite create_proposal_eq. simpl.
    now apply db_get_app_some.
  - exists p. now split; [|left].
  - destruct (db_search (@is_created _ _ _) db) as [|q rest] eqn:Hs.
    + rewrite (claim_proposal_none _ _ _ _ _ Hs). exists p. now split; [|left].
    + assert (Hin : In q (db_search (@is_created _ _ _) db))
        by (rewrite Hs; now left).
      apply db_search_In in Hin as [Hc [k Hin]].
      destruct (db_ok_stored _ _ _ _ _ _ Hok Hin) as [Hid _]. simpl in Hid.
      pose proof (In_db_get _ _ _ _ _ _ (proj1 Hok) Hin) as Hq.
      rewrite (claim_proposal_first _ _ _ _ _ _ _ _ Hs Hid Hq). simpl.
      destruct (Z.eq_dec i k) as [->|Hne].
      * assert (q = p) by congruence. subst q.
        exists (claimed now p). split; [now apply db_get_updated_same|].
        right; left. split; [|reflexivity]. now apply StateEnum_eqb_eq.
      * exists p. split; [|now left]. now rewrite db_get_updated_other.
  - exists p. split; [|now left].
    now rewrite (proj1 (proj2 (reads_keep_table _ _ _ db k))).
  - exists p. split; [|now left].
    now rewrite (proj1 (proj2 (proj2 (reads_keep_table _ _ _ db k)))).
  - exists p. split; [|now left].
    now rewrite (proj2 (proj2 (proj2 (reads_keep_table _ _ _ db k)))).
  - destruct (db_get k db) as [q|] eqn:Hq.
    + destruct (Z.eq_dec (Z.of_nat (List.length (rows c))) (n_candidates q))
        as [Hn|Hn].
      * rewrite (mark_processed_match _ _ _ _ _ _ _ _ Hq Hn). simpl.
        destruct (Z.eq_dec i k) as [->|Hne].
        -- assert (q = p) by congruence. subst q.
           exists (processed c now p). split.
           ++ now apply (db_get_updated_same _ _ _
                           (fun _ => processed c now p) db k p).
           ++ right; right; left. now exists c.
        -- exists p. split; [|now left]. now rewrite db_get_updated_other.
      * rewrite (mark_processed_mismatch _ _ _ _ _ _ _ _ Hq Hn).
        exists p. now split; [|left].
    + rewrite (mark_processed_missing _ _ _ _ _ _ _ Hq).
      exists p. now split; [|left].
  - destruct (db_get k db) as [q|] eqn:Hq.
    + destruct (dict_lookup "msg" b) as [msg|] eqn:Hmsg.
      * rewrite (mark_failed_msg _ _ _ _ _ _ _ _ _ Hq Hmsg). simpl.
        destruct (Z.eq_dec i k) as [->|Hne].
        -- assert (q = p) by congruence. subst q.
           exists (failed msg now p). split.
           ++ now apply (db_get_updated_same _ _ _
                           (fun _ => failed msg now p) db k p).
           ++ right; right; right. now exists msg.
        -- exists p. split; [|now left]. now rewrite db_get_updated_other.
      * rewrite (mark_failed_no_msg _ _ _ _ _ _ _ _ Hq Hmsg).
        exists p. now split; [|left].
    + rewrite (mark_failed_missing _ _ _ _ _ _ _ Hq).
      exists p. now split; [|left].
Qed.

Lemma evolves_refl p : evolves p p.
Proof. unfold evolves. repeat split; trivial. Qed.

Lemma evolves_trans p q r : evolves p q -> evolves q r -> evolves p r.
Proof.
  unfold evolves. intros (A1 & A2 & A3 & A4 & A5 & A6 & A7 & A8)
    (B1 & B2 & B3 & B4 & B5 & B6 & B7 & B8).
  repeat split; try congruence; try lia; auto.
Qed.

Lemma exec_evolves (o : op) now db i p :
  db_ok db -> db_get i db = Some p ->
  exists p', db_get i (exec o now db) = Some p' /\ evolves p p'.
Proof.
  intros Hok Hget.
  destruct (exec_record o now db i p Hok Hget)
    as [p' [Hp' [->|[[Hst ->]|[[c [_ ->]]|[m ->]]]]]];
    eexists; (split; [exact Hp'|]).
  - apply evolves_refl.
  - unfold evolves. simpl. rewrite Hst. simpl. repeat split; trivial; lia.
  - unfold evolves. simpl. repeat split; trivial;
      try (destruct (state p); simpl; lia). discriminate.
  - unfold evolves. simpl. repeat split; trivial;
      try (destruct (state p); simpl; lia). discriminate.
Qed.

Lemma run_evolves (script : list (op * Z)) db i p :
  db_ok db -> db_get i db = Some p ->
  exists p', db_get i (run script db) = Some p' /\ evolves p p'.
Proof.
  revert db p. induction script as [|[o now] rest IH]; intros db p Hok Hget;
    simpl.
  - exists p. split; [exact Hget|apply evolves_refl].
  - destruct (exec_evolves o now db i p Hok Hget) as [q [Hq Hpq]].
    destruct (IH _ q (exec_db_ok _ _ _ o now db Hok) Hq) as [r [Hr Hqr]].
    exists r. split; [exact Hr|]. now apply (evolves_trans p q r).
Qed.

(** X5: a record of a table built by service calls is never removed,
    and whatever calls follow, its id, strategy data, experiments,
    requested count and creation time stay as they are. *)
Theorem record_is_kept (before after : list (op * Z)) i p :
  db_get i (run before []) = Some p ->
  exists p',
    db_get i (run (before ++ after) []) = Some p'
    /\ id p' = Some i
    /\ strategy_data p' = strategy_data p
    /\ experiments p' = experiments p
    /\ n_candidates p' = n_candidates p
    /\ created_at p' = created_at p.
Proof.
  intros Hget.
  pose proof (run_db_ok _ _ _ before [] (empty_db_ok _ _ _)) as Hok.
  destruct (run_evolves after _ i p Hok Hget)
    as [p' [Hp' (E1 & E2 & E3 & E4 & E5 & _)]].
  destruct (db_ok_stored _ _ _ _ _ _ Hok (db_get_In _ _ _ _ _ _ Hget))
    as [Hid _]. simpl in Hid.
  exists p'. rewrite run_app. repeat split; congruence.
Qed.

(** X6: whatever calls follow, the state of a record never goes back (a
    CLAIMED record is never CREATED again, a FINISHED or FAILED record is
    never CREATED or CLAIMED again), and candidates or an error message
    that were stored are never removed. *)
Theorem state_never_goes_back (before after : list (op * Z)) i p :
  db_get i (run before []) = Some p ->
  exists p',
    db_get i (run (before ++ after) []) = Some p'
    /\ (state p <> CREATED -> state p' <> CREATED)
    /\ (state p = FINISHED \/ state p = FAILED ->
        state p' = FINISHED \/ state p' = FAILED)
    /\ (candidates p <> None -> candidates p' <> None)
    /\ (error_message p <> None -> error_message p' <> None).
Proof.
  intros Hget.
  pose proof (run_db_ok _ _ _ before [] (empty_db_ok _ _ _)) as Hok.
  destruct (run_evolves after _ i p Hok Hget)
    as [p' [Hp' (_ & _ & _ & _ & _ & Hr & Hc & He)]].
  exists p'. rewrite run_app. split; [exact Hp'|].
  split; [|split; [|split; [exact Hc|exact He]]].
  - destruct (state p), (state p'); simpl in Hr; try lia; congruence.
  - destruct (state p), (state p'); simpl in Hr; try lia;
      intros [H|H]; try discriminate H; auto.
Qed.

End History.

Lemma record_is_kept_witness :
  db_get 1 (run Sample.script_created []) = Some Sample.record_created
  /\ exists p',
       db_get 1 (run (Sample.script_created
                      ++ [(OpClaim, 11); (OpMarkProcessed 1 Sample.two_rows, 12);
                          (OpMarkFailed 1 [("msg", "boom")], 13)]) [])
       = Some p'
       /\ id p' = Some 1
       /\ strategy_data p' = strategy_data Sample.record_created
       /\ experiments p' = experiments Sample.record_created
       /\ n_candidates p' = n_candidates Sample.record_created
       /\ created_at p' = created_at Sample.record_created.
Proof.
  split; [reflexivity|].
  apply (record_is_kept _ _ _ Sample.script_created _ 1 Sample.record_created
           eq_refl).
Defined.

Lemma state_never_goes_back_witness :
  db_get 1 (run Sample.script_finished []) = Some Sample.record_finished
  /\ exists p',
       db_get 1 (run (Sample.script_finished
                      ++ [(OpClaim, 20); (OpMarkFailed 1 [("msg", "boom")], 21)])
                     [])
       = Some p'
       /\ (state Sample.record_finished <> CREATED -> state p' <> CREATED)
       /\ (state Sample.record_finished = FINISHED
           \/ state Sample.record_finished = FAILED ->
           state p' = FINISHED \/ state p' = FAILED)
       /\ (candidates Sample.record_finished <> None -> candidates p' <> None)
       /\ (error_message Sample.record_finished <> None ->
           error_message p' <> None).
Proof.
  split; [reflexivity|].
  apply (state_never_goes_back _ _ _ Sample.script_finished _ 1
           Sample.record_finished eq_refl).
Defined.

(** ** Claims in table order *)

Section ClaimOrder.

Variables (StrategyData Experiments Row : Type).

Local Abbreviation Proposal := (Proposal StrategyData Experiments Row).
Local Abbreviation TinyDB := (TinyDB StrategyData Experiments Row).
Local Abbreviation op := (op StrategyData Experiments Row).

Implicit Types (db : TinyDB) (p : Proposal) (i j : Z).

Lemma updated_absent fields db i :
  ~ In i (map fst db) -> updated fields i db = db.
Proof.
  intros Hnot. unfold updated. rewrite <- (map_id db) at 2.
  apply map_ext_in. intros [k q] Hin. simpl.
  destruct (Z.eqb_spec k i) as [->|]; [|reflexivity].
  exfalso. apply Hnot. change i with (fst (i, q)). now apply in_map.
Qed.

(** After the claim the CREATED records are those that followed the
    claimed one. *)
Lemma search_after_claim db p rest i now :
  NoDup (map fst db) -> Forall (@stored_ok _ _ _) db ->
  db_search (@is_created _ _ _) db = p :: rest ->
  id p = Some i ->
  db_search (@is_created _ _ _) (updated (claimed now) i db) = rest.
Proof.
  unfold db_search, db_all.
  induction db as [|[k q] tl IH]; simpl; intros Hnd Hall Hs Hid;
    [discriminate|].
  inversion Hnd as [|? ? Hnotin Hnd']; subst.
  inversion Hall as [|? ? [Hq _] Hall']; subst. simpl in Hq.
  destruct (is_created q) eqn:Hc.
  - injection Hs as -> <-.
    assert (k = i) by congruence. subst k.
    rewrite Z.eqb_refl. simpl.
    fold (updated (claimed now) i tl). now rewrite updated_absent.
  - assert (Hne : k <> i).
    { intros ->. apply Hnotin.
      assert (Hin : In p (filter (@is_created _ _ _) (map snd tl)))
        by (rewrite Hs; now left).
      apply filter_In in Hin as [Hin _].
      apply in_map_iff in Hin as [[k' q'] [Hq' Hin]]. simpl in Hq'. subst q'.
      rewrite Forall_forall in Hall'. destruct (Hall' _ Hin) as [Hk' _].
      simpl in Hk'. assert (k' = i) by congruence. subst k'.
      change i with (fst (i, p)). now apply in_map. }
    destruct (Z.eqb_spec k i); [contradiction|]. simpl. rewrite Hc.
    now apply IH.
Qed.

Lemma first_ids_sorted_from (a n : nat) :
  StronglySorted Z.lt (map Z.of_nat (seq a n)).
Proof.
  revert a. induction n as [|n IH]; intros a; simpl; constructor.
  - apply IH.
  - apply Forall_forall. intros x Hx. apply in_map_iff in Hx as [k [<- Hk]].
    apply in_seq in Hk. lia.
Qed.

(** The first CREATED record in table order has the smallest id among
    the CREATED ones when the ids increase along the table. *)
Lemma first_created_smallest db p rest i :
  StronglySorted Z.lt (map fst db) -> Forall (@stored_ok _ _ _) db ->
  db_search (@is_created _ _ _) db = p :: rest ->
  id p = Some i ->
  forall j q, In (j, q) db -> state q = CREATED -> i <= j.
Proof.
  unfold db_search, db_all.
  induction db as [|[k q0] tl IH]; simpl; intros Hsort Hall Hs Hid j q Hin Hst;
    [destruct Hin|].
  inversion Hsort as [|? ? Hsort' Hlt]; subst.
  inversion Hall as [|? ? [Hq0 _] Hall']; subst. simpl in Hq0.
  destruct (is_created q0) eqn:Hc.
  - injection Hs as -> <-. assert (k = i) by congruence. subst k.
    destruct Hin as [[= <- <-]|Hin]; [lia|].
    rewrite Forall_forall in Hlt.
    assert (i < j) by (apply Hlt; change j with (fst (j, q)); now apply in_map).
    lia.
  - destruct Hin as [[= <- <-]|Hin].
    + unfold is_created in Hc. rewrite Hst in Hc. discriminate.
    + now apply (IH Hsort' Hall' Hs Hid j q).
Qed.

(** X7: on a table built by service calls that holds a CREATED record,
    [claim_proposal] returns the first CREATED record in table order,
    which is the one with the smallest id, with state CLAIMED and
    [last_updated_at] at the clock reading and nothing else changed; the
    stored record is the returned one, every other record is as it was,
    and the CREATED records left are the ones that followed. *)
Theorem claim_takes_first (script : list (op * Z)) p rest now :
  db_search (@is_created _ _ _) (run script []) = p :: rest ->
  exists i db',
    id p = Some i
    /\ claim_proposal now (run script []) = (Return (claimed now p), db')
    /\ state (claimed now p) = CLAIMED
    /\ last_updated_at (claimed now p) = now
    /\ evolves p (claimed now p)
    /\ db_get i db' = Some (claimed now p)
    /\ (forall j, j <> i -> db_get j db' = db_get j (run script []))
    /\ db_search (@is_created _ _ _) db' = rest
    /\ (forall j q, db_get j (run script []) = Some q ->
                    state q = CREATED -> i <= j).
Proof.
  intros Hs. set (db := run script []) in *.
  pose proof (run_db_ok _ _ _ script [] (empty_db_ok _ _ _)) as Hok.
  fold db in Hok. destruct Hok as [Hnd Hall].
  assert (Hin : In p (db_search (@is_created _ _ _) db))
    by (rewrite Hs; now left).
  apply db_search_In in Hin as [Hc [i Hin]].
  destruct (db_ok_stored _ _ _ _ _ _ (conj Hnd Hall) Hin) as [Hid _].
  simpl in Hid.
  pose proof (In_db_get _ _ _ _ _ _ Hnd Hin) as Hget.
  apply StateEnum_eqb_eq in Hc.
  exists i, (updated (claimed now) i db).
  split; [exact Hid|].
  split; [now apply (claim_proposal_first _ _ _ db now p rest i)|].
  split; [reflexivity|]. split; [reflexivity|].
  split.
  { unfold evolves. simpl. rewrite Hc. simpl. repeat split; trivial; lia. }
  split; [now apply db_get_updated_same|].
  split; [intros j Hj; now apply db_get_updated_other|].
  split; [now apply (search_after_claim db p rest i now)|].
  intros j q Hq Hst.
  assert (Hsorted : StronglySorted Z.lt (map fst db)).
  { unfold db. rewrite run_keys. unfold first_ids.
    apply first_ids_sorted_from. }
  apply (first_created_smallest db p rest i Hsorted Hall Hs Hid j q);
    [now apply db_get_In|exact Hst].
Qed.

(** X8: claim calls that follow one another on a table built by service
    calls hand out the CREATED records one by one in table order, each
    once and in state CLAIMED, and from then on there is no work. *)
Theorem serial_claims_in_order (script : list (op * Z)) (nows : list Z) :
  fst (claim_serially nows (run script []))
  = claim_results nows (db_search (@is_created _ _ _) (run script [])).
Proof.
  pose proof (run_db_ok _ _ _ script [] (empty_db_ok _ _ _)) as Hok.
  revert Hok. generalize (run script ([] : TinyDB)). intros db.
  revert db. induction nows as [|now nows IH]; intros db Hok; simpl;
    [reflexivity|].
  destruct (db_search (@is_created _ _ _) db) as [|p rest] eqn:Hs.
  - rewrite (claim_proposal_none _ _ _ _ _ Hs). simpl. f_equal.
    rewrite (IH db Hok), Hs. reflexivity.
  - assert (Hin : In p (db_search (@is_created _ _ _) db))
      by (rewrite Hs; now left).
    apply db_search_In in Hin as [Hc [i Hin]].
    destruct (db_ok_stored _ _ _ _ _ _ Hok Hin) as [Hid _]. simpl in Hid.
    pose proof (In_db_get _ _ _ _ _ _ (proj1 Hok) Hin) as Hget.
    pose proof (claim_proposal_db_ok _ _ _ db now Hok) as Hok'.
    rewrite (claim_proposal_first _ _ _ _ _ _ _ _ Hs Hid Hget) in *.
    simpl in *. f_equal. rewrite (IH _ Hok').
    now rewrite (search_after_claim db p rest i now (proj1 Hok) (proj2 Hok) Hs Hid).
Qed.

(** X9: on a table built by service calls the claim handler never fails
    inside: it returns a record in state CLAIMED or raises the 404 "No
    proposals to claim", so the router answers 200 or 404, never 500. *)
Theorem claim_never_fails_inside (script : list (op * Z)) now :
  ((exists p, fst (claim_proposal now (run script [])) = Return p
              /\ state p = CLAIMED)
   \/ fst (claim_proposal now (run script [])) = Raise no_work)
  /\ (status_code (fst (serve GET_claim now (run script []))) = 200
      \/ status_code (fst (serve GET_claim now (run script []))) = 404).
Proof.
  destruct (db_search (@is_created _ _ _) (run script [])) as [|p rest] eqn:Hs.
  - unfold serve. rewrite (claim_proposal_none _ _ _ _ _ Hs). simpl.
    split; right; reflexivity.
  - pose proof (run_db_ok _ _ _ script [] (empty_db_ok _ _ _)) as Hok.
    assert (Hin : In p (db_search (@is_created _ _ _) (run script [])))
      by (rewrite Hs; now left).
    apply db_search_In in Hin as [_ [i Hin]].
    destruct (db_ok_stored _ _ _ _ _ _ Hok Hin) as [Hid _]. simpl in Hid.
    pose proof (In_db_get _ _ _ _ _ _ (proj1 Hok) Hin) as Hget.
    unfold serve.
    rewrite (claim_proposal_first _ _ _ _ _ _ _ _ Hs Hid Hget). simpl.
    split; left; [|reflexivity]. now exists (claimed now p).
Qed.

End ClaimOrder.

(** ** Reading back what was stored *)

Section ReadBack.

Variables (StrategyData Experiments Row : Type).

Local Abbreviation Proposal := (Proposal StrategyData Experiments Row).
Local Abbreviation TinyDB := (TinyDB StrategyData Experiments Row).

Implicit Types (db : TinyDB) (p : Proposal) (i j : Z).

Lemma get_candidates_found db i p :
  db_get i db = Some p ->
  get_candidates i db
  = match candidates p with
    | Some c => (Return c, db)
    | None => (Raise (HTTPException 404 "Candidates not found"), db)
    end.
Proof.
  intros Hget. unfold get_candidates, bind.
  rewrite (get_proposal_from_db_found _ _ _ _ _ _ Hget).
  now destruct (candidates p).
Qed.

(** X10: what the two marking handlers store is what the reading
    handlers return afterwards. After an accepted [mark_processed],
    [get_candidates] returns the submitted candidates and [get_proposal]
    the record with them, its error message as before. After
    [mark_failed], [get_proposal] returns the record with the message and
    [get_state] FAILED, and [get_candidates] answers as it did before the
    call. *)
Theorem marks_read_back db i p (cands : Candidates Row)
    (body : list (string * string)) (msg : string) now :
  db_get i db = Some p ->
  (Z.of_nat (List.length (rows cands)) = n_candidates p ->
   let db' := snd (mark_processed i cands now db) in
   get_candidates i db' = (Return cands, db')
   /\ (exists p', get_proposal i db' = (Return p', db')
                  /\ candidates p' = Some cands
                  /\ error_message p' = error_message p))
  /\ (dict_lookup "msg" body = Some msg ->
      let db' := snd (mark_failed i body now db) in
      get_state i db' = (Return FAILED, db')
      /\ (exists p', get_proposal i db' = (Return p', db')
                     /\ error_message p' = Some msg
                     /\ candidates p' = candidates p)
      /\ fst (get_candidates i db') = fst (get_candidates i db)).
Proof.
  intros Hget. split.
  - intros Hn. rewrite (mark_processed_match _ _ _ _ _ _ _ _ Hget Hn). simpl.
    assert (Hget' : db_get i (updated (fun _ => processed cands now p) i db)
                    = Some (processed cands now p))
      by now apply (db_get_updated_same _ _ _
                      (fun _ => processed cands now p) db i p).
    split; [now rewrite (get_candidates_found _ _ _ Hget')|].
    exists (processed cands now p). repeat split.
    unfold get_proposal. now apply get_proposal_from_db_found.
  - intros Hmsg. rewrite (mark_failed_msg _ _ _ _ _ _ _ _ _ Hget Hmsg). simpl.
    assert (Hget' : db_get i (updated (fun _ => failed msg now p) i db)
                    = Some (failed msg now p))
      by now apply (db_get_updated_same _ _ _
                      (fun _ => failed msg now p) db i p).
    split; [|split].
    + unfold get_state, bind.
      now rewrite (get_proposal_from_db_found _ _ _ _ _ _ Hget').
    + exists (failed msg now p). repeat split.
      unfold get_proposal. now apply get_proposal_from_db_found.
    + rewrite (get_candidates_found _ _ _ Hget'),
        (get_candidates_found _ _ _ Hget). simpl.
      now destruct (candidates p).
Qed.

(** X11: a [mark_failed] request whose body has no "msg" entry, for an
    existing proposal, ends in a [KeyError] after the handler has changed
    only its own copy of the record: the router answers 500 and the table
    is as it was. *)
Theorem mark_failed_without_msg db i p (body : list (string * string)) now :
  db_get i db = Some p ->
  dict_lookup "msg" body = None ->
  mark_failed i body now db = (Raise (KeyError "msg"), db)
  /\ serve (POST_mark_failed (Some i) body) now db
     = ({| status_code := 500; content := JInternalServerError |}, db).
Proof.
  intros Hget Hmsg.
  pose proof (mark_failed_no_msg _ _ _ db i p body now Hget Hmsg) as H.
  split; [exact H|]. unfold serve. now rewrite H.
Qed.

End ReadBack.

(** ** The further statements on the sample tables *)

Lemma unknown_id_not_found_witness :
  db_get 2 Sample.created = None
  /\ get_proposal 2 Sample.created
     = (Raise (HTTPException 404 "Proposal not found"), Sample.created)
  /\ get_state 2 Sample.created
     = (Raise (HTTPException 404 "Proposal not found"), Sample.created)
  /\ get_candidates 2 Sample.created
     = (Raise (HTTPException 404 "Proposal not found"), Sample.created)
  /\ mark_processed 2 Sample.two_rows 11 Sample.created
     = (Raise (HTTPException 404 "Proposal not found"), Sample.created)
  /\ mark_failed 2 [("msg", "boom")] 11 Sample.created
     = (Raise (HTTPException 404 "Proposal not found"), Sample.created).
Proof.
  split; [reflexivity|].
  exact (unknown_id_not_found _ _ _ Sample.created 2 Sample.two_rows
           [("msg", "boom")] 11 eq_refl).
Defined.

Lemma claim_takes_first_witness :
  db_search (@is_created _ _ _) (run Sample.script_created [])
  = [Sample.record_created]
  /\ exists i db',
       id Sample.record_created = Some i
       /\ claim_proposal 20 (run Sample.script_created [])
          = (Return (claimed 20 Sample.record_created), db')
       /\ state (claimed 20 Sample.record_created) = CLAIMED
       /\ last_updated_at (claimed 20 Sample.record_created) = 20
       /\ evolves Sample.record_created (claimed 20 Sample.record_created)
       /\ db_get i db' = Some (claimed 20 Sample.record_created)
       /\ (forall j, j <> i ->
             db_get j db' = db_get j (run Sample.script_created []))
       /\ db_search (@is_created _ _ _) db' = []
       /\ (forall j q, db_get j (run Sample.script_created []) = Some q ->
                       state q = CREATED -> i <= j).
Proof.
  split; [reflexivity|].
  exact (claim_takes_first _ _ _ Sample.script_created Sample.record_created
           [] 20 eq_refl).
Defined.

Lemma marks_read_back_witness :
  db_get 1 Sample.created = Some Sample.record_created
  /\ (Z.of_nat (List.length (rows Sample.two_rows))
      = n_candidates Sample.record_created ->
      let db' := snd (mark_processed 1 Sample.two_rows 12 Sample.created) in
      get_candidates 1 db' = (Return Sample.two_rows, db')
      /\ (exists p', get_proposal 1 db' = (Return p', db')
                     /\ candidates p' = Some Sample.two_rows
                     /\ error_message p' = error_message Sample.record_created))
  /\ (dict_lookup "msg" [("msg", "boom")] = Some "boom" ->
      let db' := snd (mark_failed 1 [("msg", "boom")] 12 Sample.created) in
      get_state 1 db' = (Return FAILED, db')
      /\ (exists p', get_proposal 1 db' = (Return p', db')
                     /\ error_message p' = Some "boom"
                     /\ candidates p' = candidates Sample.record_created)
      /\ fst (get_candidates 1 db') = fst (get_candidates 1 Sample.created)).
Proof.
  split; [reflexivity|].
  exact (marks_read_back _ _ _ Sample.created 1 Sample.record_created
           Sample.two_rows [("msg", "boom")] "boom" 12 eq_refl).
Defined.

Lemma mark_failed_without_msg_witness :
  db_get 1 Sample.created = Some Sample.record_created
  /\ dict_lookup "msg" [("message", "boom")] = None
  /\ mark_failed 1 [("message", "boom")] 12 Sample.created
     = (Raise (KeyError "msg"), Sample.created)
  /\ serve (POST_mark_failed (Some 1) [("message", "boom")]) 12 Sample.created
     = ({| status_code := 500; content := JInternalServerError |},
        Sample.created).
Proof.
  split; [reflexivity|]. split; [reflexivity|].
  exact (mark_failed_without_msg _ _ _ Sample.created 1 Sample.record_created
           [("message", "boom")] 12 eq_refl eq_refl).
Defined.

(** Three proposals, the second one claimed out of turn is not possible:
    claims go by id. *)
Example serial_claims_three :
  let db := run [(OpCreate (Sample.request 1), 1);
                 (OpCreate (Sample.request 2), 2);
                 (OpCreate (Sample.request 3), 3)] Sample.empty in
  map (fun r => match r with
                | Return p => (id p, Some (state p))
                | Raise _ => (None, None)
                end)
      (fst (claim_serially [10; 11; 12; 13] db))
  = [(Some 1, Some CLAIMED); (Some 2, Some CLAIMED); (Some 3, Some CLAIMED);
     (None, None)].
Proof. reflexivity. Qed.

(** * Further properties of the worker *)

Section UnitOrder.

Variables (StrategyData Experiments Row : Type).
Variables (Strategy DataFrame Domain : Type).
Variable strategies_map : StrategyData -> pyres pyexc Strategy.
Variable to_pandas : Experiments -> pyres pyexc DataFrame.
Variable strategy_tell : Strategy -> DataFrame -> pyres pyexc Strategy.
Variable strategy_ask : Strategy -> Z -> pyres pyexc DataFrame.
Variable domain : StrategyData -> Domain.
Variable from_pandas : DataFrame -> Domain -> pyres pyexc (Candidates Row).

Local Abbreviation Proposal := (Proposal StrategyData Experiments Row).
Local Abbreviation unit_try :=
  (process_proposal_try strategies_map to_pandas strategy_tell strategy_ask
                        domain from_pandas).

Ltac unit_cases :=
  unfold process_proposal_try, unit_plan, u_bind, u_call, u_ret;
  repeat (simpl;
          match goal with
          | |- context [strategies_map ?a] => destruct (strategies_map a)
          | |- context [experiments ?p] => destruct (experiments p)
          | |- context [to_pandas ?a] => destruct (to_pandas a)
          | |- context [strategy_tell ?a ?b] => destruct (strategy_tell a b)
          | |- context [strategy_ask ?a ?b] => destruct (strategy_ask a b)
          | |- context [from_pandas ?a ?b] => destruct (from_pandas a b)
          end);
  simpl.

Ltac plan_prefix k :=
  exists k;
  solve [ split; [reflexivity|];
          split; [simpl; lia|];
          split; [intros [m Hm]; first [discriminate Hm|reflexivity]|];
          intros He; first [discriminate He|split; reflexivity] ].


End UnitOrder.

(** ** What a round sends *)

Section RoundTrace.

Variables (StrategyData Experiments Row World Seconds : Type).

Local Abbreviation Proposal := (Proposal StrategyData Experiments Row).
Local Abbreviation Request := (Request Row).
Local Abbreviation Response := (Response StrategyData Experiments Row).
Local Abbreviation wstate := (wstate Row World).

Variable py_repr : Json StrategyData Experiments Row -> string.
Variable requests_send : Request -> World -> pyres pyexc Response * World.
Variable start_process : Proposal -> World -> pyres pyexc unit * World.
Variable receiver_poll : Seconds -> World -> pyres pyexc bool * World.
Variable receiver_recv : World -> pyres pyexc (Message Row) * World.
Variable time_sleep : Seconds -> World -> World.
Variable job_check_interval : Seconds.

Local Abbreviation claim := (Client_claim_proposal requests_send).
Local Abbreviation mark_processed' :=
  (Client_mark_processed py_repr requests_send).
Local Abbreviation mark_failed' := (Client_mark_failed py_repr requests_send).
Local Abbreviation loop :=
  (poll_loop py_repr requests_send receiver_poll receiver_recv
             job_check_interval).
Local Abbreviation try_body :=
  (work_round_try py_repr requests_send start_process receiver_poll
                  receiver_recv job_check_interval).
Local Abbreviation round_of :=
  (work_round py_repr requests_send start_process receiver_poll receiver_recv
              time_sleep job_check_interval).
Local Abbreviation work_of :=
  (work py_repr requests_send start_process receiver_poll receiver_recv
        time_sleep job_check_interval).

Implicit Types (s : wstate) (p : Proposal) (e : pyexc).

Lemma w_world_round (A : Type) (f : World -> pyres pyexc A * World) s :
  round (snd (w_world f s)) = round s.
Proof. unfold w_world. now destruct (f (world s)) as [[a|e] w]. Qed.

Lemma claim_round s : round (snd (claim s)) = round s.
Proof.
  unfold Client_claim_proposal, w_bind, w_request.
  destruct (requests_send GET_claim (world s)) as [[r|e] w]; simpl;
    [|reflexivity].
  destruct (status_code r =? 404); [reflexivity|].
  now destruct (content r).
Qed.

Lemma mark_processed_round i c s :
  round (snd (mark_processed' i c s)) = round s.
Proof.
  unfold Client_mark_processed, w_bind, w_request.
  destruct (requests_send _ (world s)) as [[r|e] w]; simpl; [|reflexivity].
  unfold parse_state. now destruct (content r).
Qed.

Lemma mark_failed_round i m s :
  round (snd (mark_failed' i m s)) = round s.
Proof.
  unfold Client_mark_failed, w_bind, w_request.
  destruct (requests_send _ (world s)) as [[r|e] w]; simpl; [|reflexivity].
  unfold parse_state. now destruct (content r).
Qed.

Lemma mark_processed_answers i c s :
  fst (mark_processed' i c s) <> WWaiting.
Proof.
  unfold Client_mark_processed, w_bind, w_request.
  destruct (requests_send _ (world s)) as [[r|e] w]; simpl; [|discriminate].
  unfold parse_state. destruct (content r); discriminate.
Qed.

(** A step that sent nothing and did not return. *)
Lemma silent_step p (r : wres unit) s s' :
  round s' = round s -> sent s' = sent s ->
  (forall u, r <> WReturn u) ->
  round s' = round s
  /\ exists l, sent s' = sent s ++ l /\ at_most_processed p l
               /\ (forall u, r = WReturn u -> l <> [])
               /\ (r = WWaiting -> l = []).
Proof.
  intros Hr Hs Hnot. split; [exact Hr|]. exists [].
  rewrite app_nil_r. split; [exact Hs|]. split; [now left|].
  split; [|reflexivity]. intros u Hu. now destruct (Hnot u).
Qed.

(** What the loop has sent when it ends, by the way it ends: one
    [mark_processed] when it returned, nothing while it waits, and
    nothing or one [mark_processed] when it raised. *)
Lemma poll_loop_trace polls p s :
  round (snd (loop polls p s)) = round s
  /\ exists l,
       sent (snd (loop polls p s)) = sent s ++ l
       /\ at_most_processed p l
       /\ (forall u, fst (loop polls p s) = WReturn u -> l <> [])
       /\ (fst (loop polls p s) = WWaiting -> l = []).
Proof.
  revert s. induction polls as [|polls IH]; intros s.
  - simpl. apply silent_step; [reflexivity|reflexivity|discriminate].
  - cbn [poll_loop]. unfold w_bind.
    pose proof (w_world_sent _ _ _ (receiver_poll job_check_interval) s)
      as Hp.
    pose proof (w_world_round _ (receiver_poll job_check_interval) s) as Hpr.
    destruct (w_world (receiver_poll job_check_interval) s)
      as [[[|]|e|] s1]; cbn [fst snd] in *;
      try (apply silent_step; [assumption|assumption|discriminate]).
    + pose proof (w_world_sent _ _ _ receiver_recv s1) as Hr.
      pose proof (w_world_round _ receiver_recv s1) as Hrr.
      destruct (w_world receiver_recv s1) as [[[c|e]|e|] s2];
        unfold w_raise; cbn [fst snd] in *;
        try (apply silent_step; [congruence|congruence|discriminate]);
        try (destruct (is_exception e); cbv beta; cbn [fst snd];
             (apply silent_step; [congruence|congruence|discriminate])).
      pose proof (mark_processed_sent _ _ _ _ py_repr requests_send (id p) c
                    s2) as Hm.
      pose proof (mark_processed_round (id p) c s2) as Hmr.
      pose proof (mark_processed_answers (id p) c s2) as Hma.
      destruct (mark_processed' (id p) c s2) as [[st|e|] s3];
        cbn [fst snd w_ret] in *;
        [| |now destruct Hma];
        (split; [congruence|]);
        exists [POST_mark_processed (id p) c];
        (split; [congruence|]);
        (split; [right; now exists c|]);
        (split; [intros; discriminate|]); intros; discriminate.
    + destruct (IH s1) as [Hround [l [Hl [Hshape [Hret Hwait]]]]].
      split; [congruence|]. exists l.
      split; [congruence|]. split; [exact Hshape|]. split; assumption.
Qed.

Lemma work_round_try_trace polls p s :
  round (snd (try_body polls p s)) = round s
  /\ exists l,
       sent (snd (try_body polls p s)) = sent s ++ l
       /\ at_most_processed p l
       /\ (forall u, fst (try_body polls p s) = WReturn u -> l <> [])
       /\ (fst (try_body polls p s) = WWaiting -> l = []).
Proof.
  unfold work_round_try, w_bind.
  pose proof (w_world_sent _ _ _ (start_process p) s) as Hs.
  pose proof (w_world_round _ (start_process p) s) as Hr.
  destruct (w_world (start_process p) s) as [[[]|e|] s1]; cbn [fst snd] in *;
    try (apply silent_step; [assumption|assumption|discriminate]).
  destruct (poll_loop_trace polls p s1) as [Hround [l [Hl H]]].
  split; [congruence|]. exists l. split; [congruence|exact H].
Qed.

(** The round when the claim brought no proposal. *)
Lemma round_claim_raises polls s e w1 :
  requests_send GET_claim (world s) = (Raise e, w1) ->
  round_of polls s
  = (WRaise e, {| world := w1; round := round s + 1;
                  sent := sent s ++ [GET_claim] |}).
Proof.
  intros Hsend. unfold work_round, w_bind, Client_claim_proposal, w_bind,
    w_request, begin_round. simpl. now rewrite Hsend.
Qed.

Lemma round_no_work polls s r w1 :
  requests_send GET_claim (world s) = (Return r, w1) ->
  status_code r = 404 ->
  round_of polls s
  = (WReturn tt, {| world := time_sleep job_check_interval w1;
                    round := round s + 1; sent := sent s ++ [GET_claim] |}).
Proof.
  intros Hsend Hst. unfold work_round, w_bind, Client_claim_proposal, w_bind,
    w_request, begin_round. simpl. rewrite Hsend. simpl. now rewrite Hst.
Qed.

(** X13: whatever happens in it, a round adds one to the round counter
    and sends the claim request first; after it come at most one
    [mark_processed] and then at most one [mark_failed], both for the
    same proposal id, and nothing else. *)
Theorem work_round_sends polls s :
  round (snd (round_of polls s)) = round s + 1
  /\ exists l,
       sent (snd (round_of polls s)) = sent s ++ GET_claim :: l
       /\ (l = []
           \/ exists i,
                (exists c, l = [POST_mark_processed i c])
                \/ (exists m, l = [POST_mark_failed i [("msg", m)]])
                \/ (exists c m, l = [POST_mark_processed i c;
                                     POST_mark_failed i [("msg", m)]])).
Proof.
  unfold work_round, w_bind.
  pose proof (claim_sent _ _ _ _ requests_send (begin_round s)) as Hcs.
  pose proof (claim_round (begin_round s)) as Hcr.
  destruct (claim (begin_round s)) as [[[p|]|e|] s1]; cbn [fst snd] in *.
  - unfold w_try.
    destruct (work_round_try_trace polls p s1)
      as [Htr [l1 [Hl1 [Hshape _]]]].
    destruct (try_body polls p s1) as [[[]|e|] s2]; cbn [fst snd] in *.
    + split; [rewrite Htr, Hcr; reflexivity|]. exists l1.
      split; [rewrite Hl1, Hcs, <- app_assoc; reflexivity|].
      destruct Hshape as [->|[c ->]]; [now left|right].
      exists (id p). left. now exists c.
    + destruct (is_exception e); cycle 1.
      { cbn [fst snd].
        split; [rewrite Htr, Hcr; reflexivity|]. exists l1.
        split; [rewrite Hl1, Hcs, <- app_assoc; reflexivity|].
        destruct Hshape as [->|[c ->]]; [now left|right].
        exists (id p). left. now exists c. }
      unfold w_bind.
      destruct (mark_failed_sent _ _ _ _ py_repr requests_send (id p)
                  (str e) s2) as [Hms _].
      pose proof (mark_failed_round (id p) (str e) s2) as Hmr.
      assert (Hboth : round (snd (mark_failed' (id p) (str e) s2)) = round s + 1
                /\ sent (snd (mark_failed' (id p) (str e) s2))
                   = sent s ++ GET_claim
                       :: l1 ++ [POST_mark_failed (id p) [("msg", str e)]]).
      { split; [rewrite Hmr, Htr, Hcr; reflexivity|].
        rewrite Hms, Hl1, Hcs, <- !app_assoc. reflexivity. }
      destruct Hboth as [Hb1 Hb2].
      assert (Hl : exists l, sent (snd (mark_failed' (id p) (str e) s2))
                             = sent s ++ GET_claim :: l
                   /\ (l = [] \/ exists i,
                          (exists c, l = [POST_mark_processed i c])
                          \/ (exists m, l = [POST_mark_failed i [("msg", m)]])
                          \/ (exists c m, l = [POST_mark_processed i c;
                                 POST_mark_failed i [("msg", m)]]))).
      { exists (l1 ++ [POST_mark_failed (id p) [("msg", str e)]]).
        split; [exact Hb2|]. right. exists (id p).
        destruct Hshape as [->|[c ->]]; simpl.
        - right; left. now exists (str e).
        - right; right. now exists c, (str e). }
      destruct (mark_failed' (id p) (str e) s2) as [[st|e'|] s3];
        cbn [fst snd w_ret] in *; (split; [exact Hb1|exact Hl]).
    + split; [rewrite Htr, Hcr; reflexivity|]. exists l1.
      split; [rewrite Hl1, Hcs, <- app_assoc; reflexivity|].
      destruct Hshape as [->|[c ->]]; [now left|right].
      exists (id p). left. now exists c.
  - unfold Worker_sleep. cbn [fst snd round sent].
    split; [exact Hcr|]. exists []. split; [exact Hcs|now left].
  - split; [exact Hcr|]. exists []. split; [exact Hcs|now left].
  - split; [exact Hcr|]. exists []. split; [exact Hcs|now left].
Qed.

(** X14: a round whose claim brings no proposal marks nothing. When the
    claim request itself fails, the exception leaves the round with only
    that request sent; when the service answers 404, the round sleeps
    for the check interval and returns. *)
Theorem work_round_without_proposal polls s :
  (forall e w1,
     requests_send GET_claim (world s) = (Raise e, w1) ->
     round_of polls s
     = (WRaise e, {| world := w1; round := round s + 1;
                     sent := sent s ++ [GET_claim] |}))
  /\ (forall r w1,
        requests_send GET_claim (world s) = (Return r, w1) ->
        status_code r = 404 ->
        round_of polls s
        = (WReturn tt, {| world := time_sleep job_check_interval w1;
                          round := round s + 1;
                          sent := sent s ++ [GET_claim] |})).
Proof.
  split.
  - intros e w1. apply round_claim_raises.
  - intros r w1. apply round_no_work.
Qed.

(** X15: when the claim returned a proposal and the body of the [try]
    returned, the round returns having sent, after the claim, exactly one
    [mark_processed] for that proposal and no [mark_failed]. *)
Theorem work_round_processed polls s p s1 s2 :
  claim (begin_round s) = (WReturn (Some p), s1) ->
  try_body polls p s1 = (WReturn tt, s2) ->
  round_of polls s = (WReturn tt, s2)
  /\ exists c,
       sent s2 = sent s ++ [GET_claim; POST_mark_processed (id p) c].
Proof.
  intros Hc Ht. split.
  - unfold work_round, w_bind. rewrite Hc. unfold w_try. now rewrite Ht.
  - pose proof (claim_sent _ _ _ _ requests_send (begin_round s)) as Hcs.
    rewrite Hc in Hcs. cbn [fst snd begin_round sent] in Hcs.
    destruct (work_round_try_trace polls p s1)
      as [_ [l [Hl [Hshape [Hret _]]]]].
    rewrite Ht in Hl, Hret. cbn [fst snd] in Hl, Hret.
    destruct Hshape as [->|[c ->]]; [now destruct (Hret tt eq_refl)|].
    exists c. rewrite Hl, Hcs, <- app_assoc. reflexivity.
Qed.

(** X16: while the child process has not answered within the polls
    followed, the round has sent the claim and nothing else: the
    proposal is neither marked processed nor marked failed. *)
Theorem work_round_waiting polls s p s1 s2 :
  claim (begin_round s) = (WReturn (Some p), s1) ->
  try_body polls p s1 = (WWaiting, s2) ->
  round_of polls s = (WWaiting, s2)
  /\ sent s2 = sent s ++ [GET_claim].
Proof.
  intros Hc Ht. split.
  - unfold work_round, w_bind. rewrite Hc. unfold w_try. now rewrite Ht.
  - pose proof (claim_sent _ _ _ _ requests_send (begin_round s)) as Hcs.
    rewrite Hc in Hcs. cbn [fst snd begin_round sent] in Hcs.
    destruct (work_round_try_trace polls p s1)
      as [_ [l [Hl [_ [_ Hwait]]]]].
    rewrite Ht in Hl, Hwait. cbn [fst snd] in Hl, Hwait.
    rewrite (Hwait eq_refl), app_nil_r in Hl. congruence.
Qed.

(** X17: with a service that answers every claim with 404, the worker's
    loop goes round and round: after any number of rounds it has sent
    one claim per round and nothing else, and counted the rounds. *)
Theorem work_idles rounds polls s :
  (forall w, exists r w',
     requests_send GET_claim w = (Return r, w') /\ status_code r = 404) ->
  exists s',
    work_of rounds polls s = (WReturn tt, s')
    /\ round s' = round s + Z.of_nat rounds
    /\ sent s' = sent s ++ repeat GET_claim rounds.
Proof.
  intros Hidle. revert s. induction rounds as [|n IH]; intros s.
  - exists s. cbn [work w_ret repeat]. rewrite app_nil_r.
    repeat split. lia.
  - destruct (Hidle (world s)) as [r [w1 [Hsend Hst]]].
    cbn [work]. unfold w_bind.
    rewrite (round_no_work polls s r w1 Hsend Hst).
    destruct (IH {| world := time_sleep job_check_interval w1;
                    round := round s + 1;
                    sent := sent s ++ [GET_claim] |}) as [s' [Hw [Hr Hs]]].
    exists s'. split; [exact Hw|]. cbn [round sent] in Hr, Hs.
    split; [lia|]. rewrite Hs, <- app_assoc. reflexivity.
Qed.

End RoundTrace.

(** ** The client against the service *)

Section ClientService.

Variables (StrategyData Experiments Row World : Type).

Local Abbreviation Proposal := (Proposal StrategyData Experiments Row).
Local Abbreviation TinyDB := (TinyDB StrategyData Experiments Row).
Local Abbreviation op := (op StrategyData Experiments Row).
Local Abbreviation Request := (Request Row).
Local Abbreviation Response := (Response StrategyData Experiments Row).
Local Abbreviation wstate := (wstate Row World).

Variable py_repr : Json StrategyData Experiments Row -> string.
Variable requests_send : Request -> World -> pyres pyexc Response * World.

Implicit Types (db : TinyDB) (p : Proposal) (i : Z) (s : wstate).

(** X18: [Client.mark_processed], when its request is served on a table
    that holds the proposal, returns FINISHED if the row count is the
    requested one; if it is not, the 400 of the service is not returned
    as a value: reading the state out of the response raises. The same
    happens when the id is unknown (404) or is [None] (422). *)
Theorem client_mark_processed_served db i p (c : Candidates Row) now s :
  db_get i db = Some p ->
  (forall w',
     requests_send (POST_mark_processed (Some i) c) (world s)
     = (Return (fst (serve (POST_mark_processed (Some i) c) now db)), w') ->
     (Z.of_nat (List.length (rows c)) = n_candidates p ->
      fst (Client_mark_processed py_repr requests_send (Some i) c s) = WReturn FINISHED)
     /\ (Z.of_nat (List.length (rows c)) <> n_candidates p ->
         exists e,
           fst (Client_mark_processed py_repr requests_send (Some i) c s) = WRaise e))
  /\ (forall j w',
        db_get j db = None ->
        requests_send (POST_mark_processed (Some j) c) (world s)
        = (Return (fst (serve (POST_mark_processed (Some j) c) now db)), w') ->
        exists e,
          fst (Client_mark_processed py_repr requests_send (Some j) c s) = WRaise e)
  /\ (forall w',
        requests_send (POST_mark_processed None c) (world s)
        = (Return (fst (serve (POST_mark_processed None c) now db)), w') ->
        exists e,
          fst (Client_mark_processed py_repr requests_send None c s) = WRaise e).
Proof.
  intros Hget. split; [|split].
  - intros w' Hsend. split; intros Hn;
      unfold Client_mark_processed, w_bind, w_request; rewrite Hsend;
      unfold serve.
    + now rewrite (mark_processed_match _ _ _ _ _ _ _ _ Hget Hn).
    + rewrite (mark_processed_mismatch _ _ _ _ _ _ _ _ Hget Hn). simpl.
      eexists. reflexivity.
  - intros j w' Hj Hsend.
    unfold Client_mark_processed, w_bind, w_request. rewrite Hsend.
    unfold serve. rewrite (mark_processed_missing _ _ _ _ _ _ _ Hj). simpl.
    eexists. reflexivity.
  - intros w' Hsend.
    unfold Client_mark_processed, w_bind, w_request. rewrite Hsend.
    simpl. eexists. reflexivity.
Qed.

(** X19: [Client.mark_failed] sends the message under the key "msg",
    which is the key the handler reads: when its request is served on a
    table that holds the proposal it returns FAILED and the message is
    the stored [error_message]; with an unknown id it raises. *)
Theorem client_mark_failed_served db i p (msg : string) now s :
  db_get i db = Some p ->
  (forall w',
     requests_send (POST_mark_failed (Some i) [("msg", msg)]) (world s)
     = (Return (fst (serve (POST_mark_failed (Some i) [("msg", msg)]) now db)),
        w') ->
     fst (Client_mark_failed py_repr requests_send (Some i) msg s) = WReturn FAILED
     /\ exists p',
          db_get i (snd (serve (POST_mark_failed (Some i) [("msg", msg)])
                               now db)) = Some p'
          /\ error_message p' = Some msg /\ state p' = FAILED)
  /\ (forall j w',
        db_get j db = None ->
        requests_send (POST_mark_failed (Some j) [("msg", msg)]) (world s)
        = (Return (fst (serve (POST_mark_failed (Some j) [("msg", msg)])
                              now db)), w') ->
        exists e,
          fst (Client_mark_failed py_repr requests_send (Some j) msg s) = WRaise e).
Proof.
  intros Hget. split.
  - intros w' Hsend.
    assert (Hmf : mark_failed i [("msg", msg)] now db
                  = (Return FAILED, updated (fun _ => failed msg now p) i db))
      by now apply mark_failed_msg.
    split.
    + unfold Client_mark_failed, w_bind, w_request. rewrite Hsend.
      unfold serve. now rewrite Hmf.
    + exists (failed msg now p). unfold serve. rewrite Hmf. simpl.
      split; [|split; reflexivity].
      now apply (db_get_updated_same _ _ _ (fun _ => failed msg now p) db i p).
  - intros j w' Hj Hsend.
    unfold Client_mark_failed, w_bind, w_request. rewrite Hsend.
    unfold serve. rewrite (mark_failed_missing _ _ _ _ _ _ _ Hj). simpl.
    eexists. reflexivity.
Qed.

(** X20: [Client.claim_proposal], when its request is served on a table
    built by service calls that holds a CREATED record, returns the
    first of them as the service stored it, in state CLAIMED. *)
Theorem client_claim_served (script : list (op * Z)) p rest now s w' :
  db_search (@is_created _ _ _) (run script []) = p :: rest ->
  requests_send GET_claim (world s)
  = (Return (fst (serve GET_claim now (run script []))), w') ->
  Client_claim_proposal requests_send s
  = (WReturn (Some (claimed now p)),
     {| world := w'; round := round s; sent := sent s ++ [GET_claim] |})
  /\ state (claimed now p) = CLAIMED
  /\ exists i, id p = Some i
       /\ db_get i (snd (serve GET_claim now (run script [])))
          = Some (claimed now p).
Proof.
  intros Hs Hsend.
  pose proof (run_db_ok _ _ _ script [] (empty_db_ok _ _ _)) as Hok.
  assert (Hin : In p (db_search (@is_created _ _ _) (run script [])))
    by (rewrite Hs; now left).
  apply db_search_In in Hin as [_ [i Hin]].
  destruct (db_ok_stored _ _ _ _ _ _ Hok Hin) as [Hid _]. simpl in Hid.
  pose proof (In_db_get _ _ _ _ _ _ (proj1 Hok) Hin) as Hget.
  pose proof (claim_proposal_first _ _ _ _ now _ _ _ Hs Hid Hget) as Hc.
  split; [|split; [reflexivity|]].
  - unfold Client_claim_proposal, w_bind, w_request. rewrite Hsend.
    unfold serve. rewrite Hc. reflexivity.
  - exists i. split; [exact Hid|]. unfold serve. rewrite Hc. simpl.
    now apply db_get_updated_same.
Qed.

End ClientService.

(** ** The further statements in the sample deployments *)

Lemma work_round_processed_witness :
  Sample.after_claim Sample.dep_up
  = (WReturn (Some Sample.record_claimed), snd (Sample.after_claim Sample.dep_up))
  /\ Sample.after_try Sample.dep_up 5
     = (WReturn tt, snd (Sample.after_try Sample.dep_up 5))
  /\ Sample.round Sample.dep_up 5
     = (WReturn tt, snd (Sample.after_try Sample.dep_up 5))
  /\ exists c,
       sent (snd (Sample.after_try Sample.dep_up 5))
       = sent (Sample.fresh Sample.dep_up)
         ++ [GET_claim; POST_mark_processed (id Sample.record_claimed) c].
Proof.
  split; [reflexivity|]. split; [reflexivity|].
  exact (work_round_processed _ _ _ _ _ Sample.py_repr
           (@dep_send _ _ _) (dep_start_process Sample.child_sends)
           (@dep_poll _ _ _) (@dep_recv _ _ _) (@dep_sleep _ _ _) 1 5
           (Sample.fresh Sample.dep_up) Sample.record_claimed
           (snd (Sample.after_claim Sample.dep_up))
           (snd (Sample.after_try Sample.dep_up 5)) eq_refl eq_refl).
Defined.

Lemma work_round_waiting_witness :
  Sample.after_claim Sample.dep_up
  = (WReturn (Some Sample.record_claimed), snd (Sample.after_claim Sample.dep_up))
  /\ Sample.after_try Sample.dep_up 2
     = (WWaiting, snd (Sample.after_try Sample.dep_up 2))
  /\ Sample.round Sample.dep_up 2
     = (WWaiting, snd (Sample.after_try Sample.dep_up 2))
  /\ sent (snd (Sample.after_try Sample.dep_up 2))
     = sent (Sample.fresh Sample.dep_up) ++ [GET_claim].
Proof.
  split; [reflexivity|]. split; [reflexivity|].
  exact (work_round_waiting _ _ _ _ _ Sample.py_repr
           (@dep_send _ _ _) (dep_start_process Sample.child_sends)
           (@dep_poll _ _ _) (@dep_recv _ _ _) (@dep_sleep _ _ _) 1 2
           (Sample.fresh Sample.dep_up) Sample.record_claimed
           (snd (Sample.after_claim Sample.dep_up))
           (snd (Sample.after_try Sample.dep_up 2)) eq_refl eq_refl).
Defined.

Lemma work_idles_witness :
  (forall w, exists r w',
     Sample.idle_send GET_claim w = (Return r, w') /\ status_code r = 404)
  /\ exists s',
       work Sample.py_repr Sample.idle_send Sample.idle_start Sample.idle_poll
            Sample.idle_recv Sample.idle_sleep 1 3 5 Sample.idle_worker
       = (WReturn tt, s')
       /\ round s' = round Sample.idle_worker + Z.of_nat 3
       /\ sent s' = sent Sample.idle_worker ++ repeat GET_claim 3.
Proof.
  assert (H : forall w, exists r w',
              Sample.idle_send GET_claim w = (Return r, w')
              /\ status_code r = 404).
  { intros w. eexists _, _. split; reflexivity. }
  split; [exact H|].
  exact (work_idles _ _ _ _ _ Sample.py_repr Sample.idle_send Sample.idle_start
           Sample.idle_poll Sample.idle_recv Sample.idle_sleep 1 3 5
           Sample.idle_worker H).
Defined.

Lemma client_mark_processed_served_witness :
  db_get 1 Sample.created = Some Sample.record_created
  /\ dep_send (POST_mark_processed (Some 1) Sample.two_rows) Sample.dep_up
     = (Return (fst (serve (POST_mark_processed (Some 1) Sample.two_rows) 20
                           Sample.created)),
        snd (dep_send (POST_mark_processed (Some 1) Sample.two_rows)
                      Sample.dep_up))
  /\ fst (Client_mark_processed Sample.py_repr (@dep_send _ _ _) (Some 1) Sample.two_rows
            (Sample.fresh Sample.dep_up)) = WReturn FINISHED
  /\ dep_send (POST_mark_processed (Some 1) Sample.one_row) Sample.dep_up
     = (Return (fst (serve (POST_mark_processed (Some 1) Sample.one_row) 20
                           Sample.created)),
        snd (dep_send (POST_mark_processed (Some 1) Sample.one_row)
                      Sample.dep_up))
  /\ exists e,
       fst (Client_mark_processed Sample.py_repr (@dep_send _ _ _) (Some 1) Sample.one_row
              (Sample.fresh Sample.dep_up)) = WRaise e.
Proof.
  split; [reflexivity|]. split; [reflexivity|]. split.
  - apply (proj1 (client_mark_processed_served _ _ _ _ Sample.py_repr
                    (@dep_send _ _ _)
                    Sample.created 1 Sample.record_created Sample.two_rows 20
                    (Sample.fresh Sample.dep_up) eq_refl) _ eq_refl).
    reflexivity.
  - split; [reflexivity|].
    apply (proj1 (client_mark_processed_served _ _ _ _ Sample.py_repr
                    (@dep_send _ _ _)
                    Sample.created 1 Sample.record_created Sample.one_row 20
                    (Sample.fresh Sample.dep_up) eq_refl) _ eq_refl).
    discriminate.
Defined.

Lemma client_mark_failed_served_witness :
  db_get 1 Sample.created = Some Sample.record_created
  /\ dep_send (POST_mark_failed (Some 1) [("msg", "boom")]) Sample.dep_up
     = (Return (fst (serve (POST_mark_failed (Some 1) [("msg", "boom")]) 20
                           Sample.created)),
        snd (dep_send (POST_mark_failed (Some 1) [("msg", "boom")])
                      Sample.dep_up))
  /\ fst (Client_mark_failed Sample.py_repr (@dep_send _ _ _) (Some 1) "boom"
            (Sample.fresh Sample.dep_up)) = WReturn FAILED
  /\ exists p',
       db_get 1 (snd (serve (POST_mark_failed (Some 1) [("msg", "boom")]) 20
                            Sample.created)) = Some p'
       /\ error_message p' = Some "boom" /\ state p' = FAILED.
Proof.
  split; [reflexivity|]. split; [reflexivity|].
  exact (proj1 (client_mark_failed_served _ _ _ _ Sample.py_repr
                  (@dep_send _ _ _)
                  Sample.created 1 Sample.record_created "boom" 20
                  (Sample.fresh Sample.dep_up) eq_refl) _ eq_refl).
Defined.

Lemma client_claim_served_witness :
  db_search (@is_created _ _ _) (run Sample.script_created [])
  = [Sample.record_created]
  /\ dep_send GET_claim Sample.dep_up
     = (Return (fst (serve GET_claim 20 (run Sample.script_created []))),
        snd (dep_send GET_claim Sample.dep_up))
  /\ Client_claim_proposal (@dep_send _ _ _) (Sample.fresh Sample.dep_up)
     = (WReturn (Some (claimed 20 Sample.record_created)),
        {| world := snd (dep_send GET_claim Sample.dep_up);
           round := round (Sample.fresh Sample.dep_up);
           sent := sent (Sample.fresh Sample.dep_up) ++ [GET_claim] |})
  /\ state (claimed 20 Sample.record_created) = CLAIMED
  /\ exists i, id Sample.record_created = Some i
       /\ db_get i (snd (serve GET_claim 20 (run Sample.script_created [])))
          = Some (claimed 20 Sample.record_created).
Proof.
  split; [reflexivity|]. split; [reflexivity|].
  exact (client_claim_served _ _ _ _ (@dep_send _ _ _)
           Sample.script_created Sample.record_created [] 20
           (Sample.fresh Sample.dep_up)
           (snd (dep_send GET_claim Sample.dep_up)) eq_refl eq_refl).
Defined.

(** ** A whole round against the service *)

Section WholeRound.

Variables (StrategyData Experiments Row : Type).

Local Abbreviation Proposal := (Proposal StrategyData Experiments Row).
Local Abbreviation TinyDB := (TinyDB StrategyData Experiments Row).
Local Abbreviation op := (op StrategyData Experiments Row).
Local Abbreviation deployment := (deployment StrategyData Experiments Row).
Local Abbreviation wstate := (wstate Row deployment).

Variable child_sends : Proposal -> list (Message Row).
Variable py_repr : Json StrategyData Experiments Row -> string.
Variable job_check_interval : Z.

Local Abbreviation send := (@dep_send StrategyData Experiments Row).
Local Abbreviation loop :=
  (poll_loop py_repr send (@dep_poll _ _ _) (@dep_recv _ _ _)
             job_check_interval).

Implicit Types (db : TinyDB) (p : Proposal) (i : Z) (s : wstate)
  (w : deployment).

Lemma dep_loop_receives p m q k : forall polls s,
  dep_wait (world s) = k ->
  dep_pipe (world s) = m :: q ->
  (k < polls)%nat ->
  exists w1,
    dep_db w1 = dep_db (world s)
    /\ dep_network w1 = dep_network (world s)
    /\ loop polls p s
       = dep_received py_repr p m
           {| world := w1; round := round s; sent := sent s |}.
Proof.
  induction k as [|k IH]; intros polls s Hwait Hpipe Hlt;
    (destruct polls as [|polls]; [lia|]);
    destruct s as [[db clk net delay wait pipe] r tr]; simpl in *; subst.
  - eexists. split; [|split]; cycle 2.
    + unfold w_bind at 1, w_world at 1, dep_poll. simpl.
      unfold w_bind at 1, w_world at 1, dep_recv. simpl.
      destruct m; reflexivity.
    + reflexivity.
    + reflexivity.
  - unfold w_bind at 1, w_world at 1, dep_poll. simpl.
    destruct (IH polls
                {| world := {| dep_db := db;
                               dep_clock := clk + job_check_interval;
                               dep_network := net; dep_delay := delay;
                               dep_wait := k; dep_pipe := m :: q |};
                   round := r; sent := tr |} eq_refl eq_refl)
      as [w1 [Hdb [Hnet Hloop]]]; [lia|].
    exists w1. simpl in *. repeat split; assumption.
Qed.

(** A request that gets through is served on the table at the clock
    reading, and the network stays up. *)
Lemma dep_send_up (req : Request Row) w :
  dep_network w = [] ->
  dep_send req w
  = (Return (fst (serve req (dep_clock w) (dep_db w))), snd (dep_send req w))
  /\ dep_db (snd (dep_send req w)) = snd (serve req (dep_clock w) (dep_db w))
  /\ dep_network (snd (dep_send req w)) = [].
Proof. intros Hnet. unfold dep_send. rewrite Hnet. repeat split. Qed.

Lemma w_request_up (req : Request Row) s :
  dep_network (world s) = [] ->
  w_request send req s
  = (WReturn (fst (serve req (dep_clock (world s)) (dep_db (world s)))),
     {| world := snd (dep_send req (world s)); round := round s;
        sent := sent s ++ [req] |}).
Proof.
  intros Hnet. unfold w_request.
  destruct (dep_send_up req (world s) Hnet) as [-> _]. reflexivity.
Qed.

(** [mark_failed] on a served table that holds the proposal. *)
Lemma dep_mark_failed p i (msg : string) s :
  dep_network (world s) = [] ->
  db_get i (dep_db (world s)) = Some p ->
  exists s',
    Client_mark_failed py_repr send (Some i) msg s = (WReturn FAILED, s')
    /\ sent s' = sent s ++ [POST_mark_failed (Some i) [("msg", msg)]]
    /\ db_get i (dep_db (world s'))
       = Some (failed msg (dep_clock (world s)) p).
Proof.
  intros Hnet Hget. unfold Client_mark_failed, w_bind.
  rewrite (w_request_up _ s Hnet). eexists. cbn [fst snd serve].
  assert (Hmf : mark_failed i [("msg", msg)] (dep_clock (world s))
                  (dep_db (world s))
                = (Return FAILED,
                   updated (fun _ => failed msg (dep_clock (world s)) p) i
                           (dep_db (world s))))
    by now apply mark_failed_msg.
  rewrite Hmf. cbn [fst snd respond content parse_state w_ret].
  split; [reflexivity|]. split; [reflexivity|].
  cbn [world]. destruct (dep_send_up (POST_mark_failed (Some i) [("msg", msg)])
                           (world s) Hnet) as [_ [-> _]].
  cbn [serve]. rewrite Hmf. cbn [snd].
  now apply (db_get_updated_same _ _ _
               (fun _ => failed msg (dep_clock (world s)) p)
               (dep_db (world s)) i p).
Qed.

(** [mark_processed] on a served table that holds the proposal. *)
Lemma dep_mark_processed p i (c : Candidates Row) s :
  dep_network (world s) = [] ->
  db_get i (dep_db (world s)) = Some p ->
  exists s',
    sent s' = sent s ++ [POST_mark_processed (Some i) c]
    /\ dep_network (world s') = []
    /\ (Z.of_nat (List.length (rows c)) = n_candidates p ->
        Client_mark_processed py_repr send (Some i) c s
        = (WReturn FINISHED, s')
        /\ db_get i (dep_db (world s'))
           = Some (processed c (dep_clock (world s)) p))
    /\ (Z.of_nat (List.length (rows c)) <> n_candidates p ->
        (exists text,
           Client_mark_processed py_repr send (Some i) c s
           = (WRaise (ValueError text), s'))
        /\ db_get i (dep_db (world s')) = Some p).
Proof.
  intros Hnet Hget.
  exists {| world := snd (dep_send (POST_mark_processed (Some i) c) (world s));
            round := round s;
            sent := sent s ++ [POST_mark_processed (Some i) c] |}.
  destruct (dep_send_up (POST_mark_processed (Some i) c) (world s) Hnet)
    as [_ [Hdb' Hnet']].
  split; [reflexivity|]. split; [exact Hnet'|].
  split; intros Hn; unfold Client_mark_processed, w_bind;
    rewrite (w_request_up _ s Hnet); cbn [fst snd serve world]; rewrite Hdb';
    cbn [serve].
  - rewrite (mark_processed_match _ _ _ _ _ _ _ _ Hget Hn).
    split; [reflexivity|]. cbn [snd].
    now apply (db_get_updated_same _ _ _
                 (fun _ => processed c (dep_clock (world s)) p)
                 (dep_db (world s)) i p).
  - rewrite (mark_processed_mismatch _ _ _ _ _ _ _ _ Hget Hn).
    split; [eexists; reflexivity|exact Hget].
Qed.

(** X21: a whole round against the service. When every request gets
    through, the table was built by service calls and holds a CREATED
    record, and the child's one message can be received within the polls
    followed, the round returns with the claimed proposal in a terminal
    state: FINISHED with the child's candidates when their number is the
    requested one; FAILED with the child's failure text when the child
    sent a failure that is an instance of [Exception] (with the text of
    the [AttributeError] of the missing [model_dump] when it sent any
    other exception object); and FAILED as well, with an error message
    and no candidates, when the service rejected the number of rows. *)
Theorem round_resolves (script : list (op * Z)) s polls p rest m :
  dep_db (world s) = run script [] ->
  dep_network (world s) = [] ->
  db_search (@is_created _ _ _) (run script []) = p :: rest ->
  child_sends (claimed (dep_clock (world s)) p) = [m] ->
  (dep_delay (world s) < polls)%nat ->
  let r := dep_work_round child_sends py_repr job_check_interval polls s in
  fst r = WReturn tt
  /\ exists i p',
       id p = Some i
       /\ db_get i (dep_db (world (snd r))) = Some p'
       /\ match m with
          | MsgCandidates c =>
              (Z.of_nat (List.length (rows c)) = n_candidates p ->
               state p' = FINISHED /\ candidates p' = Some c
               /\ sent (snd r)
                  = sent s ++ [GET_claim; POST_mark_processed (Some i) c])
              /\ (Z.of_nat (List.length (rows c)) <> n_candidates p ->
                  state p' = FAILED /\ candidates p' = None
                  /\ error_message p' <> None
                  /\ exists text,
                       sent (snd r)
                       = sent s ++ [GET_claim; POST_mark_processed (Some i) c;
                                    POST_mark_failed (Some i) [("msg", text)]])
          | MsgException e =>
              let e' := if is_exception e then e
                        else AttributeError_model_dump (exc_class e) in
              state p' = FAILED /\ error_message p' = Some (str e')
              /\ sent (snd r)
                 = sent s ++ [GET_claim;
                              POST_mark_failed (Some i) [("msg", str e')]]
          end.
Proof.
  intros Hdb Hnet Hs Hchild Hpolls.
  pose proof (run_db_ok _ _ _ script [] (empty_db_ok _ _ _)) as Hok.
  assert (Hin : In p (db_search (@is_created _ _ _) (run script [])))
    by (rewrite Hs; now left).
  apply db_search_In in Hin as [Hcr [i Hin]].
  destruct (db_ok_stored _ _ _ _ _ _ Hok Hin) as [Hid [Hout _]].
  simpl in Hid, Hout. apply StateEnum_eqb_eq in Hcr.
  unfold outcome_invariant in Hout. rewrite Hcr in Hout.
  destruct Hout as [Hnoc _].
  pose proof (In_db_get _ _ _ _ _ _ (proj1 Hok) Hin) as Hget.
  set (t0 := dep_clock (world s)) in *.
  set (q := claimed t0 p) in *.
  pose proof (claim_proposal_first _ _ _ _ t0 _ _ _ Hs Hid Hget) as Hclaim.
  fold q in Hclaim.
  (* the claim *)
  set (s0 := begin_round s).
  assert (Hnet0 : dep_network (world s0) = []) by exact Hnet.
  assert (Hc : Client_claim_proposal send s0
               = (WReturn (Some q),
                  {| world := snd (dep_send GET_claim (world s0));
                     round := round s0; sent := sent s0 ++ [GET_claim] |})).
  { unfold Client_claim_proposal, w_bind.
    rewrite (w_request_up _ s0 Hnet0). cbn [fst snd serve].
    change (dep_db (world s0)) with (dep_db (world s)). rewrite Hdb.
    change (dep_clock (world s0)) with t0. rewrite Hclaim. reflexivity. }
  set (s1 := {| world := snd (dep_send GET_claim (world s0));
                round := round s0; sent := sent s0 ++ [GET_claim] |}) in *.
  destruct (dep_send_up GET_claim (world s0) Hnet0) as [_ [Hdb1 Hnet1]].
  assert (Hdb1' : dep_db (world s1) = updated (claimed t0) i (run script [])).
  { cbn [world s1]. rewrite Hdb1. cbn [serve].
    change (dep_db (world s0)) with (dep_db (world s)). rewrite Hdb.
    change (dep_clock (world s0)) with t0. now rewrite Hclaim. }
  assert (Hgetq : db_get i (updated (claimed t0) i (run script [])) = Some q)
    by now apply db_get_updated_same.
  (* the child is started and its message received *)
  set (s2 := snd (w_world (dep_start_process child_sends q) s1)).
  assert (Hstart : w_world (dep_start_process child_sends q) s1
                   = (WReturn tt, s2)) by reflexivity.
  assert (Hs2 : dep_wait (world s2) = dep_delay (world s)
                /\ dep_pipe (world s2) = [m]
                /\ dep_db (world s2) = dep_db (world s1)
                /\ dep_network (world s2) = []
                /\ round s2 = round s + 1
                /\ sent s2 = sent s ++ [GET_claim]).
  { unfold s2, w_world, dep_start_process. cbn [fst snd world round sent].
    unfold s1, s0, begin_round. cbn [world round sent].
    unfold dep_send. rewrite Hnet. cbn. repeat split. exact Hchild. }
  destruct Hs2 as (Hw2 & Hp2 & Hdb2 & Hnet2 & Hr2 & Hsent2).
  destruct (dep_loop_receives q m [] (dep_delay (world s)) polls s2
              Hw2 Hp2 Hpolls) as [w3 [Hdb3 [Hnet3 Hloop]]].
  set (s3 := {| world := w3; round := round s2; sent := sent s2 |}) in *.
  assert (Hget3 : db_get i (dep_db (world s3)) = Some q).
  { cbn [world s3]. rewrite Hdb3, Hdb2, Hdb1'. exact Hgetq. }
  assert (Hnet3' : dep_network (world s3) = [])
    by (cbn [world s3]; congruence).
  assert (Hround : dep_work_round child_sends py_repr job_check_interval
                                  polls s
                   = w_try (dep_received py_repr q m)
                       (fun e => w_bind (Client_mark_failed py_repr send
                                           (id q) (str e))
                                        (fun _ => w_ret tt)) s3).
  { unfold dep_work_round, work_round, w_bind at 1. fold s0. rewrite Hc.
    unfold w_try, work_round_try, w_bind at 1. rewrite Hstart.
    now rewrite Hloop. }
  cbv zeta. rewrite Hround. clear Hround.
  assert (Hidq : id q = Some i) by exact Hid.
  destruct m as [c|e].
  - (* candidates *)
    destruct (dep_mark_processed q i c s3 Hnet3' Hget3)
      as [s4 [Hsent4 [Hnet4 [Hyes Hno]]]].
    destruct (Z.eq_dec (Z.of_nat (List.length (rows c))) (n_candidates p))
      as [Hn|Hn].
    + destruct (Hyes Hn) as [Hmp Hget4].
      unfold w_try, dep_received, w_bind. rewrite Hidq, Hmp.
      cbn [fst snd w_ret].
      split; [reflexivity|]. eexists i, _. split; [exact Hid|].
      split; [exact Hget4|]. split; [|intros Hne; contradiction].
      intros _. split; [reflexivity|]. split; [reflexivity|].
      rewrite Hsent4. cbn [sent s3]. rewrite Hsent2, <- app_assoc.
      reflexivity.
    + destruct (Hno Hn) as [[text Hmp] Hget4].
      destruct (dep_mark_failed q i (str (ValueError text)) s4 Hnet4 Hget4)
        as [s5 [Hmf [Hsent5 Hget5]]].
      unfold w_try, dep_received, w_bind. rewrite Hidq, Hmp.
      change (is_exception (ValueError text)) with true. cbv iota.
      rewrite Hmf. cbn [fst snd w_ret].
      split; [reflexivity|]. eexists i, _. split; [exact Hid|].
      split; [exact Hget5|]. split; [intros Heq; contradiction|].
      intros _. split; [reflexivity|]. split; [exact Hnoc|].
      split; [discriminate|]. eexists.
      rewrite Hsent5, Hsent4. cbn [sent s3]. rewrite Hsent2, <- !app_assoc.
      reflexivity.
  - (* a failure value *)
    set (e' := if is_exception e then e
               else AttributeError_model_dump (exc_class e)).
    assert (He' : is_exception e' = true).
    { unfold e'. destruct (is_exception e) eqn:He; [exact He|reflexivity]. }
    assert (Hrecv : dep_received py_repr q (MsgException e) s3
                    = (WRaise e', s3)).
    { unfold dep_received, e', w_raise. now destruct (is_exception e). }
    destruct (dep_mark_failed q i (str e') s3 Hnet3' Hget3)
      as [s5 [Hmf [Hsent5 Hget5]]].
    unfold w_try. rewrite Hrecv, He'. unfold w_bind. rewrite Hidq, Hmf.
    cbn [fst snd w_ret].
    split; [reflexivity|]. eexists i, _. split; [exact Hid|].
    split; [exact Hget5|]. split; [reflexivity|]. split; [reflexivity|].
    rewrite Hsent5. cbn [sent s3]. rewrite Hsent2, <- app_assoc. reflexivity.
Qed.

End WholeRound.

Lemma round_resolves_witness :
  dep_db (world (Sample.fresh Sample.dep_up)) = run Sample.script_created []
  /\ dep_network (world (Sample.fresh Sample.dep_up)) = []
  /\ db_search (@is_created _ _ _) (run Sample.script_created [])
     = [Sample.record_created]
  /\ Sample.child_sends
       (claimed (dep_clock (world (Sample.fresh Sample.dep_up)))
                Sample.record_created)
     = [MsgCandidates Sample.two_rows]
  /\ (dep_delay (world (Sample.fresh Sample.dep_up)) < 5)%nat
  /\ let r := dep_work_round Sample.child_sends Sample.py_repr 1 5
                (Sample.fresh Sample.dep_up) in
     fst r = WReturn tt
     /\ exists i p',
          id Sample.record_created = Some i
          /\ db_get i (dep_db (world (snd r))) = Some p'
          /\ (Z.of_nat (List.length (rows Sample.two_rows))
                = n_candidates Sample.record_created ->
              state p' = FINISHED /\ candidates p' = Some Sample.two_rows
              /\ sent (snd r)
                 = sent (Sample.fresh Sample.dep_up)
                   ++ [GET_claim; POST_mark_processed (Some i) Sample.two_rows])
          /\ (Z.of_nat (List.length (rows Sample.two_rows))
                <> n_candidates Sample.record_created ->
              state p' = FAILED /\ candidates p' = None
              /\ error_message p' <> None
              /\ exists text,
                   sent (snd r)
                   = sent (Sample.fresh Sample.dep_up)
                     ++ [GET_claim;
                         POST_mark_processed (Some i) Sample.two_rows;
                         POST_mark_failed (Some i) [("msg", text)]]).
Proof.
  assert (Hlt : (dep_delay (world (Sample.fresh Sample.dep_up)) < 5)%nat)
    by (simpl; lia).
  split; [reflexivity|]. split; [reflexivity|]. split; [reflexivity|].
  split; [reflexivity|]. split; [exact Hlt|].
  exact (round_resolves _ _ _ Sample.child_sends Sample.py_repr 1
           Sample.script_created
           (Sample.fresh Sample.dep_up) 5 Sample.record_created []
           (MsgCandidates Sample.two_rows)
           eq_refl eq_refl eq_refl eq_refl Hlt).
Defined.

(** The round with a child that returns one row where two were asked
    for: the service rejects them and the proposal ends FAILED. *)
Example round_wrong_count :
  let one (p : Proposal string unit nat) := [MsgCandidates Sample.one_row] in
  let r := dep_work_round one Sample.py_repr 1 5
             (Sample.fresh Sample.dep_up) in
  fst r = WReturn tt
  /\ get_state 1 (dep_db (world (snd r)))
     = (Return FAILED, dep_db (world (snd r)))
  /\ map (@is_mark_failed nat) (sent (snd r)) = [false; false; true].
Proof. repeat split. Qed.
